(** * stellar-nest: payment and account services

    A shallow embedding of [PaymentService] (payment.service.ts) and of
    [AccountUtilsService] and [AccountService] (account-utils.service.ts,
    account.service.ts), with the properties their specification states.

    The services are asynchronous TypeScript methods that talk to Horizon
    through [ServerService] and build transactions with the Stellar SDK.
    They are embedded in a state-and-exception monad: the state records the
    calls made to the collaborators, in order, and the one
    [TransactionBuilder] a method allocates; an exception is a thrown
    JavaScript [Error]; [await] is sequencing.

    What is not part of these files is a parameter of the services: the
    Stellar SDK ([Keypair], [Asset], [Operation]), the injected
    [ServerService], [SignersService] and [PaymentUtilsService], the helper
    [getAssetCode] and the constants.  The answer of a collaborator may
    depend on all the calls made before it, so that a ledger that changes
    between two calls is covered.  Numbers are IEEE 754 binary64 values and
    [parseFloat] is the ECMAScript function. *)

From Stdlib Require Import List String Ascii ZArith Bool Lia.
From Stdlib Require Import SpecFloat.
Import ListNotations.

Local Open Scope string_scope.
Local Open Scope list_scope.

(* ================================================================== *)
(** ** JavaScript runtime *)

Module JS.

(** [s.split(sep)] for a one-character separator: never empty, one more
    piece than there are separators. *)
Fixpoint split (sep : ascii) (s : string) : list string :=
  match s with
  | EmptyString => [EmptyString]
  | String c rest =>
      if Ascii.eqb c sep then EmptyString :: split sep rest
      else match split sep rest with
           | [] => [String c EmptyString]
           | p :: ps => String c p :: ps
           end
  end.

(** [xs[i]]: [None] is [undefined]. *)
Definition index {A} (xs : list A) (i : nat) : option A := nth_error xs i.

(** [xs.find(p)]: [None] is [undefined]. *)
Definition find {A} (p : A -> bool) (xs : list A) : option A := List.find p xs.

(** [xs.includes(x)] on strings. *)
Definition includes (xs : list string) (x : string) : bool :=
  existsb (String.eqb x) xs.

(** A Number is an IEEE 754 binary64 value. *)
Definition number : Type := spec_float.

Definition prec : Z := 53.
Definition emax : Z := 1024.

(** [x === 0] on numbers ([+0] and [-0] are both zero, [NaN] is not). *)
Definition is_zero (x : number) : bool :=
  match x with
  | S754_zero _ => true
  | _ => false
  end.

Definition is_nan (x : number) : bool :=
  match x with
  | S754_nan => true
  | _ => false
  end.

(** *** parseFloat

    ECMAScript [parseFloat]: leading white space is skipped (of the white
    space characters, the ASCII ones are modelled), the longest prefix that
    is a [StrDecimalLiteral] is read, and its mathematical value is rounded
    to the nearest binary64, ties to even. *)

Definition is_white (c : ascii) : bool :=
  let n := nat_of_ascii c in
  (Nat.eqb n 9 || Nat.eqb n 10 || Nat.eqb n 11 || Nat.eqb n 12 ||
   Nat.eqb n 13 || Nat.eqb n 32)%bool.

Fixpoint skip_white (s : string) : string :=
  match s with
  | String c rest => if is_white c then skip_white rest else s
  | EmptyString => s
  end.

Definition digit (c : ascii) : option Z :=
  let n := nat_of_ascii c in
  if (Nat.leb 48 n && Nat.leb n 57)%bool then Some (Z.of_nat (n - 48)) else None.

(** Reads a maximal run of decimal digits: its value continuing [acc], how
    many digits were read continuing [cnt], and the rest of the string. *)
Fixpoint digits (s : string) (acc : Z) (cnt : Z) : Z * Z * string :=
  match s with
  | String c rest =>
      match digit c with
      | Some d => digits rest (10 * acc + d) (cnt + 1)
      | None => (acc, cnt, s)
      end
  | EmptyString => (acc, cnt, s)
  end.

Definition strip_sign (s : string) : bool * string :=
  match s with
  | String "-"%char rest => (true, rest)
  | String "+"%char rest => (false, rest)
  | _ => (false, s)
  end.

(** The optional [ExponentPart]; it belongs to the literal only when at
    least one digit follows the indicator and sign. *)
Definition exponent_part (s : string) : Z :=
  match s with
  | String c rest =>
      if (Ascii.eqb c "e" || Ascii.eqb c "E")%bool then
        let '(neg, rest') := strip_sign rest in
        let '(v, n, _) := digits rest' 0 0 in
        if (0 <? n)%Z then (if neg then (- v)%Z else v) else 0%Z
      else 0%Z
  | EmptyString => 0%Z
  end.

(** What a [StrDecimalLiteral] denotes before rounding. *)
Inductive literal : Type :=
| LitNaN
| LitInfinity (neg : bool)
| LitDecimal (neg : bool) (mantissa : Z) (exp10 : Z).

Definition read_literal (s : string) : literal :=
  let '(neg, s1) := strip_sign (skip_white s) in
  if String.prefix "Infinity" s1 then LitInfinity neg
  else
    let '(ip, ni, s2) := digits s1 0 0 in
    let '(m, nf, s3) :=
      match s2 with
      | String "."%char rest =>
          let '(m, nd, s3) := digits rest ip ni in
          (m, (nd - ni)%Z, s3)
      | _ => (ip, 0%Z, s2)
      end in
    if ((ni + nf) =? 0)%Z then LitNaN
    else LitDecimal neg m (exponent_part s3 - nf).

(** Rounding of [m * 10 ^ e] to binary64. *)
Definition round_decimal (neg : bool) (m e : Z) : number :=
  match m with
  | Zpos p =>
      if (0 <=? e)%Z
      then binary_normalize prec emax (if neg then - (m * 10 ^ e) else m * 10 ^ e)%Z 0 neg
      else SFdiv prec emax (S754_finite neg p 0)
                           (S754_finite false (Z.to_pos (10 ^ (- e))) 0)
  | _ => S754_zero neg
  end.

Definition parseFloat (s : string) : number :=
  match read_literal s with
  | LitNaN => S754_nan
  | LitInfinity neg => S754_infinity neg
  | LitDecimal neg m e => round_decimal neg m e
  end.

End JS.


(** *** Values, truthiness and thrown errors *)

(** JavaScript values other than [Error] objects.  [PObject] stands for any
    other object (a response body, a Promise, an array); only its identity
    as an object matters here. *)
Inductive plain : Type :=
| PUndefined
| PNull
| PBool (b : bool)
| PNumber (n : JS.number)
| PString (s : string)
| PObject (repr : string).

(** The [response] property an HTTP client error carries. *)
Record Response : Type := { data : plain }.

(** An [Error] object; [response = None] is an error without a [response]
    property ([e.response] is [undefined]). *)
Record Error : Type := {
  name : string;
  message : string;
  response : option Response
}.

Definition new_Error (msg : string) : Error :=
  {| name := "Error"; message := msg; response := None |}.

Definition TypeError (msg : string) : Error :=
  {| name := "TypeError"; message := msg; response := None |}.

Inductive value : Type :=
| VPlain (p : plain)
| VError (e : Error).

Definition VBool (b : bool) : value := VPlain (PBool b).

(** ToBoolean. *)
Definition truthy_string (s : string) : bool :=
  match s with
  | EmptyString => false
  | _ => true
  end.

Definition truthy_plain (p : plain) : bool :=
  match p with
  | PUndefined | PNull => false
  | PBool b => b
  | PNumber n => negb (JS.is_zero n || JS.is_nan n)
  | PString s => truthy_string s
  | PObject _ => true
  end.

Definition truthy (v : value) : bool :=
  match v with
  | VPlain p => truthy_plain p
  | VError _ => true
  end.

(** Truthiness of an optional string property. *)
Definition truthy_opt (o : option string) : bool :=
  match o with
  | Some s => truthy_string s
  | None => false
  end.

(** A computation either returns or throws. *)
Inductive outcome (A : Type) : Type :=
| Return (a : A)
| Throw (e : Error).
Arguments Return {A} a.
Arguments Throw {A} e.

(* ================================================================== *)
(** ** Stellar SDK and Horizon data *)

Record Asset : Type := { code : string; issuer : option string }.

Record Keypair : Type := {
  kp_publicKey : string;
  kp_secret : option string
}.

(** One entry of [AccountResponse.balances]. *)
Record BalanceLine : Type := {
  asset_type : string;
  asset_code : option string;
  asset_issuer : option string;
  balance : string
}.

Record AccountResponse : Type := {
  account_id : string;
  balances : list BalanceLine
}.

(** The options objects handed to [Operation.payment], [Operation.changeTrust],
    [Operation.createAccount], [Operation.setOptions], [Operation.accountMerge];
    an absent property is [None]. *)
Inductive Operation : Type :=
| payment (source : option string) (destination : option string)
          (asset : Asset) (amount : string)
| changeTrust (source : option string) (asset : Asset) (limit : option string)
| createAccountOp (destination : string) (startingBalance : string)
| setOptions (source : option string) (homeDomain : string)
| accountMerge (destination : option string).

Record Memo : Type := { memo_type : string; memo_value : string }.

Record TransactionBuilder : Type := {
  tb_source : AccountResponse;
  tb_fee : string;
  tb_networkPassphrase : string;
  tb_operations : list Operation;
  tb_memo : option Memo;
  tb_timeout : option Z
}.

Record Transaction : Type := {
  tx_source : AccountResponse;
  tx_fee : string;
  tx_networkPassphrase : string;
  tx_operations : list Operation;
  tx_memo : option Memo;
  tx_timeout : Z;
  tx_signatures : list Keypair
}.

Record Fees : Type := { base : option string; max : option string }.

Definition BASE_FEE : string := "100".

Inductive StellarModuleMode : Type := TESTNET | PUBLIC.

Definition Networks (m : StellarModuleMode) : string :=
  match m with
  | TESTNET => "Test SDF Network ; September 2015"
  | PUBLIC => "Public Global Stellar Network ; September 2015"
  end.

(** The default for an absent value: [{ base = BASE_FEE }], [x || d]. *)
Definition or_default {A} (o : option A) (d : A) : A :=
  match o with
  | Some a => a
  | None => d
  end.

(** The calls a service makes to its collaborators, as recorded in order. *)
Inductive Call : Type :=
| GetFees
| LoadAccount (accountId : option string)
| ValidateAssetBalance (account : string) (asset : Asset) (amount : JS.number)
| SignTransaction (tx : Transaction) (signers : list Keypair)
| SubmitTransaction (tx : Transaction).

(** What the services take from the Stellar SDK and from the runtime.
    Constructors that validate their arguments may throw. *)
Record SDK : Type := {
  Keypair_random : Keypair;
  Keypair_fromSecret : option string -> outcome Keypair;
  Keypair_fromPublicKey : option string -> outcome Keypair;
  Asset_native : Asset;
  Asset_new : option string -> option string -> outcome Asset;
  Operation_check : Operation -> option Error;
  Transaction_hash : Transaction -> string;
  Number_toString : JS.number -> string
}.

(** [memo] arguments: [string | number | Uint8Array]. *)
Inductive MemoInput : Type :=
| MemoString (s : string)
| MemoNumber (n : JS.number)
| MemoBytes (bytes : list ascii).

Definition truthy_memo (m : MemoInput) : bool :=
  match m with
  | MemoString s => truthy_string s
  | MemoNumber n => negb (JS.is_zero n || JS.is_nan n)
  | MemoBytes _ => true
  end.

(** The injected services whose files are not part of this development:
    [ServerService] ([getFees], [loadAccount], [submitTransaction]),
    [SignersService.signTransaction] (the first element of the array it
    returns), [PaymentUtilsService] ([validateAssetBalance], [validateMemo])
    and [utils/getAssetCode].  A reply may depend on every call made so
    far. *)
Record Services : Type := {
  srv_getFees : list Call -> outcome Fees;
  srv_loadAccount : list Call -> option string -> outcome AccountResponse;
  srv_submitTransaction : list Call -> Transaction -> outcome plain;
  srv_signTransaction : list Call -> Transaction -> list Keypair -> outcome Transaction;
  srv_validateAssetBalance : list Call -> string -> Asset -> JS.number -> outcome value;
  validateMemo : MemoInput -> outcome Memo;
  getAssetCode : string -> outcome Asset
}.

(** constants.ts *)
Record Constants : Type := {
  INVALID_SECRET : string;
  INVALID_ACCOUNT_TYPE : string
}.

(** [StellarModuleConfig], as far as the services read it. *)
Record AccountEntry : Type := {
  acc_type : string;
  acc_public : option string;
  acc_secret : option string
}.

Inductive BaseTrustline : Type :=
| TrustlineString (s : string)
| TrustlinePerMode (testnet : option string) (public : option string).

Record Starting : Type := {
  starting_balance : option string;
  starting_homeDomain : option string;
  starting_baseTrustline : option (list BaseTrustline)
}.

Record AccountConfig : Type := {
  create_by : option string;
  starting : option Starting
}.

Record StellarModuleConfig : Type := {
  mode : option StellarModuleMode;
  account_config : option AccountConfig;
  account_accounts : option (list AccountEntry)
}.

(* ================================================================== *)
(** ** The monad of a service method *)

Record State : Type := {
  calls : list Call;
  builder : option TransactionBuilder
}.

Definition M (A : Type) : Type := State -> outcome A * State.

Definition ret {A} (a : A) : M A := fun st => (Return a, st).

Definition throw {A} (e : Error) : M A := fun st => (Throw e, st).

Definition bind {A B} (m : M A) (k : A -> M B) : M B :=
  fun st =>
    match m st with
    | (Return a, st') => k a st'
    | (Throw e, st') => (Throw e, st')
    end.

Declare Scope js_scope.
Delimit Scope js_scope with js.
Notation "x <- m ;; k" := (bind m (fun x => k))
  (at level 100, m at next level, right associativity) : js_scope.
Notation "' p <- m ;; k" := (bind m (fun x => let 'p := x in k))
  (at level 100, p pattern, m at next level, right associativity) : js_scope.
Notation "m ;;; k" := (bind m (fun _ => k))
  (at level 100, right associativity) : js_scope.
Local Open Scope js_scope.

(** A pure SDK call that may throw. *)
Definition lift {A} (o : outcome A) : M A := fun st => (o, st).

(** [try { m } catch (e) { h e }] *)
Definition try_catch {A} (m : M A) (h : Error -> M A) : M A :=
  fun st =>
    match m st with
    | (Return a, st') => (Return a, st')
    | (Throw e, st') => h e st'
    end.

(** [for (const x of xs) body], the loop-carried variables being [s]. *)
Fixpoint for_of {A S} (body : S -> A -> M S) (xs : list A) (s : S) : M S :=
  match xs with
  | [] => ret s
  | x :: xs' => s' <- body s x ;; for_of body xs' s'
  end.

(** [xs.forEach(body)] *)
Fixpoint forEach {A} (body : A -> M unit) (xs : list A) : M unit :=
  match xs with
  | [] => ret tt
  | x :: xs' => body x ;;; forEach body xs'
  end.

(** A call to a collaborator: recorded, answered from the calls before it. *)
Definition call {A} (c : Call) (answer : list Call -> outcome A) : M A :=
  fun st =>
    (answer (calls st), {| calls := calls st ++ [c]; builder := builder st |}).

(** [e.response.data] *)
Definition response_data (e : Error) : M plain :=
  match response e with
  | Some r => ret (data r)
  | None => throw (TypeError "Cannot read properties of undefined (reading 'data')")
  end.

(** *** TransactionBuilder and Transaction *)

(** [new TransactionBuilder(sourceAccount, { fee, networkPassphrase })] *)
Definition new_TransactionBuilder (sourceAccount : option AccountResponse)
    (fee passphrase : string) : M unit :=
  match sourceAccount with
  | None => throw (new_Error "must specify source account for the transaction")
  | Some a =>
      fun st =>
        (Return tt,
         {| calls := calls st;
            builder := Some {| tb_source := a; tb_fee := fee;
                               tb_networkPassphrase := passphrase;
                               tb_operations := []; tb_memo := None;
                               tb_timeout := None |} |})
  end.

Definition update_builder (f : TransactionBuilder -> TransactionBuilder) : M unit :=
  fun st =>
    match builder st with
    | Some tb => (Return tt, {| calls := calls st; builder := Some (f tb) |})
    | None => (Throw (TypeError "Cannot read properties of undefined"), st)
    end.

Definition addOperation (op : Operation) : M unit :=
  update_builder (fun tb =>
    {| tb_source := tb_source tb; tb_fee := tb_fee tb;
       tb_networkPassphrase := tb_networkPassphrase tb;
       tb_operations := tb_operations tb ++ [op];
       tb_memo := tb_memo tb; tb_timeout := tb_timeout tb |}).

Definition addMemo (m : Memo) : M unit :=
  update_builder (fun tb =>
    {| tb_source := tb_source tb; tb_fee := tb_fee tb;
       tb_networkPassphrase := tb_networkPassphrase tb;
       tb_operations := tb_operations tb;
       tb_memo := Some m; tb_timeout := tb_timeout tb |}).

(** [builder.setTimeout(t).build()] *)
Definition setTimeout_build (t : Z) : M Transaction :=
  fun st =>
    match builder st with
    | Some tb =>
        (Return {| tx_source := tb_source tb; tx_fee := tb_fee tb;
                   tx_networkPassphrase := tb_networkPassphrase tb;
                   tx_operations := tb_operations tb;
                   tx_memo := tb_memo tb; tx_timeout := t;
                   tx_signatures := [] |},
         {| calls := calls st;
            builder := Some {| tb_source := tb_source tb; tb_fee := tb_fee tb;
                               tb_networkPassphrase := tb_networkPassphrase tb;
                               tb_operations := tb_operations tb;
                               tb_memo := tb_memo tb; tb_timeout := Some t |} |})
    | None => (Throw (TypeError "Cannot read properties of undefined"), st)
    end.

(** [transaction.sign(keypair)] *)
Definition sign (tx : Transaction) (kp : Keypair) : M Transaction :=
  match kp_secret kp with
  | Some _ =>
      ret {| tx_source := tx_source tx; tx_fee := tx_fee tx;
             tx_networkPassphrase := tx_networkPassphrase tx;
             tx_operations := tx_operations tx; tx_memo := tx_memo tx;
             tx_timeout := tx_timeout tx;
             tx_signatures := tx_signatures tx ++ [kp] |}
  | None => throw (new_Error "cannot sign: no secret key available")
  end.

(* ================================================================== *)
(** ** The services *)

(** Payment intents (payment.service.ts). *)
Inductive Amount : Type :=
| AmountNumber (n : JS.number)
| AmountString (s : string).

Record Recipient : Type := {
  to_publicKey : option string;
  to_secretKey : option string
}.

Record TPayment : Type := {
  p_asset : string;
  p_amount : Amount;
  p_memo : option MemoInput;
  p_to : Recipient
}.

Record TSender : Type := {
  s_secretKey : string;
  s_asset : string;
  s_amount : JS.number
}.

(** What [getBalances] resolves to: the whole array, or what [find] found. *)
Inductive Balances : Type :=
| AllBalances (lines : list BalanceLine)
| OneBalance (line : option BalanceLine).

Definition truthy_balances (b : Balances) : bool :=
  match b with
  | AllBalances _ => true
  | OneBalance (Some _) => true
  | OneBalance None => false
  end.

(** What [sendPayment] resolves to: the signed envelope when [feeBump] is
    set, the transaction hash once submitted. *)
Inductive Sent : Type :=
| SignedEnvelope (tx : Transaction)
| TransactionHash (hex : string).

(** The wallet argument of [validateTrustLine]. *)
Record Wallet : Type := {
  w_publicKey : string;
  w_secret : string
}.

Section Services.

Variable sdk : SDK.
Variable srv : Services.
Variable consts : Constants.
Variable options : StellarModuleConfig.

(** *** Collaborators *)

Definition getFees : M Fees := call GetFees (srv_getFees srv).

Definition loadAccount (accountId : option string) : M AccountResponse :=
  call (LoadAccount accountId) (fun h => srv_loadAccount srv h accountId).

Definition submitTransaction (tx : Transaction) : M plain :=
  call (SubmitTransaction tx) (fun h => srv_submitTransaction srv h tx).

Definition signTransaction (tx : Transaction) (signers : list Keypair)
  : M Transaction :=
  call (SignTransaction tx signers) (fun h => srv_signTransaction srv h tx signers).

Definition validateAssetBalance (account : string) (asset : Asset)
    (amount : JS.number) : M value :=
  call (ValidateAssetBalance account asset amount)
       (fun h => srv_validateAssetBalance srv h account asset amount).

(** [Operation.payment(opts)] and its siblings: the SDK checks the options
    and throws on the ones it rejects. *)
Definition Operation_make (op : Operation) : M Operation :=
  match Operation_check sdk op with
  | None => ret op
  | Some e => throw e
  end.

Definition networkPassphrase : string :=
  Networks (or_default (mode options) TESTNET).

(** *** AccountUtilsService (account-utils.service.ts) *)

Definition isValidAccount (accountId : option string) : value :=
  match Keypair_fromPublicKey sdk accountId with
  | Return _ => VBool true
  | Throw e => VError e
  end.

(** [None] is the [null] of the source. *)
Definition getAccount (accountId : option string) : M (option AccountResponse) :=
  let isValid := isValidAccount accountId in
  if truthy isValid
  then (a <- loadAccount accountId ;; ret (Some a))
  else ret None.

Definition account_balances (account : option AccountResponse)
  : M (list BalanceLine) :=
  match account with
  | Some a => ret (balances a)
  | None => throw (TypeError "Cannot read properties of null (reading 'balances')")
  end.

Definition getBalances (accountId : option string) (assetCode : option string)
  : M Balances :=
  account <- getAccount accountId ;;
  lines <- account_balances account ;;
  if negb (truthy_opt assetCode) then ret (AllBalances lines)
  else
    ret (OneBalance
           (JS.find (fun b =>
                       if String.eqb (or_default assetCode "") "XLM"
                       then String.eqb (asset_type b) "native"
                       else match asset_code b with
                            | Some c => String.eqb c (or_default assetCode "")
                            | None => false
                            end)
                    lines)).

Definition getPairFromSecret (secret : option string) : M Keypair :=
  try_catch (lift (Keypair_fromSecret sdk secret))
            (fun _ => throw (new_Error (INVALID_SECRET consts))).

Definition getAccountFromSecret (secret : option string)
  : M (Keypair * option AccountResponse) :=
  pair <- getPairFromSecret secret ;;
  account <- getAccount (Some (kp_publicKey pair)) ;;
  ret (pair, account).

(** *** PaymentService (payment.service.ts) *)

Definition getAsset (asset : string) : outcome Asset :=
  if String.eqb asset "XLM" then Return (Asset_native sdk)
  else Asset_new sdk (JS.index (JS.split ":" asset) 0)
                     (JS.index (JS.split ":" asset) 1).

Definition amount_number (a : Amount) : JS.number :=
  match a with
  | AmountString s => JS.parseFloat s
  | AmountNumber n => n
  end.

Definition amount_toString (a : Amount) : string :=
  match a with
  | AmountString s => s
  | AmountNumber n => Number_toString sdk n
  end.

(** The body of the [for ... of payments] loop; [extraSigners] is the
    variable the loop reassigns. *)
Definition sendPayment_body (sourcePair : Keypair) (extraSigners : list Keypair)
    (p : TPayment) : M (list Keypair) :=
  ASSET <- lift (getAsset (p_asset p)) ;;
  enough <- validateAssetBalance (kp_publicKey sourcePair) ASSET
                                 (amount_number (p_amount p)) ;;
  if negb (truthy enough) then throw (new_Error "Insufficient balance")
  else
    publicKey <- (if truthy_opt (to_secretKey (p_to p))
                  then (kp <- lift (Keypair_fromSecret sdk (to_secretKey (p_to p))) ;;
                        ret (Some (kp_publicKey kp)))
                  else ret (to_publicKey (p_to p))) ;;
    hasTrustline <- getBalances publicKey (Some (code ASSET)) ;;
    extraSigners' <-
      (if (negb (truthy_balances hasTrustline)
           && truthy_opt (to_secretKey (p_to p))
           && negb (String.eqb (p_asset p) "XLM"))%bool
       then
         (kp <- lift (Keypair_fromSecret sdk (to_secretKey (p_to p))) ;;
          op <- Operation_make (changeTrust publicKey ASSET None) ;;
          addOperation op ;;;
          ret (extraSigners ++ [kp]))
       else ret extraSigners) ;;
    op <- Operation_make (payment None publicKey ASSET (amount_toString (p_amount p))) ;;
    addOperation op ;;;
    ret extraSigners'.

Definition sendPayment (payments : list TPayment) (secretKey : string)
    (feeBump : bool) : M Sent :=
  if Nat.eqb (List.length payments) 0 then throw (new_Error "No payments to send")
  else
    fees <- getFees ;;
    ' (sourcePair, sourceAccount) <- getAccountFromSecret (Some secretKey) ;;
    new_TransactionBuilder sourceAccount (or_default (base fees) BASE_FEE)
                           networkPassphrase ;;;
    extraSigners <- for_of (sendPayment_body sourcePair) payments [sourcePair] ;;
    (match JS.index payments 0 with
     | Some first =>
         match p_memo first with
         | Some memo =>
             if truthy_memo memo
             then (m <- lift (validateMemo srv memo) ;; addMemo m)
             else ret tt
         | None => ret tt
         end
     | None => throw (TypeError "Cannot read properties of undefined (reading 'memo')")
     end) ;;;
    transaction <- setTimeout_build 30 ;;
    transactionSigned <- signTransaction transaction extraSigners ;;
    if feeBump then ret (SignedEnvelope transactionSigned)
    else
      (submitTransaction transactionSigned ;;;
       ret (TransactionHash (Transaction_hash sdk transaction))).

Definition swapPayment (sender recipient : TSender) (memo : option MemoInput)
  : M plain :=
  try_catch
    (fees <- getFees ;;
     ' (sourcePair, sourceAccount) <- getAccountFromSecret (Some (s_secretKey sender)) ;;
     new_TransactionBuilder sourceAccount (or_default (max fees) BASE_FEE)
                            networkPassphrase ;;;
     senderAsset <- lift (getAsset (s_asset sender)) ;;
     recipientAsset <- lift (getAsset (s_asset recipient)) ;;
     enough <- validateAssetBalance (s_secretKey sender) senderAsset (s_amount sender) ;;
     if negb (truthy enough) then ret (PBool false)
     else
       (toRecipient <- lift (Keypair_fromSecret sdk (Some (s_secretKey recipient))) ;;
        op1 <- Operation_make
                 (payment None (Some (kp_publicKey toRecipient)) senderAsset
                          (Number_toString sdk (s_amount sender))) ;;
        addOperation op1 ;;;
        fromRecipient <- lift (Keypair_fromSecret sdk (Some (s_secretKey recipient))) ;;
        toSender <- lift (Keypair_fromSecret sdk (Some (s_secretKey sender))) ;;
        op2 <- Operation_make
                 (payment (Some (kp_publicKey fromRecipient))
                          (Some (kp_publicKey toSender)) recipientAsset
                          (Number_toString sdk (s_amount recipient))) ;;
        addOperation op2 ;;;
        (match memo with
         | Some m =>
             if truthy_memo m
             then (m' <- lift (validateMemo srv m) ;; addMemo m')
             else ret tt
         | None => ret tt
         end) ;;;
        transaction <- setTimeout_build 30 ;;
        transaction1 <- sign transaction sourcePair ;;
        recipientPair <- lift (Keypair_fromSecret sdk (Some (s_secretKey recipient))) ;;
        transaction2 <- sign transaction1 recipientPair ;;
        submitTransaction transaction2 ;;;
        ret (PBool true)))
    (fun e => response_data e).

(** *** AccountService (account.service.ts) *)

(** The fields the constructor sets. *)
Definition accountOptions : option AccountConfig := account_config options.

Definition mainAccounts : list AccountEntry :=
  or_default (account_accounts options) [].

Definition accountsTypes : list string := map acc_type mainAccounts.

(** [this.accountOptions.p]: reading a property of [undefined] throws. *)
Definition accountOptions_get {A} (p : AccountConfig -> A) : M A :=
  match accountOptions with
  | Some c => ret (p c)
  | None => throw (TypeError "Cannot read properties of undefined")
  end.

(** [a === b] between a string and a possibly undefined one. *)
Definition eq_opt (a : string) (b : option string) : bool :=
  match b with
  | Some b' => String.eqb a b'
  | None => false
  end.

(** [this.mainAccounts.find((a) => a.type === this.accountOptions.create_by)]:
    the callback reads [create_by] once per entry it is applied to. *)
Definition find_create_by : M (option AccountEntry) :=
  match mainAccounts with
  | [] => ret None
  | _ =>
      role <- accountOptions_get create_by ;;
      ret (JS.find (fun a => eq_opt (acc_type a) role) mainAccounts)
  end.

Definition undefined_to_string (o : option string) : string :=
  or_default o "undefined".

Definition validateAccountType : M unit :=
  role <- accountOptions_get create_by ;;
  if negb (match role with
           | Some r => JS.includes accountsTypes r
           | None => false
           end)
  then throw (new_Error
                (INVALID_ACCOUNT_TYPE consts ++ " valid types are ["
                 ++ String.concat ", " accountsTypes ++ "] not "
                 ++ undefined_to_string role))
  else ret tt.

(** [promise.catch((e) => e)] *)
Definition catch_value (m : M plain) : M value :=
  try_catch (x <- m ;; ret (VPlain x)) (fun e => ret (VError e)).

(** [a?.p] *)
Definition opt_chain {A B} (a : option A) (p : A -> option B) : option B :=
  match a with
  | Some x => p x
  | None => None
  end.

(** [s || d] on an optional string. *)
Definition or_string (o : option string) (d : string) : string :=
  if truthy_opt o then or_default o d else d.

(** The callback of [baseTrustline.map]. *)
Definition trustline_pieces (t : BaseTrustline) : M (list string) :=
  match t with
  | TrustlineString s => ret (JS.split ":" s)
  | TrustlinePerMode testnet public =>
      match (match or_default (mode options) TESTNET with
             | TESTNET => testnet
             | PUBLIC => public
             end) with
      | Some s => ret (JS.split ":" s)
      | None => throw (TypeError "Cannot read properties of undefined (reading 'split')")
      end
  end.

(** [xs.map(f)] for a callback that may throw. *)
Fixpoint map_M {A B} (f : A -> M B) (xs : list A) : M (list B) :=
  match xs with
  | [] => ret []
  | x :: xs' => y <- f x ;; ys <- map_M f xs' ;; ret (y :: ys)
  end.

Definition createAccount (secret trustline : option string) : M Keypair :=
  let newPair := Keypair_random sdk in
  validateAccountType ;;;
  fees <- getFees ;;
  keyPair <- (if truthy_opt secret
              then lift (Keypair_fromSecret sdk secret)
              else (entry <- find_create_by ;;
                    lift (Keypair_fromPublicKey sdk (opt_chain entry acc_public)))) ;;
  account <- getAccount (Some (kp_publicKey keyPair)) ;;
  new_TransactionBuilder account (or_default (base fees) BASE_FEE) networkPassphrase ;;;
  start <- accountOptions_get starting ;;
  op <- Operation_make
          (createAccountOp (kp_publicKey newPair)
                           (or_string (opt_chain start starting_balance) "1")) ;;
  addOperation op ;;;
  (if truthy_opt (opt_chain start starting_homeDomain)
   then (op <- Operation_make
                 (setOptions (Some (kp_publicKey newPair))
                             (or_default (opt_chain start starting_homeDomain) "")) ;;
         addOperation op)
   else ret tt) ;;;
  (match opt_chain start starting_baseTrustline with
   | Some baseTrustline =>
       trustlines <- map_M trustline_pieces baseTrustline ;;
       forEach (fun t =>
                  a <- lift (Asset_new sdk (JS.index t 0) (JS.index t 1)) ;;
                  op <- Operation_make
                          (changeTrust (Some (kp_publicKey newPair)) a None) ;;
                  addOperation op)
               trustlines
   | None => ret tt
   end) ;;;
  (if truthy_opt trustline
   then (ASSET <- lift (getAssetCode srv (or_default trustline "")) ;;
         op <- Operation_make
                 (changeTrust (Some (kp_publicKey newPair)) ASSET None) ;;
         addOperation op)
   else ret tt) ;;;
  transactionTx <- setTimeout_build 180 ;;
  transaction <- signTransaction transactionTx
                   (newPair :: (if truthy_opt secret then [keyPair] else [])) ;;
  catch_value (submitTransaction transaction) ;;;
  ret newPair.

(** The callback of [account.balances.forEach] in [deleteAccount]. *)
Definition deleteAccount_line (destination : option string) (asset : BalanceLine)
  : M unit :=
  if negb (String.eqb (asset_type asset) "native") then
    (if negb (JS.is_zero (JS.parseFloat (balance asset)))
     then (a <- lift (Asset_new sdk (asset_code asset) (asset_issuer asset)) ;;
           op <- Operation_make (payment None destination a (balance asset)) ;;
           addOperation op)
     else ret tt) ;;;
    a <- lift (Asset_new sdk (asset_code asset) (asset_issuer asset)) ;;
    op <- Operation_make (changeTrust None a (Some "0")) ;;
    addOperation op
  else ret tt.

Definition deleteAccount (secret : string) : M unit :=
  if negb (truthy_opt (opt_chain accountOptions create_by))
  then throw (new_Error "Se debe mandar a alguna cuenta")
  else
    ' (keypair, account) <- getAccountFromSecret (Some secret) ;;
    entry <- find_create_by ;;
    let destination := opt_chain entry acc_public in
    fees <- getFees ;;
    new_TransactionBuilder account (or_default (base fees) BASE_FEE) networkPassphrase ;;;
    lines <- account_balances account ;;
    forEach (deleteAccount_line destination) lines ;;;
    op <- Operation_make (accountMerge destination) ;;
    addOperation op ;;;
    transactionTx <- setTimeout_build 30 ;;
    signed <- sign transactionTx keypair ;;
    catch_value (submitTransaction signed) ;;;
    ret tt.

(** [balance as any[]] followed by [balance.find]. *)
Definition as_array (b : Balances) : M (list BalanceLine) :=
  match b with
  | AllBalances lines => ret lines
  | OneBalance _ => throw (TypeError "balance.find is not a function")
  end.

Definition not_native (b : BalanceLine) : bool :=
  negb (String.eqb (asset_type b) "native").

Definition validateTrustLine (asset : string) (wallet : Wallet) : M plain :=
  ASSET <- lift (getAssetCode srv asset) ;;
  entry <- find_create_by ;;
  ' (keypair, masterAccount) <- getAccountFromSecret (opt_chain entry acc_secret) ;;
  found <- getBalances (Some (w_publicKey wallet)) None ;;
  balance <- as_array found ;;
  let hasTrustline :=
    JS.find (fun b => match asset_code b with
                      | Some c => String.eqb c (code ASSET)
                      | None => false
                      end) balance in
  match hasTrustline with
  | None =>
      new_TransactionBuilder masterAccount BASE_FEE networkPassphrase ;;;
      old <- lift (Asset_new sdk
                     (opt_chain (JS.find not_native balance) asset_code)
                     (opt_chain (JS.find not_native balance) asset_issuer)) ;;
      op1 <- Operation_make (changeTrust (Some (w_publicKey wallet)) old (Some "0")) ;;
      addOperation op1 ;;;
      op2 <- Operation_make (changeTrust (Some (w_publicKey wallet)) ASSET None) ;;
      addOperation op2 ;;;
      transactionTx <- setTimeout_build 180 ;;
      walletPair <- lift (Keypair_fromSecret sdk (Some (w_secret wallet))) ;;
      transaction <- signTransaction transactionTx [keypair; walletPair] ;;
      try_catch
        (submitTransaction transaction ;;; ret (PBool true))
        (fun e =>
           d <- response_data e ;;
           match d with
           | PUndefined | PNull =>
               throw (TypeError "Cannot read properties of undefined (reading 'extras')")
           | _ => ret d
           end)
  | Some _ => ret (PBool true)
  end.

End Services.

(* ================================================================== *)
(** ** Observations on a run *)

(** The calls made between two states of one run. *)
Definition since (st st' : State) : list Call :=
  skipn (List.length (calls st)) (calls st').

Definition is_submit (c : Call) : bool :=
  match c with
  | SubmitTransaction _ => true
  | _ => false
  end.

Definition is_validate (c : Call) : bool :=
  match c with
  | ValidateAssetBalance _ _ _ => true
  | _ => false
  end.

Definition is_sign (c : Call) : bool :=
  match c with
  | SignTransaction _ _ => true
  | _ => false
  end.

(** [x === null] on what [getAccount] resolves to. *)
Definition is_null {A} (o : outcome (option A)) : bool :=
  match o with
  | Return None => true
  | _ => false
  end.

(** A computation that calls no collaborator. *)
Definition silent {A} (m : M A) : Prop :=
  forall st out st', m st = (out, st') -> calls st' = calls st.

(** Neither a signature request nor a submission. *)
Definition before_signing (c : Call) : bool :=
  negb (is_sign c || is_submit c).

(** The calls [d], made after [history], by a computation that ended in
    [out]: nothing is signed or submitted, and if one of them is a balance
    check that was answered with a falsy value, then it is the last call and
    the computation threw 'Insufficient balance'. *)
Definition aborts_on_unmet {A} (srv : Services) (history d : list Call)
    (out : outcome A) : Prop :=
  forallb before_signing d = true /\
  forall pre account asset amount post enough,
    d = pre ++ ValidateAssetBalance account asset amount :: post ->
    srv_validateAssetBalance srv (history ++ pre) account asset amount
      = Return enough ->
    truthy enough = false ->
    out = Throw (new_Error "Insufficient balance") /\ post = [].

(** The state a method starts in when nothing has happened yet. *)
Definition fresh : State := {| calls := []; builder := None |}.

(* ================================================================== *)
(** ** Test doubles

    Stand-ins for the SDK and the injected services, in the manner of the
    mocks a unit test of these services would inject. *)

Module Double.

Definition alnum (c : ascii) : bool :=
  let n := nat_of_ascii c in
  ((Nat.leb 48 n && Nat.leb n 57) || (Nat.leb 65 n && Nat.leb n 90)
   || (Nat.leb 97 n && Nat.leb n 122))%bool.

Fixpoint all_chars (p : ascii -> bool) (s : string) : bool :=
  match s with
  | EmptyString => true
  | String c rest => (p c && all_chars p rest)%bool
  end.

(** A key is recognised by its version letter and its length of 56. *)
Definition key_like (version : ascii) (s : string) : bool :=
  match s with
  | String c rest =>
      (Ascii.eqb c version && Nat.eqb (String.length s) 56 && all_chars alnum rest)%bool
  | EmptyString => false
  end.

Definition fromPublicKey (s : option string) : outcome Keypair :=
  match s with
  | Some k =>
      if key_like "G" k then Return {| kp_publicKey := k; kp_secret := None |}
      else Throw (new_Error "Invalid Stellar public key")
  | None => Throw (TypeError "Cannot read properties of undefined")
  end.

(** The public key of a secret seed is the seed with [G] for its [S]. *)
Definition fromSecret (s : option string) : outcome Keypair :=
  match s with
  | Some (String c rest as k) =>
      if key_like "S" k
      then Return {| kp_publicKey := String "G" rest; kp_secret := Some k |}
      else Throw (new_Error "invalid encoded string")
  | _ => Throw (new_Error "invalid encoded string")
  end.

Definition lower (c : ascii) : ascii :=
  let n := nat_of_ascii c in
  if (Nat.leb 65 n && Nat.leb n 90)%bool then ascii_of_nat (n + 32) else c.

Fixpoint lowercase (s : string) : string :=
  match s with
  | EmptyString => EmptyString
  | String c rest => String (lower c) (lowercase rest)
  end.

(** The [Asset] constructor: an alphanumeric code of 1 to 12 characters, an
    issuer unless the code is XLM, and a well-formed issuer when given. *)
Definition new_Asset (c i : option string) : outcome Asset :=
  match c with
  | Some c' =>
      if negb (Nat.leb 1 (String.length c') && Nat.leb (String.length c') 12
               && all_chars alnum c')%bool
      then Throw (new_Error "Asset code is invalid (maximum alphanumeric, 12 characters at max)")
      else if (negb (String.eqb (lowercase c') "xlm") && negb (truthy_opt i))%bool
      then Throw (new_Error "Issuer cannot be null")
      else if (truthy_opt i && negb (key_like "G" (or_default i "")))%bool
      then Throw (new_Error "Issuer is invalid")
      else Return {| code := c'; issuer := i |}
  | None =>
      Throw (new_Error "Asset code is invalid (maximum alphanumeric, 12 characters at max)")
  end.

Definition same_number (x y : JS.number) : bool :=
  SFeqb x y.

(** [Number.prototype.toString], by table. *)
Definition toString (n : JS.number) : string :=
  match List.find (fun s => same_number (JS.parseFloat s) n)
                  ["0"; "1"; "5"; "10"; "2.5"; "100"] with
  | Some s => s
  | None => "NaN"
  end.

Definition sdk : SDK := {|
  Keypair_random :=
    {| kp_publicKey := "GNEWNEWNEWNEWNEWNEWNEWNEWNEWNEWNEWNEWNEWNEWNEWNEWNEWNEWN";
       kp_secret := Some "SNEWNEWNEWNEWNEWNEWNEWNEWNEWNEWNEWNEWNEWNEWNEWNEWNEWNEWN" |};
  Keypair_fromSecret := fromSecret;
  Keypair_fromPublicKey := fromPublicKey;
  Asset_native := {| code := "XLM"; issuer := None |};
  Asset_new := new_Asset;
  Operation_check := fun _ => None;
  Transaction_hash := fun _ => "c0ffee";
  Number_toString := toString
|}.

(** An HTTP error carrying a response body. *)
Definition http_error (body : string) : Error :=
  {| name := "AxiosError"; message := "Request failed";
     response := Some {| data := PObject body |} |}.

Definition lookup_account (accounts : list AccountResponse) (id : option string)
  : outcome AccountResponse :=
  match id with
  | Some k =>
      match List.find (fun a => String.eqb (account_id a) k) accounts with
      | Some a => Return a
      | None => Throw (http_error "{status: 404}")
      end
  | None => Throw (http_error "{status: 404}")
  end.

Definition add_signatures (tx : Transaction) (signers : list Keypair) : Transaction :=
  {| tx_source := tx_source tx; tx_fee := tx_fee tx;
     tx_networkPassphrase := tx_networkPassphrase tx;
     tx_operations := tx_operations tx; tx_memo := tx_memo tx;
     tx_timeout := tx_timeout tx;
     tx_signatures := tx_signatures tx ++ signers |}.

(** Services over a fixed ledger snapshot: [enough] answers the balance
    check, [accept] says whether Horizon accepts a submission. *)
Definition services (accounts : list AccountResponse) (accept : bool)
    (enough : Asset -> bool) : Services := {|
  srv_getFees := fun _ => Return {| base := Some "100"; max := Some "2000" |};
  srv_loadAccount := fun _ id => lookup_account accounts id;
  srv_submitTransaction := fun _ _ =>
    if accept then Return (PObject "{successful: true}")
    else Throw (http_error "{status: 400}");
  srv_signTransaction := fun _ tx signers => Return (add_signatures tx signers);
  srv_validateAssetBalance := fun _ _ a _ => Return (VBool (enough a));
  validateMemo := fun m =>
    match m with
    | MemoString s => Return {| memo_type := "text"; memo_value := s |}
    | _ => Return {| memo_type := "id"; memo_value := "0" |}
    end;
  getAssetCode := fun s =>
    if String.eqb s "XLM" then Return {| code := "XLM"; issuer := None |}
    else new_Asset (JS.index (JS.split ":" s) 0) (JS.index (JS.split ":" s) 1)
|}.

Definition consts : Constants := {|
  INVALID_SECRET := "Invalid secret";
  INVALID_ACCOUNT_TYPE := "Invalid account type"
|}.

Definition alice_secret : string :=
  "SALICEALICEALICEALICEALICEALICEALICEALICEALICEALICEALICE".
Definition alice : string :=
  "GALICEALICEALICEALICEALICEALICEALICEALICEALICEALICEALICE".
Definition bob_secret : string :=
  "SBOBBOBBOBBOBBOBBOBBOBBOBBOBBOBBOBBOBBOBBOBBOBBOBBOBBOBB".
Definition bob : string :=
  "GBOBBOBBOBBOBBOBBOBBOBBOBBOBBOBBOBBOBBOBBOBBOBBOBBOBBOBB".
Definition master_secret : string :=
  "SMASTERMASTERMASTERMASTERMASTERMASTERMASTERMASTERMASTERM".
Definition master : string :=
  "GMASTERMASTERMASTERMASTERMASTERMASTERMASTERMASTERMASTERM".
Definition usd_issuer : string :=
  "GA5ZSEJYB37JRC5AVCIA5MOP4RHTM335X2KGX3IHOJAPP5RE34K4KZVN".

Definition native_line (b : string) : BalanceLine :=
  {| asset_type := "native"; asset_code := None; asset_issuer := None; balance := b |}.

Definition usd_line (b : string) : BalanceLine :=
  {| asset_type := "credit_alphanum4"; asset_code := Some "USD";
     asset_issuer := Some usd_issuer; balance := b |}.

Definition eur_line (b : string) : BalanceLine :=
  {| asset_type := "credit_alphanum4"; asset_code := Some "EUR";
     asset_issuer := Some usd_issuer; balance := b |}.

Definition alice_account : AccountResponse :=
  {| account_id := alice;
     balances := [usd_line "12.5000000"; eur_line "0.0000000"; native_line "100.0000000"] |}.

Definition ledger : list AccountResponse :=
  [ alice_account;
    {| account_id := bob; balances := [native_line "20.0000000"] |};
    {| account_id := master; balances := [native_line "1000.0000000"] |} ].

Definition options : StellarModuleConfig := {|
  mode := Some TESTNET;
  account_config :=
    Some {| create_by := Some "ACCOUNT";
            starting := Some {| starting_balance := Some "1.5";
                                starting_homeDomain := Some "supaverse.tech";
                                starting_baseTrustline := None |} |};
  account_accounts :=
    Some [ {| acc_type := "ACCOUNT"; acc_public := Some master;
              acc_secret := Some master_secret |} ]
|}.

(** A configuration without a [create_by] role. *)
Definition options_no_role : StellarModuleConfig := {|
  mode := Some TESTNET;
  account_config := Some {| create_by := None; starting := None |};
  account_accounts := None
|}.

(** Alice offers 5 USD for 10 of Bob's XLM. *)
Definition usd : string := "USD:" ++ usd_issuer.

Definition master_account : AccountResponse :=
  {| account_id := master; balances := [native_line "1000.0000000"] |}.

(** What [createAccount] builds under [options], before it is signed. *)
Definition create_tx : Transaction :=
  {| tx_source := master_account; tx_fee := "100";
     tx_networkPassphrase := Networks TESTNET;
     tx_operations :=
       [ createAccountOp (kp_publicKey (Keypair_random sdk)) "1.5";
         setOptions (Some (kp_publicKey (Keypair_random sdk))) "supaverse.tech" ];
     tx_memo := None; tx_timeout := 180; tx_signatures := [] |}.

Definition alice_wallet : Wallet :=
  {| w_publicKey := alice; w_secret := alice_secret |}.

(** What [deleteAccount] submits for Alice: her 12.5 USD go to the master
    account, her empty EUR line is only closed. *)
Definition delete_tx : Transaction :=
  {| tx_source := alice_account; tx_fee := "100";
     tx_networkPassphrase := Networks TESTNET;
     tx_operations :=
       [ payment None (Some master)
                 {| code := "USD"; issuer := Some usd_issuer |} "12.5000000";
         changeTrust None {| code := "USD"; issuer := Some usd_issuer |} (Some "0");
         changeTrust None {| code := "EUR"; issuer := Some usd_issuer |} (Some "0");
         accountMerge (Some master) ];
     tx_memo := None; tx_timeout := 30;
     tx_signatures := [ {| kp_publicKey := alice; kp_secret := Some alice_secret |} ] |}.

(** A sender whose secret key is not one. *)
Definition swap_sender_bad_secret : TSender :=
  {| s_secretKey := "not-a-secret"; s_asset := "XLM"; s_amount := JS.parseFloat "5" |}.

Definition swap_sender : TSender :=
  {| s_secretKey := alice_secret; s_asset := usd; s_amount := JS.parseFloat "5" |}.

Definition swap_recipient : TSender :=
  {| s_secretKey := bob_secret; s_asset := "XLM"; s_amount := JS.parseFloat "10" |}.

(** Horizon accepts every submission and every balance check passes. *)
Definition good_day : Services := services ledger true (fun _ => true).

(** Horizon rejects every submission. *)
Definition bad_day : Services := services ledger false (fun _ => true).

Definition swap_tx : Transaction :=
  {| tx_source := alice_account; tx_fee := "2000";
     tx_networkPassphrase := Networks TESTNET;
     tx_operations :=
       [ payment None (Some bob) {| code := "USD"; issuer := Some usd_issuer |} "5";
         payment (Some bob) (Some alice) {| code := "XLM"; issuer := None |} "10" ];
     tx_memo := None; tx_timeout := 30;
     tx_signatures := [ {| kp_publicKey := alice; kp_secret := Some alice_secret |};
                        {| kp_publicKey := bob; kp_secret := Some bob_secret |} ] |}.

End Double.


(* ================================================================== *)
(** ** Statements *)

(** Amounts as Horizon prints them: decimal digits, a point, decimal
    digits (seven of them for a balance). *)
Definition is_digit (c : ascii) : bool :=
  match JS.digit c with
  | Some _ => true
  | None => false
  end.

Fixpoint all_digits (s : string) : bool :=
  match s with
  | EmptyString => true
  | String c rest => (is_digit c && all_digits rest)%bool
  end.

Fixpoint all_zeros (s : string) : bool :=
  match s with
  | EmptyString => true
  | String c rest => (Ascii.eqb c "0" && all_zeros rest)%bool
  end.

(** The number a run of digits denotes, continuing [acc]. *)
Fixpoint decimal_value (acc : Z) (s : string) : Z :=
  match s with
  | EmptyString => acc
  | String c rest =>
      match JS.digit c with
      | Some d => decimal_value (10 * acc + d) rest
      | None => acc
      end
  end.

(** A descriptor piece without separator. *)
Fixpoint colon_free (s : string) : bool :=
  match s with
  | EmptyString => true
  | String c rest => (negb (Ascii.eqb c ":") && colon_free rest)%bool
  end.

(** A descriptor of exactly one code component and one issuer component. *)
Definition code_and_issuer (descriptor : string) : bool :=
  match JS.split ":" descriptor with
  | [c; i] => (truthy_string c && truthy_string i)%bool
  | _ => false
  end.

(** No [create_by] role is configured: there is no account configuration,
    or its [create_by] is absent or empty. *)
Definition no_create_by (options : StellarModuleConfig) : Prop :=
  match account_config options with
  | None => True
  | Some c => create_by c = None \/ create_by c = Some ""
  end.

(** The account the [create_by] role names, as [deleteAccount] is to find
    it: the public key of the first configured account of that type. *)
Definition destination_role (options : StellarModuleConfig) : option string :=
  match opt_chain (account_config options) create_by with
  | Some role =>
      opt_chain (List.find (fun a => String.eqb (acc_type a) role)
                           (or_default (account_accounts options) []))
                acc_public
  | None => None
  end.

(** What closing an account does with one non-native balance line: a
    payment of the whole balance to [destination] when the balance is not
    zero, then a change-trust with limit 0. *)
Definition drain_line (sdk : SDK) (destination : option string)
    (line : BalanceLine) (ops : list Operation) : Prop :=
  exists a,
    Asset_new sdk (asset_code line) (asset_issuer line) = Return a /\
    ops = (if JS.is_zero (JS.parseFloat (balance line)) then []
           else [payment None destination a (balance line)])
          ++ [changeTrust None a (Some "0")].

Definition is_merge (op : Operation) : bool :=
  match op with
  | accountMerge _ => true
  | _ => false
  end.

(** The transaction of a swap, built after the calls [history]: its source
    is the sender's account; the sender pays the recipient from that source,
    and the recipient, named as the source of the second operation, pays the
    sender; both have signed. *)
Definition swap_transaction (sdk : SDK) (srv : Services) (history : list Call)
    (sender recipient : TSender) (tx : Transaction) : Prop :=
  exists toRecipient toSender senderAsset recipientAsset,
    Keypair_fromSecret sdk (Some (s_secretKey recipient)) = Return toRecipient /\
    Keypair_fromSecret sdk (Some (s_secretKey sender)) = Return toSender /\
    getAsset sdk (s_asset sender) = Return senderAsset /\
    getAsset sdk (s_asset recipient) = Return recipientAsset /\
    srv_loadAccount srv history (Some (kp_publicKey toSender)) = Return (tx_source tx) /\
    tx_operations tx =
      [ payment None (Some (kp_publicKey toRecipient)) senderAsset
                (Number_toString sdk (s_amount sender));
        payment (Some (kp_publicKey toRecipient)) (Some (kp_publicKey toSender))
                recipientAsset (Number_toString sdk (s_amount recipient)) ] /\
    tx_signatures tx = [toSender; toRecipient].

(* ================================================================== *)
(** ** More of the services *)

(** *** PaymentService.sendHighPriorityPayment (payment.service.ts) *)

(** What [TransactionBuilder.buildFeeBumpTransaction] is given, and the
    signatures the envelope collects. *)
Record FeeBumpTransaction : Type := {
  fb_feeSource : Keypair;
  fb_baseFee : string;
  fb_innerTransaction : Transaction;
  fb_networkPassphrase : string;
  fb_signatures : list Keypair
}.

(** What the method takes beyond [SDK] and [Services]: the check
    [buildFeeBumpTransaction] makes of its arguments, the hash of a fee-bump
    envelope, and Horizon's answer to the submission of one. *)
Record FeeBumping : Type := {
  FeeBump_check : FeeBumpTransaction -> option Error;
  FeeBump_hash : FeeBumpTransaction -> string;
  srv_submitFeeBump : list Call -> FeeBumpTransaction -> outcome plain
}.

(** The state of a run of [sendHighPriorityPayment]: the state of the
    services it calls, and the fee-bump envelopes it has handed to
    [submitTransaction]. *)
Record HighPriorityState : Type := {
  base_state : State;
  bumped : list FeeBumpTransaction
}.

Definition MH (A : Type) : Type :=
  HighPriorityState -> outcome A * HighPriorityState.

Definition retH {A} (a : A) : MH A := fun st => (Return a, st).

Definition throwH {A} (e : Error) : MH A := fun st => (Throw e, st).

Definition bindH {A B} (m : MH A) (k : A -> MH B) : MH B :=
  fun st =>
    match m st with
    | (Return a, st') => k a st'
    | (Throw e, st') => (Throw e, st')
    end.

(** A computation of the services, run on the state of the services. *)
Definition liftH {A} (m : M A) : MH A :=
  fun st =>
    match m (base_state st) with
    | (out, s) => (out, {| base_state := s; bumped := bumped st |})
    end.

(** [feeBumpTx.sign(keypair)] *)
Definition signFeeBump (fb : FeeBumpTransaction) (kp : Keypair)
  : outcome FeeBumpTransaction :=
  match kp_secret kp with
  | Some _ =>
      Return {| fb_feeSource := fb_feeSource fb; fb_baseFee := fb_baseFee fb;
                fb_innerTransaction := fb_innerTransaction fb;
                fb_networkPassphrase := fb_networkPassphrase fb;
                fb_signatures := fb_signatures fb ++ [kp] |}
  | None => Throw (new_Error "cannot sign: no secret key available")
  end.

(** [this.serverService.submitTransaction(feeBumpTx)] *)
Definition submitFeeBump (fbs : FeeBumping) (fb : FeeBumpTransaction) : MH plain :=
  fun st =>
    (srv_submitFeeBump fbs (calls (base_state st)) fb,
     {| base_state := base_state st; bumped := bumped st ++ [fb] |}).

(** [this.options.account.accounts.find((account) => account.type ===
    payCommission)?.secret] *)
Definition commission_secret (options : StellarModuleConfig) (payCommission : string)
  : outcome (option string) :=
  match account_accounts options with
  | Some accounts =>
      Return (opt_chain (JS.find (fun a => String.eqb (acc_type a) payCommission)
                                 accounts)
                        acc_secret)
  | None => Throw (TypeError "Cannot read properties of undefined (reading 'find')")
  end.

Definition sendHighPriorityPayment (sdk : SDK) (srv : Services) (fbs : FeeBumping)
    (consts : Constants) (options : StellarModuleConfig)
    (payments : list TPayment) (secretKey : string) (payCommission : option string)
  : MH string :=
  bindH (liftH (sendPayment sdk srv consts options payments secretKey true))
    (fun transaction =>
       match transaction with
       | TransactionHash hash => retH hash
       | SignedEnvelope inner =>
           bindH (liftH (getFees srv)) (fun fees =>
           bindH (liftH (if truthy_opt payCommission
                         then lift (commission_secret options
                                      (or_default payCommission ""))
                         else ret (Some secretKey))) (fun validSecret =>
           bindH (liftH (lift (Keypair_fromSecret sdk validSecret))) (fun feeSource =>
           let feeBumpTx :=
             {| fb_feeSource := feeSource;
                fb_baseFee := or_default (max fees) BASE_FEE;
                fb_innerTransaction := inner;
                fb_networkPassphrase := networkPassphrase options;
                fb_signatures := [] |} in
           bindH (match FeeBump_check fbs feeBumpTx with
                  | None => retH feeBumpTx
                  | Some e => throwH e
                  end) (fun feeBumpTx =>
           bindH (liftH (lift (Keypair_fromSecret sdk validSecret))) (fun signer =>
           bindH (liftH (lift (signFeeBump feeBumpTx signer))) (fun signed =>
           bindH (submitFeeBump fbs signed) (fun _ =>
           retH (FeeBump_hash fbs signed))))))))
       end).

(** *** AccountService.createDemoAccount (account.service.ts) *)

Definition mode_is_TESTNET (options : StellarModuleConfig) : bool :=
  match mode options with
  | Some TESTNET => true
  | _ => false
  end.

(** [funded] collects the addresses friendbot has been asked to fund;
    [friendBot] is its answer, which may depend on the requests before.
    The rejection of the request is caught by [.catch((e) => e)]. *)
Definition createDemoAccount (sdk : SDK)
    (friendBot : list string -> string -> outcome plain)
    (options : StellarModuleConfig) (funded : list string)
  : Keypair * list string :=
  let newPair := Keypair_random sdk in
  if mode_is_TESTNET options
  then
    match friendBot funded (kp_publicKey newPair) with
    | Return _ | Throw _ => (newPair, funded ++ [kp_publicKey newPair])
    end
  else (newPair, funded).

(* ================================================================== *)
(** ** More statements *)

(** A balance line for [assetCode], as [getBalances] matches it: the
    native line for 'XLM', a line of that asset code otherwise. *)
Definition line_matches (assetCode : string) (b : BalanceLine) : bool :=
  if String.eqb assetCode "XLM"
  then String.eqb (asset_type b) "native"
  else match asset_code b with
       | Some c => String.eqb c assetCode
       | None => false
       end.

(** The destination of a payment intent: the public key of the recipient's
    secret when one is given, the given public key otherwise. *)
Definition recipient_key (sdk : SDK) (to : Recipient) : outcome (option string) :=
  if truthy_opt (to_secretKey to)
  then match Keypair_fromSecret sdk (to_secretKey to) with
       | Return kp => Return (Some (kp_publicKey kp))
       | Throw e => Throw e
       end
  else Return (to_publicKey to).

(** Whether [sendPayment] opens a trustline on the recipient's behalf: the
    recipient's account has no balance line for the asset code, the
    recipient's secret was given, and the asset is not 'XLM'. *)
Definition opens_trustline (p : TPayment) (ASSET : Asset)
    (recipient : AccountResponse) : bool :=
  (negb (truthy_balances
           (if negb (truthy_string (code ASSET)) then AllBalances (balances recipient)
            else OneBalance (List.find (line_matches (code ASSET))
                                       (balances recipient))))
   && truthy_opt (to_secretKey (p_to p))
   && negb (String.eqb (p_asset p) "XLM"))%bool.

(** What one payment intent adds to the transaction and to the signers:
    a change-trust sourced from the recipient, and the recipient's keypair,
    when a trustline is opened; then, in every case, the payment. *)
Definition intent_group (sdk : SDK) (srv : Services) (p : TPayment)
    (group : list Operation * list Keypair) : Prop :=
  exists ASSET destination history recipient,
    getAsset sdk (p_asset p) = Return ASSET /\
    recipient_key sdk (p_to p) = Return destination /\
    srv_loadAccount srv history destination = Return recipient /\
    fst group
    = (if opens_trustline p ASSET recipient
       then [changeTrust destination ASSET None] else [])
      ++ [payment None destination ASSET (amount_toString sdk (p_amount p))] /\
    (if opens_trustline p ASSET recipient
     then exists kp, Keypair_fromSecret sdk (to_secretKey (p_to p)) = Return kp /\
                     snd group = [kp]
     else snd group = []).

Definition is_payment (op : Operation) : bool :=
  match op with
  | payment _ _ _ _ => true
  | _ => false
  end.

(** The memo a transaction gets for the memo [input] of the caller: none
    when the input is absent or falsy, what [validateMemo] makes of it
    otherwise. *)
Definition attached_memo (srv : Services) (input : option MemoInput)
    (memo : option Memo) : Prop :=
  match input with
  | Some m =>
      if truthy_memo m
      then exists m', validateMemo srv m = Return m' /\ memo = Some m'
      else memo = None
  | None => memo = None
  end.


(** The [create_by] role of the configuration [c] is not the type of any
    configured account. *)
Definition role_not_configured (options : StellarModuleConfig) (c : AccountConfig)
  : Prop :=
  account_config options = Some c /\
  forall r, create_by c = Some r ->
            ~ In r (map acc_type (or_default (account_accounts options) [])).

(** The descriptor of a base trustline under the configured mode. *)
Definition base_trustline_descriptor (options : StellarModuleConfig)
    (t : BaseTrustline) : option string :=
  match t with
  | TrustlineString s => Some s
  | TrustlinePerMode testnet public =>
      match or_default (mode options) TESTNET with
      | TESTNET => testnet
      | PUBLIC => public
      end
  end.

(** The change-trust [createAccount] adds for a base trustline: sourced
    from the new account, for the asset of the first two pieces of the
    descriptor. *)
Definition opens_base_trustline (sdk : SDK) (options : StellarModuleConfig)
    (source : string) (t : BaseTrustline) (op : Operation) : Prop :=
  exists s a,
    base_trustline_descriptor options t = Some s /\
    Asset_new sdk (JS.index (JS.split ":" s) 0) (JS.index (JS.split ":" s) 1)
    = Return a /\
    op = changeTrust (Some source) a None.

(** The secret of the account the [create_by] role names: that of the
    first configured account of that type. *)
Definition role_secret (options : StellarModuleConfig) : option string :=
  match opt_chain (account_config options) create_by with
  | Some role =>
      opt_chain (List.find (fun a => String.eqb (acc_type a) role)
                           (or_default (account_accounts options) []))
                acc_secret
  | None => None
  end.

Definition is_getFees (c : Call) : bool :=
  match c with
  | GetFees => true
  | _ => false
  end.

(* ================================================================== *)
(** ** The balance check of PaymentUtilsService *)

(** [balance >= amount], exactly: the balance is the decimal number its
    string denotes, the amount the binary64 number it is; both are brought
    to a common denominator and compared as integers. *)
Definition decimal_ge (balance : string) (amount : JS.number) : bool :=
  match JS.read_literal balance with
  | JS.LitDecimal neg m e =>
      let b := (if neg then - m else m)%Z in
      match amount with
      | S754_nan => false
      | S754_infinity negative => negative
      | S754_zero _ => (0 <=? b)%Z
      | S754_finite negative p q =>
          let a := (if negative then Z.neg p else Z.pos p) in
          (a * 2 ^ Z.max q 0 * 10 ^ Z.max (- e) 0
           <=? b * 10 ^ Z.max e 0 * 2 ^ Z.max (- q) 0)%Z
      end
  | _ => false
  end.

(** Modelled from the spec: [PaymentUtilsService.validateAssetBalance], the
    spec's [hasSufficientBalance(account, asset, amount) -> bool], is not
    among the sources.  It "loads the account's current balance for asset
    (native balances are matched by type, issued balances by code) and
    compares against amount using decimal-safe comparison", and "returns
    false if no matching balance line exists".  [load] is the ledger
    client's [loadAccount]; a failure of the load is a failure of the
    check. *)
Definition hasSufficientBalance (load : string -> outcome AccountResponse)
    (account : string) (asset : Asset) (amount : JS.number) : outcome bool :=
  match load account with
  | Return a =>
      Return
        (match List.find (fun b =>
                            match issuer asset with
                            | None => String.eqb (asset_type b) "native"
                            | Some _ =>
                                match asset_code b with
                                | Some c => String.eqb c (code asset)
                                | None => false
                                end
                            end)
                         (balances a) with
         | Some b => decimal_ge (balance b) amount
         | None => false
         end)
  | Throw e => Throw e
  end.

(** The check loads an account, so it is asynchronous: what its caller
    holds, unless it awaits, is the promise, an object, whatever the check
    settles to. *)
Definition promised (settles : outcome bool) : value :=
  VPlain (PObject "[object Promise]").

(* ================================================================== *)
(** ** More test doubles *)

Module Fixture.

Definition alice_pair : Keypair :=
  {| kp_publicKey := Double.alice; kp_secret := Some Double.alice_secret |}.

Definition bob_pair : Keypair :=
  {| kp_publicKey := Double.bob; kp_secret := Some Double.bob_secret |}.

Definition master_pair : Keypair :=
  {| kp_publicKey := Double.master; kp_secret := Some Double.master_secret |}.

Definition usd_asset : Asset :=
  {| code := "USD"; issuer := Some Double.usd_issuer |}.

Definition gbp_asset : Asset :=
  {| code := "GBP"; issuer := Some Double.usd_issuer |}.

Definition xlm_asset : Asset := {| code := "XLM"; issuer := None |}.

Definition gbp : string := "GBP:" ++ Double.usd_issuer.

(** 10 USD to Bob, who gives his secret and holds no USD line yet; the
    intent carries a memo. *)
Definition pay_usd_opening : TPayment :=
  {| p_asset := Double.usd; p_amount := AmountString "10";
     p_memo := Some (MemoString "rent");
     p_to := {| to_publicKey := None; to_secretKey := Some Double.bob_secret |} |}.

(** 5 XLM to Bob; its memo is not the first. *)
Definition pay_xlm_second : TPayment :=
  {| p_asset := "XLM"; p_amount := AmountString "5";
     p_memo := Some (MemoString "ignored");
     p_to := {| to_publicKey := Some Double.bob; to_secretKey := None |} |}.

(** What [sendPayment] builds for the two intents, before it is signed. *)
Definition payment_tx : Transaction :=
  {| tx_source := Double.alice_account; tx_fee := "100";
     tx_networkPassphrase := Networks TESTNET;
     tx_operations :=
       [ changeTrust (Some Double.bob) usd_asset None;
         payment None (Some Double.bob) usd_asset "10";
         payment None (Some Double.bob) xlm_asset "5" ];
     tx_memo := Some {| memo_type := "text"; memo_value := "rent" |};
     tx_timeout := 30; tx_signatures := [] |}.

(** The envelope [sendHighPriorityPayment] submits for them when Alice
    pays the fee herself. *)
Definition bump_envelope : FeeBumpTransaction :=
  {| fb_feeSource := alice_pair; fb_baseFee := "2000";
     fb_innerTransaction := Double.add_signatures payment_tx [alice_pair; bob_pair];
     fb_networkPassphrase := Networks TESTNET;
     fb_signatures := [alice_pair] |}.

Definition fee_bumping (accept : bool) : FeeBumping := {|
  FeeBump_check := fun _ => None;
  FeeBump_hash := fun _ => "b0bb1e";
  srv_submitFeeBump := fun _ _ =>
    if accept then Return (PObject "{successful: true}")
    else Throw (Double.http_error "{status: 400}")
|}.

Definition fresh_priority : HighPriorityState :=
  {| base_state := fresh; bumped := [] |}.

(** The role that is to create accounts is not among the accounts. *)
Definition issuer_config : AccountConfig :=
  {| create_by := Some "ISSUER"; starting := None |}.

Definition options_unknown_role : StellarModuleConfig := {|
  mode := Some TESTNET;
  account_config := Some issuer_config;
  account_accounts :=
    Some [ {| acc_type := "ACCOUNT"; acc_public := Some Double.master;
              acc_secret := Some Double.master_secret |} ]
|}.

(** The configuration of [Double.options] without a mode. *)
Definition options_unset_mode : StellarModuleConfig := {|
  mode := None;
  account_config := account_config Double.options;
  account_accounts := account_accounts Double.options
|}.



(** What [validateTrustLine] builds to give Alice a GBP line: her USD line,
    the first that is not native, is given limit 0. *)
Definition trust_tx : Transaction :=
  {| tx_source := Double.master_account; tx_fee := "100";
     tx_networkPassphrase := Networks TESTNET;
     tx_operations :=
       [ changeTrust (Some Double.alice) usd_asset (Some "0");
         changeTrust (Some Double.alice) gbp_asset None ];
     tx_memo := None; tx_timeout := 180; tx_signatures := [] |}.

(** The ledger client and the services of [Double.services], with the
    balance check of the payment utilities: it looks the account up on the
    ledger and hands back a promise. *)
Definition load (account : string) : outcome AccountResponse :=
  Double.lookup_account Double.ledger (Some account).

Definition horizon : Services := {|
  srv_getFees := srv_getFees Double.good_day;
  srv_loadAccount := srv_loadAccount Double.good_day;
  srv_submitTransaction := srv_submitTransaction Double.good_day;
  srv_signTransaction := srv_signTransaction Double.good_day;
  srv_validateAssetBalance := fun _ account asset amount =>
    Return (promised (hasSufficientBalance load account asset amount));
  validateMemo := validateMemo Double.good_day;
  getAssetCode := getAssetCode Double.good_day
|}.

(** Two payment intents of Alice to Bob: 5 XLM, of which she holds 100,
    then 100 USD, of which she holds 12.5. *)
Definition pay_5_xlm : TPayment :=
  {| p_asset := "XLM"; p_amount := AmountString "5"; p_memo := None;
     p_to := {| to_publicKey := Some Double.bob; to_secretKey := None |} |}.

Definition pay_100_usd : TPayment :=
  {| p_asset := Double.usd; p_amount := AmountString "100"; p_memo := None;
     p_to := {| to_publicKey := Some Double.bob; to_secretKey := None |} |}.

(** What [sendPayment] builds for them. *)
Definition overdrawn_tx : Transaction :=
  {| tx_source := Double.alice_account; tx_fee := "100";
     tx_networkPassphrase := Networks TESTNET;
     tx_operations := [ payment None (Some Double.bob) xlm_asset "5";
                        payment None (Some Double.bob) usd_asset "100" ];
     tx_memo := None; tx_timeout := 30; tx_signatures := [] |}.

(** Alice offers 100 USD, of which she holds 12.5, for 10 of Bob's XLM. *)
Definition overdrawn_sender : TSender :=
  {| s_secretKey := Double.alice_secret; s_asset := Double.usd;
     s_amount := JS.parseFloat "100" |}.

(** What [swapPayment] submits for that offer. *)
Definition overdrawn_swap_tx : Transaction :=
  {| tx_source := Double.alice_account; tx_fee := "2000";
     tx_networkPassphrase := Networks TESTNET;
     tx_operations :=
       [ payment None (Some Double.bob) usd_asset "100";
         payment (Some Double.bob) (Some Double.alice) xlm_asset "10" ];
     tx_memo := None; tx_timeout := 30;
     tx_signatures := [alice_pair; bob_pair] |}.


(** The configuration of [Double.options] for the public network. *)
Definition options_public_mode : StellarModuleConfig := {|
  mode := Some PUBLIC;
  account_config := account_config Double.options;
  account_accounts := account_accounts Double.options
|}.

(** Friendbot, out of order. *)
Definition friendBot_down (funded : list string) (address : string) : outcome plain :=
  Throw (Double.http_error "{status: 502}").

End Fixture.
(* ================================================================== *)
(** ** The runtime model on examples *)

Example split_two : JS.split ":" "USD:GABC" = ["USD"; "GABC"].
Proof. reflexivity. Qed.

Example split_none : JS.split ":" "USD" = ["USD"].
Proof. reflexivity. Qed.

Example split_three : JS.split ":" "a:b:c" = ["a"; "b"; "c"].
Proof. reflexivity. Qed.

Example split_empty : JS.split ":" "" = [""].
Proof. reflexivity. Qed.

Example parseFloat_tenth :
  JS.parseFloat "0.1" = S754_finite false 7205759403792794 (-56).
Proof. vm_compute. reflexivity. Qed.

Example parseFloat_zero_balance : JS.parseFloat "0.0000000" = S754_zero false.
Proof. vm_compute. reflexivity. Qed.

Example parseFloat_prefix :
  JS.parseFloat "  -12.5000000abc" = S754_finite true 7036874417766400 (-49).
Proof. vm_compute. reflexivity. Qed.

Example parseFloat_not_a_number : JS.parseFloat "abc" = S754_nan.
Proof. vm_compute. reflexivity. Qed.

Example parseFloat_tie_to_even :
  JS.parseFloat "9007199254740993" = S754_finite false 4503599627370496 1.
Proof. vm_compute. reflexivity. Qed.

Example parseFloat_smallest : JS.parseFloat "5e-324" = S754_finite false 1 (-1074).
Proof. vm_compute. reflexivity. Qed.

Example parseFloat_underflow : JS.parseFloat "2.4703282292062327e-324" = S754_zero false.
Proof. vm_compute. reflexivity. Qed.

Example parseFloat_largest :
  JS.parseFloat "1.7976931348623157e308" = S754_finite false 9007199254740991 971.
Proof. vm_compute. reflexivity. Qed.

Example parseFloat_overflow : JS.parseFloat "1.7976931348623159e308" = S754_infinity false.
Proof. vm_compute. reflexivity. Qed.

(* ================================================================== *)
(** ** parseFloat on ledger amounts *)

Module FloatFacts.

Local Open Scope Z_scope.

(** *** Binary digits *)

Lemma digits2_pos_bounds p :
  2 ^ (Zpos (digits2_pos p) - 1) <= Zpos p < 2 ^ Zpos (digits2_pos p).
Proof.
  induction p as [p IH | p IH |]; cbn [digits2_pos].
  - rewrite Pos2Z.inj_succ.
    replace (Z.succ (Zpos (digits2_pos p)) - 1) with (Z.succ (Zpos (digits2_pos p) - 1)) by lia.
    rewrite !Z.pow_succ_r by lia. lia.
  - rewrite Pos2Z.inj_succ.
    replace (Z.succ (Zpos (digits2_pos p)) - 1) with (Z.succ (Zpos (digits2_pos p) - 1)) by lia.
    rewrite !Z.pow_succ_r by lia. lia.
  - simpl. lia.
Qed.

Lemma Zdigits2_bounds m :
  0 < m -> 2 ^ (Zdigits2 m - 1) <= m < 2 ^ Zdigits2 m.
Proof.
  destruct m as [|p|p]; try lia. intros _. apply digits2_pos_bounds.
Qed.

Lemma Zdigits2_pos m : 0 < m -> 0 < Zdigits2 m.
Proof. destruct m; simpl; lia. Qed.

(** [k <= Zdigits2 m] as soon as [2 ^ (k - 1) <= m]. *)
Lemma Zdigits2_lower m k :
  0 < m -> 2 ^ (k - 1) <= m -> k <= Zdigits2 m.
Proof.
  intros Hm Hk. destruct (Z_lt_le_dec (Zdigits2 m) k) as [Hlt|]; [|assumption].
  exfalso. pose proof (Zdigits2_bounds m Hm) as [_ Hu].
  assert (2 ^ Zdigits2 m <= 2 ^ (k - 1)).
  { apply Z.pow_le_mono_r; lia. }
  lia.
Qed.

(** *** Shifting right *)

Lemma shr_1_m mrs : shr_m (shr_1 mrs) = Z.div2 (shr_m mrs) \/ shr_m mrs < 0.
Proof.
  destruct mrs as [m r s]. destruct m as [|p|p]; cbn; auto.
  - destruct p; cbn; auto.
  - right. lia.
Qed.

Lemma shr_1_nonneg mrs : 0 <= shr_m mrs -> shr_m (shr_1 mrs) = Z.div2 (shr_m mrs).
Proof. intros H. destruct (shr_1_m mrs); [assumption|lia]. Qed.

Lemma iter_shr_1 n mrs :
  0 <= shr_m mrs ->
  shr_m (iter_pos shr_1 n mrs) = Z.shiftr (shr_m mrs) (Zpos n).
Proof.
  revert mrs. induction n as [n IH | n IH |]; intros mrs H; cbn [iter_pos].
  - assert (0 <= shr_m (shr_1 mrs)) as H1.
    { rewrite shr_1_nonneg by assumption. rewrite Z.div2_div. apply Z.div_pos; lia. }
    assert (0 <= shr_m (iter_pos shr_1 n (shr_1 mrs))) as H2.
    { rewrite IH by assumption. apply Z.shiftr_nonneg. assumption. }
    rewrite IH, IH, shr_1_nonneg by assumption.
    rewrite Z.div2_spec, !Z.shiftr_shiftr by lia.
    f_equal. lia.
  - assert (0 <= shr_m (iter_pos shr_1 n mrs)) as H2.
    { rewrite IH by assumption. apply Z.shiftr_nonneg. assumption. }
    rewrite IH, IH by assumption.
    rewrite !Z.shiftr_shiftr by lia. f_equal. lia.
  - rewrite shr_1_nonneg by assumption. apply Z.div2_spec.
Qed.

(** *** Rounding keeps what does not underflow *)

Lemma shr_record_of_loc_m m l : shr_m (shr_record_of_loc m l) = m.
Proof. destruct l as [|[]]; reflexivity. Qed.

(** A positive mantissa above the underflow threshold stays positive when
    it is brought to the format's exponent, and loses no magnitude. *)
Lemma shr_fexp_positive m e l :
  0 < m -> -1074 < Zdigits2 m + e ->
  0 < shr_m (fst (shr_fexp JS.prec JS.emax m e l)) /\
  Zdigits2 m + e
  <= Zdigits2 (shr_m (fst (shr_fexp JS.prec JS.emax m e l)))
     + snd (shr_fexp JS.prec JS.emax m e l).
Proof.
  intros Hm He. unfold shr_fexp, shr, fexp, emin, JS.prec, JS.emax.
  pose proof (Zdigits2_bounds m Hm) as [Hlo _].
  pose proof (Zdigits2_pos m Hm) as HD.
  destruct (Z.max (Zdigits2 m + e - 53) (3 - 1024 - 53) - e) as [|n|n] eqn:En;
    cbn [fst snd]; rewrite ?shr_record_of_loc_m; try lia.
  rewrite iter_shr_1 by (rewrite shr_record_of_loc_m; lia).
  rewrite shr_record_of_loc_m, Z.shiftr_div_pow2 by lia.
  assert (Zpos n < Zdigits2 m) as Hn by lia.
  assert (2 ^ (Zdigits2 m - Zpos n - 1) <= m / 2 ^ Zpos n) as Hq.
  { apply Z.div_le_lower_bound; [apply Z.pow_pos_nonneg; lia|].
    rewrite <- Z.pow_add_r by lia.
    replace (Zpos n + (Zdigits2 m - Zpos n - 1)) with (Zdigits2 m - 1) by lia.
    assumption. }
  assert (0 < 2 ^ (Zdigits2 m - Zpos n - 1)) by (apply Z.pow_pos_nonneg; lia).
  split; [lia|].
  assert (Zdigits2 m - Zpos n <= Zdigits2 (m / 2 ^ Zpos n)).
  { apply Zdigits2_lower; [lia|assumption]. }
  lia.
Qed.

Lemma round_nearest_even_ge m l : m <= round_nearest_even m l.
Proof.
  destruct l as [|[]]; cbn; try lia. destruct (Z.even m); lia.
Qed.

Lemma Zdigits2_mono m m' : 0 < m -> m <= m' -> Zdigits2 m <= Zdigits2 m'.
Proof.
  intros Hm Hle. apply Zdigits2_lower; [lia|].
  pose proof (Zdigits2_bounds m Hm). lia.
Qed.

(** Rounding a positive mantissa above the underflow threshold never gives
    zero. *)
Lemma binary_round_aux_not_zero sx mx ex lx :
  0 < mx -> -1074 < Zdigits2 mx + ex ->
  JS.is_zero (binary_round_aux JS.prec JS.emax sx mx ex lx) = false.
Proof.
  intros Hm He. unfold binary_round_aux.
  pose proof (shr_fexp_positive mx ex lx Hm He) as [H1 H2].
  destruct (shr_fexp JS.prec JS.emax mx ex lx) as [mrs1 e1]. cbn [fst snd] in *.
  set (m2 := round_nearest_even (shr_m mrs1) (loc_of_shr_record mrs1)).
  pose proof (round_nearest_even_ge (shr_m mrs1) (loc_of_shr_record mrs1)) as Hge.
  fold m2 in Hge.
  assert (0 < m2) as Hm2 by lia.
  assert (-1074 < Zdigits2 m2 + e1) as He2.
  { pose proof (Zdigits2_mono (shr_m mrs1) m2 H1 Hge). lia. }
  pose proof (shr_fexp_positive m2 e1 loc_Exact Hm2 He2) as [H3 _].
  destruct (shr_fexp JS.prec JS.emax m2 e1 loc_Exact) as [mrs3 e3]. cbn [fst snd] in *.
  destruct (shr_m mrs3) as [|p|p]; try lia.
  now destruct (e3 <=? JS.emax - JS.prec).
Qed.

Lemma Zdigits2_upper m k : 0 < m -> m < 2 ^ k -> Zdigits2 m <= k.
Proof.
  intros Hm Hk. pose proof (Zdigits2_bounds m Hm) as [Hlo _].
  destruct (Z_lt_le_dec k (Zdigits2 m)) as [Hlt|]; [|assumption].
  exfalso. assert (2 ^ k <= 2 ^ (Zdigits2 m - 1)) by (apply Z.pow_le_mono_r; lia).
  lia.
Qed.

Lemma binary_round_not_zero sx mx :
  JS.is_zero (binary_round JS.prec JS.emax sx mx 0) = false.
Proof.
  unfold binary_round, shl_align.
  pose proof (Zdigits2_pos (Zpos mx) eq_refl) as HD. cbn [Zdigits2] in HD.
  destruct (fexp JS.prec JS.emax (Zpos (digits2_pos mx) + 0) - 0) as [|d|d] eqn:Ed;
    apply binary_round_aux_not_zero; cbn [Zdigits2]; try lia.
  pose proof (Zdigits2_pos (Zpos (Pos.iter xO mx d)) eq_refl) as HD'.
  cbn [Zdigits2] in HD'.
  unfold fexp, emin, JS.prec, JS.emax in *. lia.
Qed.

(** The quotient of two positive integers, as [SFdiv] prepares it for
    rounding: at least 53 bits, and above the underflow threshold when the
    divisor is below [2 ^ 1000]. *)
Lemma SFdiv_core_binary_bounds p q :
  Zdigits2 (Zpos q) <= 1000 ->
  let '(mz, ez, _) := SFdiv_core_binary JS.prec JS.emax (Zpos p) 0 (Zpos q) 0 in
  0 < mz /\ -1074 < Zdigits2 mz + ez.
Proof.
  intros Hq. unfold SFdiv_core_binary.
  set (d1 := Zdigits2 (Zpos p)). set (d2 := Zdigits2 (Zpos q)).
  pose proof (Zdigits2_bounds (Zpos p) eq_refl) as [Hp _]. fold d1 in Hp.
  pose proof (Zdigits2_bounds (Zpos q) eq_refl) as [_ Hq2]. fold d2 in Hq2.
  pose proof (Zdigits2_pos (Zpos p) eq_refl) as Hd1. fold d1 in Hd1.
  pose proof (Zdigits2_pos (Zpos q) eq_refl) as Hd2. fold d2 in Hd2.
  fold d2 in Hq.
  assert (Z.min (fexp JS.prec JS.emax (d1 + 0 - (d2 + 0))) (0 - 0)
          = Z.min (d1 - d2 - 53) 0) as He'.
  { unfold fexp, emin, JS.prec, JS.emax. lia. }
  rewrite He'. clear He'.
  remember (Z.min (d1 - d2 - 53) 0) as e' eqn:He'.
  remember (0 - 0 - e') as s eqn:Es.
  assert (0 <= s) as Hs by lia.
  remember (match s with
            | 0 => Zpos p
            | Zpos _ => Z.shiftl (Zpos p) s
            | Zneg _ => 0
            end) as m' eqn:Em'.
  assert (m' = Zpos p * 2 ^ s) as Hm'.
  { rewrite Em'. clear Em' Es. destruct s as [|s'|s']; try lia.
    now rewrite Z.shiftl_mul_pow2 by lia. }
  clear Em'.
  rewrite (surjective_pairing (Z.div_eucl m' (Zpos q))).
  change (fst (Z.div_eucl m' (Zpos q))) with (m' / Zpos q).
  assert (52 <= d1 - 1 + s - d2) as Ha by lia.
  assert (2 ^ 52 <= m' / Zpos q) as Hquot.
  { apply Z.le_trans with (2 ^ (d1 - 1 + s - d2)); [apply Z.pow_le_mono_r; lia|].
    apply Z.div_le_lower_bound; [lia|].
    apply Z.le_trans with (2 ^ d2 * 2 ^ (d1 - 1 + s - d2)).
    - apply Z.mul_le_mono_nonneg_r; [apply Z.pow_nonneg; lia|lia].
    - rewrite <- Z.pow_add_r by lia.
      replace (d2 + (d1 - 1 + s - d2)) with ((d1 - 1) + s) by lia.
      rewrite Z.pow_add_r by lia. rewrite Hm'.
      apply Z.mul_le_mono_nonneg_r; [apply Z.pow_nonneg; lia|assumption]. }
  assert (0 < 2 ^ 52) by reflexivity.
  split; [lia|].
  assert (53 <= Zdigits2 (m' / Zpos q)).
  { apply Zdigits2_lower; [lia|]. exact Hquot. }
  lia.
Qed.

Lemma pow10_digits k : 0 <= k -> Zdigits2 (10 ^ k) <= 4 * k + 1.
Proof.
  intros Hk. assert (0 < 10 ^ k) by (apply Z.pow_pos_nonneg; lia).
  apply Zdigits2_upper; [assumption|].
  apply Z.le_lt_trans with (2 ^ (4 * k)).
  - rewrite Z.pow_mul_r by lia. apply Z.pow_le_mono_l. cbn. lia.
  - apply Z.pow_lt_mono_r; lia.
Qed.

(** A nonzero decimal [m * 10 ^ e] with [-240 <= e] does not round to
    zero. *)
Lemma round_decimal_not_zero neg m e :
  0 < m -> -240 <= e -> JS.is_zero (JS.round_decimal neg m e) = false.
Proof.
  intros Hm He. unfold JS.round_decimal. destruct m as [|p|p]; try lia.
  destruct (0 <=? e) eqn:Ee.
  - apply Z.leb_le in Ee.
    assert (0 < Zpos p * 10 ^ e) as Hpos.
    { apply Z.mul_pos_pos; [lia|apply Z.pow_pos_nonneg; lia]. }
    unfold binary_normalize.
    destruct neg; destruct (Zpos p * 10 ^ e) as [|M|M]; try lia;
      cbn [Z.opp]; apply binary_round_not_zero.
  - apply Z.leb_gt in Ee.
    assert (0 < 10 ^ (- e)) as Hpos by (apply Z.pow_pos_nonneg; lia).
    destruct (10 ^ (- e)) as [|q|q] eqn:Eq; try lia. cbn [Z.to_pos].
    assert (Zdigits2 (Zpos q) <= 1000) as Hq.
    { rewrite <- Eq. pose proof (pow10_digits (- e)). lia. }
    unfold SFdiv.
    pose proof (SFdiv_core_binary_bounds p q Hq) as Hb.
    destruct (SFdiv_core_binary JS.prec JS.emax (Zpos p) 0 (Zpos q) 0) as [[mz ez] lz].
    destruct Hb as [H1 H2]. now apply binary_round_aux_not_zero.
Qed.

(** *** Reading a ledger amount *)

Lemma digit_char c d :
  JS.digit c = Some d ->
  0 <= d <= 9 /\ JS.is_white c = false /\ JS.strip_sign (String c "") = (false, String c "")
  /\ Ascii.eqb c "." = false /\ Ascii.eqb c "I" = false
  /\ (Ascii.eqb c "0" = true <-> d = 0).
Proof.
  destruct c as [[] [] [] [] [] [] [] []]; cbv; intros H; try discriminate H;
    injection H as <-; repeat split; intros; try discriminate; try lia; reflexivity.
Qed.

Lemma digits_run ds rest acc cnt :
  all_digits ds = true ->
  match rest with
  | EmptyString => True
  | String c _ => JS.digit c = None
  end ->
  JS.digits (ds ++ rest) acc cnt
  = (decimal_value acc ds, cnt + Z.of_nat (String.length ds), rest).
Proof.
  revert acc cnt. induction ds as [|c ds IH]; intros acc cnt Hd Hr.
  - cbn [append String.length decimal_value]. rewrite Z.add_0_r.
    destruct rest as [|c r]; [reflexivity|]. cbn [JS.digits]. now rewrite Hr.
  - cbn [all_digits] in Hd. apply andb_true_iff in Hd as [Hc Hd].
    unfold is_digit in Hc. cbn [append JS.digits decimal_value String.length].
    destruct (JS.digit c) as [d|]; [|discriminate Hc].
    rewrite (IH _ _ Hd Hr). f_equal. f_equal. lia.
Qed.

Lemma decimal_value_zero acc ds :
  all_digits ds = true -> 0 <= acc ->
  0 <= decimal_value acc ds /\
  (decimal_value acc ds = 0 <-> acc = 0 /\ all_zeros ds = true).
Proof.
  revert acc. induction ds as [|c ds IH]; intros acc Hd Ha.
  - cbn. intuition.
  - cbn [all_digits] in Hd. apply andb_true_iff in Hd as [Hc Hd].
    unfold is_digit in Hc. cbn [decimal_value all_zeros].
    destruct (JS.digit c) as [d|] eqn:Ec; [|discriminate Hc].
    destruct (digit_char c d Ec) as (Hr & _ & _ & _ & _ & Hz).
    destruct (IH (10 * acc + d) Hd ltac:(lia)) as [Hnn Hiff].
    split; [assumption|]. rewrite Hiff, andb_true_iff, Hz. intuition lia.
Qed.

Lemma append_empty_r (s : string) : (s ++ "")%string = s.
Proof. induction s as [|c s IH]; cbn; [reflexivity|now rewrite IH]. Qed.

Lemma read_ledger_amount ip fp :
  all_digits ip = true -> ip <> "" -> all_digits fp = true ->
  JS.read_literal (ip ++ "." ++ fp)
  = JS.LitDecimal false (decimal_value (decimal_value 0 ip) fp)
                  (- Z.of_nat (String.length fp)).
Proof.
  intros Hi Hne Hf. destruct ip as [|c ip]; [contradiction|].
  cbn [all_digits] in Hi. pose proof Hi as Hi'.
  apply andb_true_iff in Hi' as [Hc _]. unfold is_digit in Hc.
  destruct (JS.digit c) as [d|] eqn:Ec; [|discriminate Hc].
  destruct (digit_char c d Ec) as (_ & Hw & Hs & _ & HI & _).
  unfold JS.read_literal.
  assert (JS.skip_white (String c ip ++ "." ++ fp)
          = (String c ip ++ "." ++ fp)%string) as ->.
  { cbn [append JS.skip_white]. now rewrite Hw. }
  assert (JS.strip_sign (String c ip ++ "." ++ fp)
          = (false, (String c ip ++ "." ++ fp)%string)) as ->.
  { cbn [append]. revert Hs. unfold JS.strip_sign.
    destruct c as [[] [] [] [] [] [] [] []]; intros Hs; try discriminate Hs; reflexivity. }
  assert (String.prefix "Infinity" (String c ip ++ "." ++ fp) = false) as ->.
  { cbn [append String.prefix]. revert HI.
    destruct c as [[] [] [] [] [] [] [] []]; intros HI; try discriminate HI; reflexivity. }
  rewrite (digits_run (String c ip) ("." ++ fp)%string 0 0 Hi eq_refl).
  cbn [append].
  rewrite <- (append_empty_r fp) at 1.
  rewrite (digits_run fp "" _ _ Hf I).
  cbn [String.length JS.exponent_part].
  destruct ((0 + Z.of_nat (S (String.length ip))
             + (0 + Z.of_nat (S (String.length ip)) + Z.of_nat (String.length fp)
                - (0 + Z.of_nat (S (String.length ip))))) =? 0) eqn:E.
  - apply Z.eqb_eq in E. lia.
  - f_equal. lia.
Qed.

End FloatFacts.

(** On an amount as Horizon prints it, [parseFloat(balance) !== 0] says
    that the amount is not zero: the number parsed is zero exactly when
    every digit is 0. *)
Lemma parseFloat_ledger_amount_zero (ip fp : string) :
  all_digits ip = true -> ip <> "" -> all_digits fp = true ->
  (String.length fp <= 240)%nat ->
  JS.is_zero (JS.parseFloat (ip ++ "." ++ fp)) = (all_zeros ip && all_zeros fp)%bool.
Proof.
  intros Hi Hne Hf Hlen. unfold JS.parseFloat.
  rewrite (FloatFacts.read_ledger_amount ip fp Hi Hne Hf).
  destruct (FloatFacts.decimal_value_zero 0 ip Hi (Z.le_refl 0)) as [Hn1 Hz1].
  destruct (FloatFacts.decimal_value_zero (decimal_value 0 ip) fp Hf Hn1) as [Hn2 Hz2].
  destruct (Z.eq_dec (decimal_value (decimal_value 0 ip) fp) 0) as [E|E].
  - rewrite E. cbn. symmetry. apply andb_true_iff.
    apply Hz2 in E as [E1 E2]. apply Hz1 in E1 as [_ E1]. auto.
  - rewrite FloatFacts.round_decimal_not_zero by lia.
    symmetry. apply not_true_is_false. intros Hb.
    apply andb_true_iff in Hb as [H1 H2]. apply E, Hz2. split; [|assumption].
    apply Hz1. auto.
Qed.

Example zero_balance_is_zero :
  JS.is_zero (JS.parseFloat ("0" ++ "." ++ "0000000")) = true.
Proof.
  rewrite parseFloat_ledger_amount_zero;
    [reflexivity | reflexivity | discriminate | reflexivity | cbn; lia].
Qed.

Example one_stroop_is_not_zero :
  JS.is_zero (JS.parseFloat ("0" ++ "." ++ "0000001")) = false.
Proof.
  rewrite parseFloat_ledger_amount_zero;
    [reflexivity | reflexivity | discriminate | reflexivity | cbn; lia].
Qed.

(* ================================================================== *)
(** ** Reasoning about runs *)

Lemma skipn_exact {A} (l d : list A) : skipn (List.length l) (l ++ d) = d.
Proof. induction l; simpl; auto. Qed.

Lemma since_extends st l b : since st {| calls := calls st ++ l; builder := b |} = l.
Proof. unfold since. cbn [calls]. apply skipn_exact. Qed.

Lemma since_app (st : State) (l d : list Call) :
  calls st = l -> skipn (List.length (calls st)) (l ++ d) = d.
Proof.
  intros ->. induction l as [|c l IH]; simpl; auto.
Qed.

Lemma since_refl (st : State) : since st st = [].
Proof.
  unfold since. rewrite <- (app_nil_r (calls st)) at 2.
  now apply since_app.
Qed.

(** Every run of [bind] is one of the two above. *)
Lemma bind_inv {A B} (m : M A) (k : A -> M B) st out st' :
  bind m k st = (out, st') ->
  (exists a st1, m st = (Return a, st1) /\ k a st1 = (out, st')) \/
  (exists e, m st = (Throw e, st') /\ out = Throw e).
Proof.
  unfold bind. destruct (m st) as [[a|e] st1]; intros H.
  - left. eauto.
  - right. inversion H; subst. eauto.
Qed.

(** *** Inversion of the primitives *)

Lemma ret_inv {A} (a : A) st out st' :
  ret a st = (out, st') -> out = Return a /\ st' = st.
Proof. unfold ret. intros H. inversion H. auto. Qed.

Lemma throw_inv {A} (e : Error) st (out : outcome A) st' :
  throw e st = (out, st') -> out = Throw e /\ st' = st.
Proof. unfold throw. intros H. inversion H. auto. Qed.

Lemma lift_inv {A} (o : outcome A) st out st' :
  lift o st = (out, st') -> o = out /\ st' = st.
Proof. unfold lift. intros H. inversion H. auto. Qed.

Lemma call_inv {A} (c : Call) (answer : list Call -> outcome A) st out st' :
  call c answer st = (out, st') ->
  answer (calls st) = out /\
  st' = {| calls := calls st ++ [c]; builder := builder st |}.
Proof. unfold call. intros H. inversion H. auto. Qed.

Lemma try_catch_inv {A} (m : M A) (h : Error -> M A) st out st' :
  try_catch m h st = (out, st') ->
  (exists a, m st = (Return a, st') /\ out = Return a) \/
  (exists e st1, m st = (Throw e, st1) /\ h e st1 = (out, st')).
Proof.
  unfold try_catch. destruct (m st) as [[a|e] st1]; intros H.
  - left. inversion H; subst. eauto.
  - right. eauto.
Qed.

Lemma new_TransactionBuilder_inv account fee pass st out st' :
  new_TransactionBuilder account fee pass st = (out, st') ->
  (exists a, account = Some a /\ out = Return tt /\
     st' = {| calls := calls st;
              builder := Some {| tb_source := a; tb_fee := fee;
                                 tb_networkPassphrase := pass;
                                 tb_operations := []; tb_memo := None;
                                 tb_timeout := None |} |}) \/
  (account = None /\ st' = st /\
   out = Throw (new_Error "must specify source account for the transaction")).
Proof.
  unfold new_TransactionBuilder. destruct account; intros H.
  - left. inversion H; subst. eauto.
  - right. apply throw_inv in H. tauto.
Qed.

Lemma update_builder_inv f st out st' :
  update_builder f st = (out, st') ->
  (exists tb, builder st = Some tb /\ out = Return tt /\
     st' = {| calls := calls st; builder := Some (f tb) |}) \/
  (builder st = None /\ st' = st /\
   out = Throw (TypeError "Cannot read properties of undefined")).
Proof.
  unfold update_builder. destruct (builder st); intros H; inversion H; subst; eauto.
Qed.

Lemma setTimeout_build_inv t st out st' :
  setTimeout_build t st = (out, st') ->
  (exists tb, builder st = Some tb /\
     out = Return {| tx_source := tb_source tb; tx_fee := tb_fee tb;
                     tx_networkPassphrase := tb_networkPassphrase tb;
                     tx_operations := tb_operations tb;
                     tx_memo := tb_memo tb; tx_timeout := t;
                     tx_signatures := [] |} /\
     st' = {| calls := calls st;
              builder := Some {| tb_source := tb_source tb; tb_fee := tb_fee tb;
                                 tb_networkPassphrase := tb_networkPassphrase tb;
                                 tb_operations := tb_operations tb;
                                 tb_memo := tb_memo tb; tb_timeout := Some t |} |}) \/
  (builder st = None /\ st' = st /\
   out = Throw (TypeError "Cannot read properties of undefined")).
Proof.
  unfold setTimeout_build. destruct (builder st) as [tb|]; intros H; inversion H; subst.
  - left. exists tb. auto.
  - right. auto.
Qed.

Lemma sign_inv tx kp st out st' :
  sign tx kp st = (out, st') ->
  st' = st /\
  ((exists s, kp_secret kp = Some s /\
      out = Return {| tx_source := tx_source tx; tx_fee := tx_fee tx;
                      tx_networkPassphrase := tx_networkPassphrase tx;
                      tx_operations := tx_operations tx; tx_memo := tx_memo tx;
                      tx_timeout := tx_timeout tx;
                      tx_signatures := tx_signatures tx ++ [kp] |}) \/
   (kp_secret kp = None /\
    out = Throw (new_Error "cannot sign: no secret key available"))).
Proof.
  unfold sign. destruct (kp_secret kp); intros H.
  - apply ret_inv in H as [-> ->]. split; auto. left. eauto.
  - apply throw_inv in H as [-> ->]. split; auto.
Qed.

Lemma Operation_make_inv sdk op st out st' :
  Operation_make sdk op st = (out, st') ->
  st' = st /\
  ((out = Return op /\ Operation_check sdk op = None) \/
   exists e, out = Throw e /\ Operation_check sdk op = Some e).
Proof.
  unfold Operation_make. destruct (Operation_check sdk op); intros H.
  - apply throw_inv in H as [-> ->]. eauto.
  - apply ret_inv in H as [-> ->]. eauto.
Qed.

(** *** Computations that call no collaborator *)

Lemma silent_ret {A} (a : A) : silent (ret a).
Proof. intros st out st' H. apply ret_inv in H as [_ ->]. reflexivity. Qed.

Lemma silent_throw {A} (e : Error) : silent (@throw A e).
Proof. intros st out st' H. apply throw_inv in H as [_ ->]. reflexivity. Qed.

Lemma silent_lift {A} (o : outcome A) : silent (lift o).
Proof. intros st out st' H. apply lift_inv in H as [_ ->]. reflexivity. Qed.

Lemma silent_bind {A B} (m : M A) (k : A -> M B) :
  silent m -> (forall a, silent (k a)) -> silent (bind m k).
Proof.
  intros Hm Hk st out st' H. apply bind_inv in H.
  destruct H as [(a & st1 & H1 & H2) | (e & H1 & _)].
  - rewrite (Hk _ _ _ _ H2). exact (Hm _ _ _ H1).
  - exact (Hm _ _ _ H1).
Qed.

Lemma silent_update_builder f : silent (update_builder f).
Proof.
  intros st out st' H. apply update_builder_inv in H.
  destruct H as [(tb & _ & _ & ->) | (_ & -> & _)]; reflexivity.
Qed.

Lemma silent_addOperation op : silent (addOperation op).
Proof. apply silent_update_builder. Qed.

Lemma silent_Operation_make sdk op : silent (Operation_make sdk op).
Proof. intros st out st' H. apply Operation_make_inv in H as [-> _]. reflexivity. Qed.

Lemma silent_forEach {A} (body : A -> M unit) xs :
  (forall x, silent (body x)) -> silent (forEach body xs).
Proof.
  intros Hb. induction xs as [|x xs IH]; simpl.
  - apply silent_ret.
  - apply silent_bind; auto.
Qed.

Lemma silent_map_M {A B} (f : A -> M B) xs :
  (forall x, silent (f x)) -> silent (map_M f xs).
Proof.
  intros Hf. induction xs as [|x xs IH]; simpl.
  - apply silent_ret.
  - apply silent_bind; [auto|]. intros y.
    apply silent_bind; [auto|]. intros ys. apply silent_ret.
Qed.

Create HintDb silent.
#[local] Hint Resolve silent_ret silent_throw silent_lift silent_update_builder
  silent_addOperation silent_Operation_make silent_forEach silent_map_M : silent.
#[local] Hint Extern 2 (silent (bind _ _)) => apply silent_bind; [|intro] : silent.
#[local] Hint Extern 3 (silent (match ?x with _ => _ end)) => destruct x : silent.

Lemma silent_trustline_pieces options t : silent (trustline_pieces options t).
Proof. unfold trustline_pieces. auto with silent. Qed.

(** *** Loading accounts and finding the role *)

Lemma isValidAccount_truthy sdk accountId :
  truthy (isValidAccount sdk accountId) = true.
Proof.
  unfold isValidAccount. now destruct (Keypair_fromPublicKey sdk accountId).
Qed.

Lemma getAccount_loads sdk srv accountId st :
  getAccount sdk srv accountId st
  = (match srv_loadAccount srv (calls st) accountId with
     | Return a => Return (Some a)
     | Throw e => Throw e
     end,
     {| calls := calls st ++ [LoadAccount accountId]; builder := builder st |}).
Proof.
  unfold getAccount. rewrite isValidAccount_truthy.
  unfold bind, loadAccount, call, ret.
  now destruct (srv_loadAccount srv (calls st) accountId).
Qed.

Lemma getPairFromSecret_inv sdk consts secret st out st' :
  getPairFromSecret sdk consts secret st = (out, st') ->
  st' = st /\
  ((exists kp, Keypair_fromSecret sdk secret = Return kp /\ out = Return kp) \/
   (exists e, Keypair_fromSecret sdk secret = Throw e /\
              out = Throw (new_Error (INVALID_SECRET consts)))).
Proof.
  unfold getPairFromSecret, try_catch, lift, throw.
  destruct (Keypair_fromSecret sdk secret); intros H; inversion H; subst; eauto.
Qed.

Lemma getAccountFromSecret_inv sdk srv consts secret st out st' :
  getAccountFromSecret sdk srv consts secret st = (out, st') ->
  (exists e, Keypair_fromSecret sdk secret = Throw e /\ st' = st /\
             out = Throw (new_Error (INVALID_SECRET consts))) \/
  (exists kp, Keypair_fromSecret sdk secret = Return kp /\
     st' = {| calls := calls st ++ [LoadAccount (Some (kp_publicKey kp))];
              builder := builder st |} /\
     ((exists a, srv_loadAccount srv (calls st) (Some (kp_publicKey kp)) = Return a /\
                 out = Return (kp, Some a)) \/
      (exists e, srv_loadAccount srv (calls st) (Some (kp_publicKey kp)) = Throw e /\
                 out = Throw e))).
Proof.
  unfold getAccountFromSecret. intros H.
  apply bind_inv in H. destruct H as [(kp & st1 & Hm & H) | (e & Hm & ->)].
  - apply getPairFromSecret_inv in Hm. destruct Hm as [-> [(kp' & Hk & E) | (e & _ & E)]];
      [|discriminate E].
    injection E as <-. right. exists kp. split; [assumption|].
    apply bind_inv in H. rewrite getAccount_loads in H.
    destruct H as [(a & st2 & Hm & H) | (e & Hm & ->)].
    + injection Hm as Ha <-. apply ret_inv in H as [-> ->]. split; [reflexivity|].
      destruct (srv_loadAccount srv (calls st) (Some (kp_publicKey kp))); [|discriminate].
      injection Ha as <-. left. eauto.
    + injection Hm as Ha <-. split; [reflexivity|].
      destruct (srv_loadAccount srv (calls st) (Some (kp_publicKey kp))); [discriminate|].
      injection Ha as <-. right. eauto.
  - apply getPairFromSecret_inv in Hm. destruct Hm as [-> [(kp' & _ & E) | (e0 & Hk & E)]].
    + discriminate E.
    + injection E as ->. left. exists e0. auto.
Qed.

Lemma find_create_by_inv options st out st' :
  find_create_by options st = (out, st') ->
  st' = st /\
  (out = Return (JS.find (fun a => eq_opt (acc_type a)
                                     (opt_chain (account_config options) create_by))
                         (mainAccounts options)) \/
   (account_config options = None /\
    out = Throw (TypeError "Cannot read properties of undefined"))).
Proof.
  unfold find_create_by, accountOptions_get, accountOptions.
  destruct (mainAccounts options) as [|a l] eqn:E.
  - intros H. apply ret_inv in H as [-> ->]. auto.
  - destruct (account_config options) as [c|]; intros H.
    + apply bind_inv in H. destruct H as [(r & st1 & H1 & H2) | (e & H1 & _)].
      * apply ret_inv in H1 as [H1 ->]. injection H1 as ->.
        apply ret_inv in H2 as [-> ->]. auto.
      * apply ret_inv in H1 as [H1 _]. discriminate H1.
    + apply bind_inv in H. destruct H as [(r & st1 & H1 & H2) | (e & H1 & ->)].
      * apply throw_inv in H1 as [H1 _]. discriminate H1.
      * apply throw_inv in H1 as [H1 ->]. injection H1 as ->. auto.
Qed.

Lemma destination_role_found options :
  truthy_opt (opt_chain (account_config options) create_by) = true ->
  opt_chain (JS.find (fun a => eq_opt (acc_type a)
                                 (opt_chain (account_config options) create_by))
                     (mainAccounts options))
            acc_public
  = destination_role options.
Proof.
  unfold destination_role, mainAccounts, JS.find.
  destruct (opt_chain (account_config options) create_by); [reflexivity|discriminate].
Qed.

Lemma role_secret_of_role options :
  opt_chain (JS.find (fun a => eq_opt (acc_type a)
                                 (opt_chain (account_config options) create_by))
                     (mainAccounts options))
            acc_secret
  = role_secret options.
Proof.
  unfold role_secret, mainAccounts, JS.find.
  destruct (opt_chain (account_config options) create_by); [reflexivity|].
  cbn [eq_opt]. induction (or_default (account_accounts options) []); auto.
Qed.

(** *** Stepping through a run *)

Ltac project :=
  cbn [calls builder tb_source tb_fee tb_networkPassphrase tb_operations tb_memo
       tb_timeout tx_source tx_fee tx_networkPassphrase tx_operations tx_memo
       tx_timeout tx_signatures fst snd] in *.

Ltac tidy :=
  project;
  repeat match goal with
  | H : Return _ = Return _ |- _ => injection H as H
  | H : Throw _ = Throw _ |- _ => injection H as H
  | H : Return _ = Throw _ |- _ => discriminate H
  | H : Throw _ = Return _ |- _ => discriminate H
  | H : (_, _) = (_, _) |- _ => injection H as ? ?
  | H : Some _ = Some _ |- _ => injection H as H
  | H : Some _ = None |- _ => discriminate H
  | H : None = Some _ |- _ => discriminate H
  | H : ?x = ?y |- _ => is_var x; subst x
  | H : ?y = ?x |- _ => is_var x; subst x
  | H : _ /\ _ |- _ => destruct H as [? ?]
  | H : exists _, _ |- _ => destruct H as [? H]
  | u : unit |- _ => destruct u
  end;
  project.

(** Two answers to the same question are the same answer. *)
Ltac same_answers :=
  repeat match goal with
  | H1 : ?t = Return _, H2 : ?t = _ |- _ => rewrite H1 in H2; tidy
  | H1 : ?t = Throw _, H2 : ?t = _ |- _ => rewrite H1 in H2; tidy
  | H1 : ?t = Some _, H2 : ?t = _ |- _ => rewrite H1 in H2; tidy
  end.

(** Runs a hypothesis [m st = (out, st')] to its end: splits each [bind],
    inverts each primitive and decides each conditional, in program order.
    A method it does not know is left for its own lemma. *)
Ltac run H :=
  cbn beta iota in H;
  lazymatch type of H with
  | bind _ _ _ = _ =>
      let Hm := fresh "Hm" in
      apply bind_inv in H;
      destruct H as [(? & ? & Hm & H) | (? & Hm & ?)];
      [run Hm; run H | tidy; run Hm]
  | ret _ _ = _ => apply ret_inv in H; tidy
  | throw _ _ = _ => apply throw_inv in H; tidy
  | lift _ _ = _ => apply lift_inv in H; tidy
  | call _ _ _ = _ => apply call_inv in H; tidy
  | getFees _ _ = _ => unfold getFees in H; apply call_inv in H; tidy
  | loadAccount _ _ _ = _ => unfold loadAccount in H; apply call_inv in H; tidy
  | submitTransaction _ _ _ = _ =>
      unfold submitTransaction in H; apply call_inv in H; tidy
  | signTransaction _ _ _ _ = _ =>
      unfold signTransaction in H; apply call_inv in H; tidy
  | validateAssetBalance _ _ _ _ _ = _ =>
      unfold validateAssetBalance in H; apply call_inv in H; tidy
  | getAccountFromSecret _ _ _ _ _ = _ =>
      apply getAccountFromSecret_inv in H;
      destruct H as [H | (? & ? & ? & [H | H])]; tidy
  | getPairFromSecret _ _ _ _ = _ =>
      apply getPairFromSecret_inv in H; destruct H as [? [H | H]]; tidy
  | getAccount _ _ ?id ?s = _ =>
      rewrite getAccount_loads in H;
      destruct (srv_loadAccount _ (calls s) id) eqn:?; tidy
  | getBalances _ _ _ _ _ = _ => unfold getBalances in H; run H
  | account_balances _ _ = _ => unfold account_balances in H; run H
  | as_array _ _ = _ => unfold as_array in H; run H
  | accountOptions_get _ _ _ = _ =>
      unfold accountOptions_get, accountOptions in H; run H
  | validateAccountType _ _ _ = _ => unfold validateAccountType in H; run H
  | find_create_by _ _ = _ =>
      apply find_create_by_inv in H; destruct H as [? [H | H]]; tidy
  | catch_value _ _ = _ => unfold catch_value in H; run H
  | new_TransactionBuilder _ _ _ _ = _ =>
      apply new_TransactionBuilder_inv in H; destruct H as [H | H]; tidy
  | addOperation _ _ = _ =>
      unfold addOperation in H; apply update_builder_inv in H;
      destruct H as [H | H]; tidy
  | addMemo _ _ = _ =>
      unfold addMemo in H; apply update_builder_inv in H;
      destruct H as [H | H]; tidy
  | setTimeout_build _ _ = _ =>
      apply setTimeout_build_inv in H; destruct H as [H | H]; tidy
  | sign _ _ _ = _ => apply sign_inv in H; destruct H as [? [H | H]]; tidy
  | Operation_make _ _ _ = _ =>
      apply Operation_make_inv in H; destruct H as [? [H | H]]; tidy
  | response_data _ _ = _ =>
      unfold response_data in H;
      match type of H with
      | (match ?x with _ => _ end) _ = _ => destruct x eqn:?; run H
      end
  | try_catch _ _ _ = _ =>
      let Hm := fresh "Hm" in
      apply try_catch_inv in H;
      destruct H as [(? & Hm & ?) | (? & ? & Hm & H)]; [run Hm | run Hm; run H]
  | (if ?c then _ else _) _ = _ => destruct c eqn:?; run H
  | (match ?x with _ => _ end) _ = _ => destruct x eqn:?; run H
  | _ => idtac
  end.

(** Brings every trace to the form [calls st ++ [c1; ...; cn]]. *)
Ltac traces :=
  unfold since in *; project;
  repeat match goal with
  | Hc : calls ?x = _ |- _ => is_var x; rewrite Hc in *; clear Hc
  end;
  rewrite <- ?app_assoc in *; cbn [app] in *;
  rewrite ?skipn_exact, ?skipn_all in *.

(** The loops of [createAccount] call no collaborator. *)
Ltac silent_loops :=
  repeat match goal with
  | Hl : map_M _ _ _ = _ |- _ =>
      apply silent_map_M in Hl; [|intro; apply silent_trustline_pieces]
  | Hl : forEach _ _ _ = _ |- _ =>
      apply silent_forEach in Hl; [|intro; auto with silent]
  end; project.

(** *** Finding a call in a trace *)

(** A call that occurs once in a trace splits it in one way only. *)
Lemma split_once (p : Call -> bool) l1 y l2 pre x post :
  forallb (fun c => negb (p c)) l1 = true ->
  forallb (fun c => negb (p c)) l2 = true ->
  p x = true ->
  l1 ++ y :: l2 = pre ++ x :: post ->
  pre = l1 /\ x = y /\ post = l2.
Proof.
  revert pre. induction l1 as [|c l1 IH]; intros pre H1 H2 Hx E.
  - destruct pre as [|c pre]; simpl in E.
    + injection E as -> ->. auto.
    + injection E as -> E. exfalso.
      assert (In x l2) as Hin by (rewrite E; apply in_elt).
      rewrite forallb_forall in H2. apply H2 in Hin. rewrite Hx in Hin. discriminate.
  - simpl in H1. apply andb_true_iff in H1 as [Hc H1].
    destruct pre as [|c' pre]; simpl in E.
    + injection E as <- E. rewrite Hx in Hc. discriminate.
    + injection E as <- E. destruct (IH pre H1 H2 Hx E) as (-> & -> & ->). auto.
Qed.

Lemma split_never (p : Call -> bool) l pre x post :
  forallb (fun c => negb (p c)) l = true ->
  p x = true ->
  l = pre ++ x :: post -> False.
Proof.
  intros H Hx E. rewrite forallb_forall in H.
  assert (In x l) as Hin by (rewrite E; apply in_elt).
  apply H in Hin. rewrite Hx in Hin. discriminate.
Qed.

(** Finds the submission [Hin] speaks of in a trace that is written out. *)
Ltac submitted Hin :=
  simpl in Hin; repeat (destruct Hin as [Hin | Hin]);
  try discriminate Hin; try contradiction;
  try (injection Hin as <-); project.

(** Finds the balance check [Hs] speaks of in a trace that is written out,
    or shows that there is none. *)
Ltac validated Hs :=
  lazymatch type of Hs with
  | ValidateAssetBalance ?x ?y ?z :: ?rest = _ =>
      apply (split_once is_validate [] (ValidateAssetBalance x y z) rest) in Hs;
      [ destruct Hs as (-> & Hs & ->); injection Hs as -> -> ->
      | reflexivity | reflexivity | reflexivity ]
  | ?a :: ?b :: ValidateAssetBalance ?x ?y ?z :: ?rest = _ =>
      apply (split_once is_validate [a; b] (ValidateAssetBalance x y z) rest) in Hs;
      [ destruct Hs as (-> & Hs & ->); injection Hs as -> -> ->
      | reflexivity | reflexivity | reflexivity ]
  | _ => exfalso; eapply (split_never is_validate); [ | | exact Hs]; reflexivity
  end.

(* ================================================================== *)
(** ** AccountUtilsService *)

(** C10.  [isValidAccount] returns a truthy value for every input: [true]
    when the SDK parses the address as a public key, the caught [Error]
    object when it does not.  So [getAccount] never takes its [null]
    branch: it always forwards the address to the network account load,
    and resolves to what the load resolves to. *)
Theorem isValidAccount_truthy_getAccount_always_loads
    (sdk : SDK) (srv : Services) (accountId : option string) (st : State) :
  truthy (isValidAccount sdk accountId) = true
  /\ isValidAccount sdk accountId
     = match Keypair_fromPublicKey sdk accountId with
       | Return _ => VPlain (PBool true)
       | Throw e => VError e
       end
  /\ is_null (fst (getAccount sdk srv accountId st)) = false
  /\ getAccount sdk srv accountId st
     = bind (loadAccount srv accountId) (fun a => ret (Some a)) st
  /\ since st (snd (getAccount sdk srv accountId st)) = [LoadAccount accountId].
Proof.
  repeat split.
  - apply isValidAccount_truthy.
  - rewrite getAccount_loads. cbn.
    now destruct (srv_loadAccount srv (calls st) accountId).
  - unfold getAccount. now rewrite isValidAccount_truthy.
  - rewrite getAccount_loads. cbn. apply since_extends.
Qed.

(** An address that is no public key is loaded all the same. *)
Example getAccount_invalid_address :
  isValidAccount Double.sdk (Some "nobody")
  = VError (new_Error "Invalid Stellar public key")
  /\ calls (snd (getAccount Double.sdk Double.good_day (Some "nobody") fresh))
     = [LoadAccount (Some "nobody")].
Proof. vm_compute. auto. Qed.

(* ================================================================== *)
(** ** PaymentService: getAsset *)

Lemma split_colon_free c : colon_free c = true -> JS.split ":" c = [c].
Proof.
  induction c as [|a c IH]; simpl; intros H; [reflexivity|].
  apply andb_true_iff in H as [Ha Hc].
  destruct (Ascii.eqb a ":"); [discriminate|].
  now rewrite (IH Hc).
Qed.

Lemma split_app_colon c s :
  colon_free c = true -> JS.split ":" (c ++ String ":" s) = c :: JS.split ":" s.
Proof.
  induction c as [|a c IH]; simpl; intros H; [reflexivity|].
  apply andb_true_iff in H as [Ha Hc].
  destruct (Ascii.eqb a ":"); [discriminate|].
  now rewrite (IH Hc).
Qed.

(** [split] undoes [join] on pieces without separator. *)
Lemma split_concat c more :
  colon_free c = true -> forallb colon_free more = true ->
  JS.split ":" (String.concat ":" (c :: more)) = c :: more.
Proof.
  revert c. induction more as [|p more IH]; intros c Hc Hm.
  - simpl. now apply split_colon_free.
  - simpl in Hm. apply andb_true_iff in Hm as [Hp Hm].
    change (String.concat ":" (c :: p :: more))
      with (c ++ String ":" (String.concat ":" (p :: more)))%string.
    rewrite (split_app_colon _ _ Hc). now rewrite (IH p Hp Hm).
Qed.

(** C2, as it fails: a descriptor of three components, which is not the
    native marker and is not one code and one issuer, resolves to an asset
    instead of failing; the third component is dropped. *)
Lemma getAsset_accepts_three_components :
  String.eqb (Double.usd ++ ":junk") "XLM" = false
  /\ code_and_issuer (Double.usd ++ ":junk") = false
  /\ getAsset Double.sdk (Double.usd ++ ":junk")
     = Return {| code := "USD"; issuer := Some Double.usd_issuer |}.
Proof. vm_compute. auto. Qed.

(** C2, amended.  The native marker resolves to the native asset.  Every
    other descriptor is cut at its colons; the first piece is handed to the
    SDK's [Asset] constructor as the code and the second, or [undefined]
    when there is none, as the issuer; further pieces are ignored.  The
    resolver fails exactly when that constructor throws. *)
Theorem getAsset_reads_first_two_components
    (sdk : SDK) (c : string) (more : list string) :
  colon_free c = true ->
  forallb colon_free more = true ->
  String.eqb (String.concat ":" (c :: more)) "XLM" = false ->
  getAsset sdk "XLM" = Return (Asset_native sdk)
  /\ getAsset sdk (String.concat ":" (c :: more))
     = Asset_new sdk (Some c) (hd_error more).
Proof.
  intros Hc Hm Hx. split; [reflexivity|].
  unfold getAsset. rewrite Hx, (split_concat _ _ Hc Hm).
  destruct more; reflexivity.
Qed.

Lemma getAsset_reads_first_two_components_witness :
  getAsset Double.sdk "XLM" = Return (Asset_native Double.sdk)
  /\ getAsset Double.sdk (String.concat ":" ["USD"; Double.usd_issuer; "junk"])
     = Asset_new Double.sdk (Some "USD") (hd_error [Double.usd_issuer; "junk"]).
Proof.
  apply (getAsset_reads_first_two_components Double.sdk "USD" [Double.usd_issuer; "junk"]);
    reflexivity.
Defined.

(* ================================================================== *)
(** ** PaymentService: sendPayment *)

(** C5.  [sendPayment] given an empty payment list throws the error 'No
    payments to send' at once: the state it leaves is the state it was
    called in, so no fee or account has been loaded and no call has been
    made to any collaborator. *)
Theorem sendPayment_empty_list_fails_first
    (sdk : SDK) (srv : Services) (consts : Constants)
    (options : StellarModuleConfig) (secretKey : string) (feeBump : bool)
    (st : State) :
  sendPayment sdk srv consts options [] secretKey feeBump st
  = (Throw (new_Error "No payments to send"), st)
  /\ since st (snd (sendPayment sdk srv consts options [] secretKey feeBump st)) = [].
Proof.
  split.
  - reflexivity.
  - simpl. apply since_refl.
Qed.

Lemma sendPayment_body_trace sdk srv sourcePair signers p st out st' :
  sendPayment_body sdk srv sourcePair signers p st = (out, st') ->
  exists d,
    calls st' = calls st ++ d /\
    aborts_on_unmet srv (calls st) d out /\
    (forall s, out = Return s -> List.length (filter is_validate d) = 1%nat).
Proof.
  intros H. unfold sendPayment_body in H. run H.
  all: eexists; (split; [rewrite <- ?app_assoc; cbn [app]; try reflexivity;
                         symmetry; apply app_nil_r|]).
  all: (split; [|intros s E; try discriminate E; reflexivity]).
  all: (split; [reflexivity|]);
    intros pre account asset amount post enough Hs Hv Ht.
  all: validated Hs; rewrite ?app_nil_r in *; same_answers;
    try (rewrite Ht in *; discriminate); auto.
Qed.

(** The loop over the payment intents: the calls of the bodies, in order,
    with one balance check for each intent the loop gets through. *)
Lemma sendPayment_loop_trace sdk srv sourcePair payments signers st out st' :
  for_of (sendPayment_body sdk srv sourcePair) payments signers st = (out, st') ->
  exists d,
    calls st' = calls st ++ d /\
    aborts_on_unmet srv (calls st) d out /\
    (forall s, out = Return s ->
       List.length (filter is_validate d) = List.length payments).
Proof.
  revert signers st. induction payments as [|p payments IH]; intros signers st H.
  - simpl in H. apply ret_inv in H as [-> ->]. exists []. split.
    + symmetry. apply app_nil_r.
    + split; [|reflexivity].
      split; [reflexivity|]. intros pre ? ? ? post ? Hs. destruct pre; discriminate Hs.
  - simpl in H. apply bind_inv in H.
    destruct H as [(s1 & st1 & Hb & H) | (e & Hb & ->)].
    + apply sendPayment_body_trace in Hb as (d1 & Hc1 & (Hs1 & Hu1) & Hn1).
      apply IH in H as (d2 & Hc2 & (Hs2 & Hu2) & Hn2).
      exists (d1 ++ d2). split; [rewrite Hc2, Hc1; symmetry; apply app_assoc|].
      split.
      * split; [rewrite forallb_app, Hs1, Hs2; reflexivity|].
        intros pre account asset amount post enough Hs Hv Ht.
        apply app_eq_app in Hs as [l [[-> Hs] | [-> Hs]]].
        -- destruct l as [|c l].
           ++ rewrite app_nil_r in *. simpl in Hs.
              apply (Hu2 [] account asset amount post enough); auto.
              rewrite Hc1, app_nil_r. exact Hv.
           ++ simpl in Hs. injection Hs as <- ->.
              destruct (Hu1 pre account asset amount l enough) as [Hx _]; auto.
              discriminate Hx.
        -- apply (Hu2 l account asset amount post enough); auto.
           rewrite Hc1, <- app_assoc. exact Hv.
      * intros s E. rewrite filter_app, length_app.
        rewrite (Hn1 s1 eq_refl), (Hn2 s E). reflexivity.
    + apply sendPayment_body_trace in Hb as (d1 & Hc1 & Hu1 & _).
      exists d1. split; [assumption|]. split; [assumption|].
      intros s E. discriminate E.
Qed.

(** A failed balance check among the calls [c1; c2] ++ d ++ rest, where
    only [d] holds balance checks, is one of [d]. *)
Lemma unmet_in_loop {A} srv history c1 c2 d rest (out : outcome A)
    pre account asset amount post enough :
  is_validate c1 = false -> is_validate c2 = false ->
  forallb (fun c => negb (is_validate c)) rest = true ->
  aborts_on_unmet srv (history ++ [c1; c2]) d out ->
  c1 :: c2 :: d ++ rest = pre ++ ValidateAssetBalance account asset amount :: post ->
  srv_validateAssetBalance srv (history ++ pre) account asset amount = Return enough ->
  truthy enough = false ->
  out = Throw (new_Error "Insufficient balance") /\ post = rest.
Proof.
  intros H1 H2 Hr [_ Hu] Hs Hv Ht.
  destruct pre as [|p1 pre]; simpl in Hs.
  { injection Hs as -> _. discriminate H1. }
  injection Hs as <- Hs.
  destruct pre as [|p2 pre]; simpl in Hs.
  { injection Hs as -> _. discriminate H2. }
  injection Hs as <- Hs.
  apply app_eq_app in Hs as [l [[-> Hs] | [-> Hs]]].
  - destruct l as [|c l]; simpl in Hs.
    + exfalso. rewrite <- Hs in Hr. simpl in Hr. discriminate Hr.
    + injection Hs as <- ->.
      destruct (Hu pre account asset amount l enough) as [-> ->]; auto.
      change (c1 :: c2 :: pre) with ([c1; c2] ++ pre) in Hv.
      rewrite app_assoc in Hv. exact Hv.
  - exfalso. eapply (split_never is_validate); [exact Hr| |exact Hs]. reflexivity.
Qed.

(** What the guard of the loop does with a falsy answer: if a balance
    check of [sendPayment] is answered with a falsy value, the whole call
    throws 'Insufficient balance', the failed check is the last call it
    makes, and nothing has been signed or submitted.  An answer that is a
    promise is an object, and no object is falsy. *)
Lemma sendPayment_unmet_balance_aborts
    (sdk : SDK) (srv : Services) (consts : Constants)
    (options : StellarModuleConfig) (payments : list TPayment)
    (secretKey : string) (feeBump : bool)
    (st : State) (out : outcome Sent) (st' : State)
    (pre : list Call) (account : string) (asset : Asset) (amount : JS.number)
    (post : list Call) (enough : value) :
  sendPayment sdk srv consts options payments secretKey feeBump st = (out, st') ->
  since st st' = pre ++ ValidateAssetBalance account asset amount :: post ->
  srv_validateAssetBalance srv (calls st ++ pre) account asset amount
    = Return enough ->
  truthy enough = false ->
  out = Throw (new_Error "Insufficient balance")
  /\ post = []
  /\ forallb before_signing (since st st') = true.
Proof.
  intros H Hs Hv Ht. unfold sendPayment in H.
  run H.
  all: try match goal with
       | Hl : for_of _ _ _ _ = _ |- _ =>
           apply sendPayment_loop_trace in Hl as (d & Hc & (Hsafe & Hu) & _)
       end; traces.
  all: try (validated Hs; fail).
  all: try match type of Hs with
       | _ :: _ :: ?l = _ => is_var l; rewrite <- (app_nil_r l) in Hs
       end.
  all: eapply unmet_in_loop in Hs; [ | reflexivity | reflexivity | reflexivity
                                    | split; [exact Hsafe | exact Hu] | exact Hv | exact Ht ].
  all: destruct Hs as [Hs ->]; try discriminate Hs.
  all: injection Hs as ->.
  all: repeat split; rewrite ?app_nil_r; exact Hsafe.
Qed.

(** C1.  The claim does not hold of the code.  [sendPayment] tests what
    [validateAssetBalance] hands back without awaiting it.  The check
    loads an account, so what it hands back is a promise, and the guard
    never fires.  Alice holds 100 XLM and 12.5 USD and sends Bob 5 XLM,
    then 100 USD: each check is asked about her account, the asset and the
    amount of its intent; the first settles to [true] and the second to
    [false].  The call throws nothing: it builds, signs and submits one
    transaction with both payments, and returns its hash. *)
Theorem sendPayment_pays_an_unmet_amount :
  hasSufficientBalance Fixture.load Double.alice Fixture.xlm_asset (JS.parseFloat "5")
  = Return true
  /\ hasSufficientBalance Fixture.load Double.alice Fixture.usd_asset
                          (JS.parseFloat "100")
     = Return false
  /\ sendPayment Double.sdk Fixture.horizon Double.consts Double.options
                 [Fixture.pay_5_xlm; Fixture.pay_100_usd] Double.alice_secret
                 false fresh
     = (Return (TransactionHash "c0ffee"),
        {| calls :=
             [ GetFees; LoadAccount (Some Double.alice);
               ValidateAssetBalance Double.alice Fixture.xlm_asset (JS.parseFloat "5");
               LoadAccount (Some Double.bob);
               ValidateAssetBalance Double.alice Fixture.usd_asset (JS.parseFloat "100");
               LoadAccount (Some Double.bob);
               SignTransaction Fixture.overdrawn_tx [Fixture.alice_pair];
               SubmitTransaction
                 (Double.add_signatures Fixture.overdrawn_tx [Fixture.alice_pair]) ];
           builder :=
             Some {| tb_source := Double.alice_account; tb_fee := "100";
                     tb_networkPassphrase := Networks TESTNET;
                     tb_operations :=
                       [ payment None (Some Double.bob) Fixture.xlm_asset "5";
                         payment None (Some Double.bob) Fixture.usd_asset "100" ];
                     tb_memo := None; tb_timeout := Some 30%Z |} |}).
Proof. repeat split; vm_compute; reflexivity. Qed.

(** When [sendPayment] succeeds, it has made one balance check for each
    payment intent. *)
Lemma sendPayment_checks_every_intent
    sdk srv consts options payments secretKey feeBump st sent st' :
  sendPayment sdk srv consts options payments secretKey feeBump st
    = (Return sent, st') ->
  List.length (filter is_validate (since st st')) = List.length payments.
Proof.
  intros H. unfold sendPayment in H.
  run H.
  all: match goal with
       | Hl : for_of _ _ _ _ = _ |- _ =>
           apply sendPayment_loop_trace in Hl as (d & Hc & _ & Hn)
       end; traces.
  all: cbn [filter is_validate]; rewrite ?filter_app; cbn [filter is_validate];
    rewrite ?app_nil_r; eauto.
Qed.

(* ================================================================== *)
(** ** PaymentService: swapPayment *)

(** Whatever [swapPayment] submits is a transaction of exactly two
    payment operations with reversed roles: the sender's account is the
    source of the transaction and pays the recipient; the recipient is the
    explicit source of the second payment, which goes to the sender.  And
    should the balance check answer with a falsy value, [swapPayment]
    returns [false], and the check is the last call it makes. *)
Lemma swapPayment_two_reversed_payments
    (sdk : SDK) (srv : Services) (consts : Constants)
    (options : StellarModuleConfig) (sender recipient : TSender)
    (memo : option MemoInput) (st : State) (out : outcome plain) (st' : State) :
  swapPayment sdk srv consts options sender recipient memo st = (out, st') ->
  (forall tx, In (SubmitTransaction tx) (since st st') ->
     swap_transaction sdk srv (calls st ++ [GetFees]) sender recipient tx)
  /\ (forall pre account asset amount post enough,
        since st st' = pre ++ ValidateAssetBalance account asset amount :: post ->
        srv_validateAssetBalance srv (calls st ++ pre) account asset amount
          = Return enough ->
        truthy enough = false ->
        out = Return (PBool false) /\ post = []).
Proof.
  intros H. unfold swapPayment in H.
  run H; traces; same_answers.
  all: split; [ intros tx Hin | intros pre account asset amount post enough Hs Hv Ht ].
  all: try (submitted Hin; unfold swap_transaction; eauto 12).
  all: try (validated Hs; same_answers; try (rewrite Ht in *; discriminate); auto).
Qed.

(** C3.  The first half of the claim holds and the second does not.
    [swapPayment] tests what [validateAssetBalance] hands back without
    awaiting it, and it asks about the sender's secret key where the check
    takes an account id.  The check loads an account, so what it hands back
    is a promise, and [false] is never returned.  Alice offers 100 USD, of
    which she holds 12.5, for 10 of Bob's XLM: the check fails for her
    account, and as it is asked, about her secret key, it finds no account
    at all; [swapPayment] builds the transaction of the two reversed
    payments, signs it for both, submits it and returns [true]. *)
Theorem swapPayment_swaps_an_unmet_amount :
  hasSufficientBalance Fixture.load Double.alice Fixture.usd_asset (JS.parseFloat "100")
  = Return false
  /\ hasSufficientBalance Fixture.load Double.alice_secret Fixture.usd_asset
                          (JS.parseFloat "100")
     = Throw (Double.http_error "{status: 404}")
  /\ swapPayment Double.sdk Fixture.horizon Double.consts Double.options
                 Fixture.overdrawn_sender Double.swap_recipient None fresh
     = (Return (PBool true),
        {| calls :=
             [ GetFees; LoadAccount (Some Double.alice);
               ValidateAssetBalance Double.alice_secret Fixture.usd_asset
                                    (JS.parseFloat "100");
               SubmitTransaction Fixture.overdrawn_swap_tx ];
           builder :=
             Some {| tb_source := Double.alice_account; tb_fee := "2000";
                     tb_networkPassphrase := Networks TESTNET;
                     tb_operations := tx_operations Fixture.overdrawn_swap_tx;
                     tb_memo := None; tb_timeout := Some 30%Z |} |})
  /\ tx_operations Fixture.overdrawn_swap_tx
     = [ payment None (Some Double.bob) Fixture.usd_asset "100";
         payment (Some Double.bob) (Some Double.alice) Fixture.xlm_asset "10" ].
Proof. repeat split; vm_compute; reflexivity. Qed.

(** Every way [swapPayment] can end. *)
Lemma swapPayment_outcomes sdk srv consts options sender recipient memo st out st' :
  swapPayment sdk srv consts options sender recipient memo st = (out, st') ->
  out = Return (PBool true) \/
  out = Return (PBool false) \/
  (exists e r, response e = Some r /\ out = Return (data r)) \/
  out = Throw (TypeError "Cannot read properties of undefined (reading 'data')").
Proof.
  intros H. unfold swapPayment in H.
  run H; auto; right; right; left; eauto.
Qed.

(** The handler of [swapPayment] reads [e.response.data]; the error
    [getPairFromSecret] throws for an invalid secret has no [response], so
    the handler itself throws. *)
Lemma swapPayment_invalid_sender_secret
    sdk srv consts options sender recipient memo st fees e :
  srv_getFees srv (calls st) = Return fees ->
  Keypair_fromSecret sdk (Some (s_secretKey sender)) = Throw e ->
  swapPayment sdk srv consts options sender recipient memo st
  = (Throw (TypeError "Cannot read properties of undefined (reading 'data')"),
     {| calls := calls st ++ [GetFees]; builder := builder st |}).
Proof.
  intros Hf Hk.
  unfold swapPayment, try_catch, bind, getFees, call, getAccountFromSecret,
    getPairFromSecret, try_catch, bind, lift, throw.
  rewrite Hf. cbn. rewrite Hk. reflexivity.
Qed.

(** C4.  The claim that no failure of [swapPayment] propagates does not
    hold of the code: called with a sender secret the SDK rejects, on a
    network that answers the fee request, [swapPayment] throws a TypeError
    out of its own catch handler, after the one call to [getFees]. *)
Theorem swapPayment_invalid_secret_propagates :
  swapPayment Double.sdk Double.good_day Double.consts Double.options
              Double.swap_sender_bad_secret Double.swap_recipient None fresh
  = (Throw (TypeError "Cannot read properties of undefined (reading 'data')"),
     {| calls := [GetFees]; builder := None |}).
Proof. vm_compute. reflexivity. Qed.

(* ================================================================== *)
(** ** AccountService: createAccount *)

(** [promise.catch((e) => e)] turns the rejection of a submission into the
    value it resolves to. *)
Lemma catch_value_submit_failure srv tx st e :
  srv_submitTransaction srv (calls st) tx = Throw e ->
  catch_value (submitTransaction srv tx) st
  = (Return (VError e),
     {| calls := calls st ++ [SubmitTransaction tx]; builder := builder st |}).
Proof.
  intros H. unfold catch_value, try_catch, bind, submitTransaction, call, ret.
  now rewrite H.
Qed.

(** C6.  Once [createAccount] has passed role validation and got as far as
    submitting its transaction, a rejection of the submission is not
    re-thrown: it is caught at the submission, where it becomes the value
    the awaited promise resolves to, and the freshly generated keypair is
    returned to the caller all the same. *)
Theorem createAccount_submission_failure_not_fatal
    (sdk : SDK) (srv : Services) (consts : Constants)
    (options : StellarModuleConfig) (secret trustline : option string)
    (st : State) (out : outcome Keypair) (st' : State)
    (pre : list Call) (tx : Transaction) (e : Error) :
  createAccount sdk srv consts options secret trustline st = (out, st') ->
  since st st' = pre ++ [SubmitTransaction tx] ->
  srv_submitTransaction srv (calls st ++ pre) tx = Throw e ->
  out = Return (Keypair_random sdk)
  /\ fst (catch_value (submitTransaction srv tx)
            {| calls := calls st ++ pre; builder := None |})
     = Return (VError e).
Proof.
  intros H Hs He. split.
  - unfold createAccount in H.
    run H; silent_loops; try reflexivity; traces.
    all: exfalso; eapply (split_never is_submit); [ | | exact Hs]; reflexivity.
  - now rewrite (catch_value_submit_failure
                   srv tx {| calls := calls st ++ pre; builder := None |} e He).
Qed.

Lemma createAccount_submission_failure_not_fatal_witness :
  srv_submitTransaction Double.bad_day
    [GetFees; LoadAccount (Some Double.master);
     SignTransaction Double.create_tx [Keypair_random Double.sdk]]
    (Double.add_signatures Double.create_tx [Keypair_random Double.sdk])
  = Throw (Double.http_error "{status: 400}")
  /\ fst (createAccount Double.sdk Double.bad_day Double.consts Double.options
                        None None fresh)
     = Return (Keypair_random Double.sdk).
Proof.
  split; [reflexivity|].
  refine (proj1 (createAccount_submission_failure_not_fatal
                   Double.sdk Double.bad_day Double.consts Double.options
                   None None fresh _ _
                   [GetFees; LoadAccount (Some Double.master);
                    SignTransaction Double.create_tx [Keypair_random Double.sdk]]
                   (Double.add_signatures Double.create_tx [Keypair_random Double.sdk])
                   (Double.http_error "{status: 400}")
                   (surjective_pairing _) _ _)).
  - vm_compute. reflexivity.
  - reflexivity.
Defined.

(* ================================================================== *)
(** ** AccountService: deleteAccount *)

(** C7.  Without a configured [create_by] role, [deleteAccount] throws at
    once: the state it leaves is the state it was called in, so it has
    loaded no account and no fee and has submitted nothing. *)
Theorem deleteAccount_without_role_fails_first
    (sdk : SDK) (srv : Services) (consts : Constants)
    (options : StellarModuleConfig) (secret : string) (st : State) :
  no_create_by options ->
  deleteAccount sdk srv consts options secret st
  = (Throw (new_Error "Se debe mandar a alguna cuenta"), st)
  /\ since st (snd (deleteAccount sdk srv consts options secret st)) = [].
Proof.
  intros H.
  assert (deleteAccount sdk srv consts options secret st
          = (Throw (new_Error "Se debe mandar a alguna cuenta"), st)) as E.
  { unfold deleteAccount, accountOptions, no_create_by in *.
    destruct (account_config options) as [c|]; [|reflexivity].
    cbn. destruct H as [-> | ->]; reflexivity. }
  split; [exact E|]. rewrite E. apply since_refl.
Qed.

Lemma deleteAccount_without_role_fails_first_witness :
  no_create_by Double.options_no_role
  /\ deleteAccount Double.sdk Double.good_day Double.consts Double.options_no_role
                   Double.alice_secret fresh
     = (Throw (new_Error "Se debe mandar a alguna cuenta"), fresh)
  /\ since fresh (snd (deleteAccount Double.sdk Double.good_day Double.consts
                                     Double.options_no_role Double.alice_secret fresh))
     = [].
Proof.
  split.
  - simpl. left. reflexivity.
  - apply (deleteAccount_without_role_fails_first Double.sdk Double.good_day
             Double.consts Double.options_no_role Double.alice_secret fresh).
    simpl. left. reflexivity.
Defined.

Lemma silent_deleteAccount_line sdk destination line :
  silent (deleteAccount_line sdk destination line).
Proof.
  unfold deleteAccount_line.
  destruct (negb (asset_type line =? "native")); [|auto with silent].
  apply silent_bind; [|intro; auto with silent].
  destruct (negb (JS.is_zero (JS.parseFloat (balance line)))); auto with silent.
Qed.

(** The loop over the balances appends, for each non-native line in order,
    the operations that drain it. *)
Lemma deleteAccount_lines sdk destination lines st st' tb :
  forEach (deleteAccount_line sdk destination) lines st = (Return tt, st') ->
  builder st = Some tb ->
  exists groups tb',
    Forall2 (drain_line sdk destination) (filter not_native lines) groups /\
    builder st' = Some tb' /\
    tb_source tb' = tb_source tb /\
    tb_fee tb' = tb_fee tb /\
    tb_operations tb' = tb_operations tb ++ List.concat groups.
Proof.
  revert st tb. induction lines as [|line lines IH]; intros st tb H Hb.
  - simpl in H. apply ret_inv in H as [_ ->].
    exists [], tb. simpl. rewrite app_nil_r. auto.
  - simpl in H. apply bind_inv in H.
    destruct H as [([] & st1 & Hl & H) | (e & _ & E)]; [|discriminate E].
    unfold deleteAccount_line in Hl. simpl filter.
    fold (not_native line) in Hl. destruct (not_native line) eqn:Hn.
    + destruct (JS.is_zero (JS.parseFloat (balance line))) eqn:Hz; cbn [negb] in Hl;
        run Hl; same_answers;
        destruct (IH _ _ H eq_refl) as (groups & tb' & HF & Hb' & Hs' & Hf' & Ho');
        project;
        match goal with
        | Ha : Asset_new sdk _ _ = Return ?a |- _ =>
            exists (((if JS.is_zero (JS.parseFloat (balance line)) then []
                      else [payment None destination a (balance line)])
                     ++ [changeTrust None a (Some "0")]) :: groups), tb';
            (split; [constructor; [exists a; split; [exact Ha|reflexivity]|exact HF]|])
        end;
        (repeat split; try assumption);
        rewrite Ho', Hz; simpl List.concat; rewrite <- ?app_assoc; reflexivity.
    + run Hl. exact (IH _ _ H Hb).
Qed.

Lemma drain_line_no_merge sdk destination lines groups :
  Forall2 (drain_line sdk destination) lines groups ->
  filter is_merge (List.concat groups) = [].
Proof.
  induction 1 as [|line ops lines groups (a & _ & ->) _ IH]; [reflexivity|].
  simpl List.concat. rewrite filter_app, IH, app_nil_r, filter_app.
  now destruct (JS.is_zero (JS.parseFloat (balance line))).
Qed.

(** On a line whose balance is printed as a ledger amount, the payment is
    there exactly when some digit of the balance is not 0. *)
Lemma drain_line_ledger_amount sdk destination line ops ip fp :
  balance line = (ip ++ "." ++ fp)%string ->
  all_digits ip = true -> ip <> "" -> all_digits fp = true ->
  (String.length fp <= 240)%nat ->
  drain_line sdk destination line ops ->
  exists a,
    Asset_new sdk (asset_code line) (asset_issuer line) = Return a /\
    ops = (if (all_zeros ip && all_zeros fp)%bool then []
           else [payment None destination a (balance line)])
          ++ [changeTrust None a (Some "0")].
Proof.
  intros Hb Hi Hne Hf Hlen (a & Ha & ->). exists a. split; [assumption|].
  now rewrite Hb at 1; rewrite parseFloat_ledger_amount_zero.
Qed.

(** C8.  The transaction [deleteAccount] submits is built on the snapshot
    of the account being closed.  For each non-native balance line of the
    snapshot, in order, it carries a payment of the whole balance to the
    account of the configured [create_by] role exactly when the balance
    parses to a number other than zero, followed in every case by a
    change-trust with limit 0 for the asset of the line; its last operation
    is the account merge to the same destination, and it has no other
    merge.  It is the one transaction the method submits. *)
Theorem deleteAccount_drains_then_merges
    (sdk : SDK) (srv : Services) (consts : Constants)
    (options : StellarModuleConfig) (secret : string)
    (st : State) (out : outcome unit) (st' : State) (tx : Transaction) :
  deleteAccount sdk srv consts options secret st = (out, st') ->
  In (SubmitTransaction tx) (since st st') ->
  exists keypair account groups,
    Keypair_fromSecret sdk (Some secret) = Return keypair /\
    srv_loadAccount srv (calls st) (Some (kp_publicKey keypair)) = Return account /\
    tx_source tx = account /\
    Forall2 (drain_line sdk (destination_role options))
            (filter not_native (balances account)) groups /\
    tx_operations tx = List.concat groups ++ [accountMerge (destination_role options)] /\
    filter is_merge (tx_operations tx) = [accountMerge (destination_role options)] /\
    since st st' = [LoadAccount (Some (kp_publicKey keypair)); GetFees;
                    SubmitTransaction tx].
Proof.
  intros H Hin. unfold deleteAccount in H.
  run H.
  all: try match goal with
       | Hl : forEach _ _ _ = _ |- _ =>
           pose proof (silent_forEach _ _ (silent_deleteAccount_line _ _) _ _ _ Hl) as Hcalls
       end; project; traces.
  all: submitted Hin.
  all: apply negb_false_iff in Heqb; unfold accountOptions in Heqb;
    rewrite (destination_role_found _ Heqb) in *.
  all: match goal with
       | Hl : forEach _ _ _ = _ |- _ =>
           destruct (deleteAccount_lines _ _ _ _ _ _ Hl eq_refl)
             as (groups & tb' & HF & Hb' & Hs' & Hf' & Ho')
       end; project; same_answers.
  all: rewrite ?Hs', ?Ho' in *; cbn [app].
  all: eexists _, _, groups; repeat split; try eassumption; project.
  all: rewrite filter_app, (drain_line_no_merge _ _ _ _ HF); reflexivity.
Qed.

Lemma deleteAccount_drains_then_merges_witness :
  In (SubmitTransaction Double.delete_tx)
     (since fresh (snd (deleteAccount Double.sdk Double.bad_day Double.consts
                                      Double.options Double.alice_secret fresh)))
  /\ exists keypair account groups,
       Keypair_fromSecret Double.sdk (Some Double.alice_secret) = Return keypair /\
       srv_loadAccount Double.bad_day (calls fresh) (Some (kp_publicKey keypair))
         = Return account /\
       tx_source Double.delete_tx = account /\
       Forall2 (drain_line Double.sdk (destination_role Double.options))
               (filter not_native (balances account)) groups /\
       tx_operations Double.delete_tx
         = List.concat groups ++ [accountMerge (destination_role Double.options)] /\
       filter is_merge (tx_operations Double.delete_tx)
         = [accountMerge (destination_role Double.options)] /\
       since fresh (snd (deleteAccount Double.sdk Double.bad_day Double.consts
                                       Double.options Double.alice_secret fresh))
         = [LoadAccount (Some (kp_publicKey keypair)); GetFees;
            SubmitTransaction Double.delete_tx].
Proof.
  assert (In (SubmitTransaction Double.delete_tx)
             (since fresh (snd (deleteAccount Double.sdk Double.bad_day Double.consts
                                              Double.options Double.alice_secret fresh))))
    as Hin by (vm_compute; right; right; left; reflexivity).
  split; [exact Hin|].
  exact (deleteAccount_drains_then_merges
           Double.sdk Double.bad_day Double.consts Double.options
           Double.alice_secret fresh _ _ Double.delete_tx
           (surjective_pairing _) Hin).
Defined.

(** The operations of the example, line by line. *)
Example deleteAccount_example_operations :
  tx_operations Double.delete_tx
  = [ payment None (Some Double.master)
              {| code := "USD"; issuer := Some Double.usd_issuer |} "12.5000000";
      changeTrust None {| code := "USD"; issuer := Some Double.usd_issuer |} (Some "0");
      changeTrust None {| code := "EUR"; issuer := Some Double.usd_issuer |} (Some "0");
      accountMerge (Some Double.master) ].
Proof. reflexivity. Qed.

(* ================================================================== *)
(** ** AccountService: validateTrustLine *)



(* ================================================================== *)
(** ** AccountUtilsService: getBalances *)

(** [getBalances] loads the account once and answers from its balances. *)
Lemma getBalances_inv sdk srv accountId assetCode st out st' :
  getBalances sdk srv accountId assetCode st = (out, st') ->
  st' = {| calls := calls st ++ [LoadAccount accountId]; builder := builder st |} /\
  ((exists e, srv_loadAccount srv (calls st) accountId = Throw e /\ out = Throw e) \/
   (exists a, srv_loadAccount srv (calls st) accountId = Return a /\
      out = Return (if negb (truthy_opt assetCode) then AllBalances (balances a)
                    else OneBalance (List.find (line_matches (or_default assetCode ""))
                                               (balances a))))).
Proof.
  intros H. unfold getBalances in H. run H; split; try reflexivity; eauto.
Qed.

(** X1.  Asked for an asset code, [getBalances] loads the account once and
    returns the first balance line that matches the code: the native line
    for 'XLM', the first line with that asset code otherwise, whoever the
    issuer; it returns [undefined] exactly when no line matches.  A failure
    of the load is thrown on. *)
Theorem getBalances_finds_first_line_of_code
    (sdk : SDK) (srv : Services) (accountId : option string) (assetCode : string)
    (st : State) (out : outcome Balances) (st' : State) :
  truthy_string assetCode = true ->
  getBalances sdk srv accountId (Some assetCode) st = (out, st') ->
  since st st' = [LoadAccount accountId] /\
  match srv_loadAccount srv (calls st) accountId with
  | Throw e => out = Throw e
  | Return a =>
      exists found,
        out = Return (OneBalance found) /\
        match found with
        | Some b =>
            exists before after,
              balances a = before ++ b :: after /\
              line_matches assetCode b = true /\
              forallb (fun x => negb (line_matches assetCode x)) before = true
        | None => forallb (fun x => negb (line_matches assetCode x)) (balances a) = true
        end
  end.
Proof.
  intros Hc H. apply getBalances_inv in H as [-> H]. split; [apply since_extends|].
  cbn [truthy_opt or_default] in H. rewrite Hc in H. cbn [negb] in H.
  destruct H as [(e & -> & ->) | (a & -> & ->)]; [reflexivity|].
  eexists. split; [reflexivity|].
  induction (balances a) as [|x l IH]; [reflexivity|].
  cbn [List.find]. destruct (line_matches assetCode x) eqn:Ex.
  - exists [], l. auto.
  - destruct (List.find (line_matches assetCode) l) as [b|].
    + destruct IH as (before & after & -> & Hb & Hn). exists (x :: before), after.
      repeat split; auto. cbn. now rewrite Ex.
    + cbn. now rewrite Ex.
Qed.

Lemma getBalances_finds_first_line_of_code_witness :
  fst (getBalances Double.sdk Double.good_day (Some Double.alice) (Some "EUR") fresh)
  = Return (OneBalance (Some (Double.eur_line "0.0000000")))
  /\ since fresh (snd (getBalances Double.sdk Double.good_day (Some Double.alice)
                                   (Some "EUR") fresh))
     = [LoadAccount (Some Double.alice)].
Proof.
  split; [reflexivity|].
  refine (proj1 (getBalances_finds_first_line_of_code
                   Double.sdk Double.good_day (Some Double.alice) "EUR" fresh _ _
                   _ (surjective_pairing _))).
  reflexivity.
Defined.

(* ================================================================== *)
(** ** PaymentService: what sendPayment builds *)

(** One pass of the loop, when it gets through. *)
Lemma sendPayment_body_group sdk srv sourcePair signers p st signers' st' tb :
  sendPayment_body sdk srv sourcePair signers p st = (Return signers', st') ->
  builder st = Some tb ->
  exists group tb',
    intent_group sdk srv p group /\
    signers' = signers ++ snd group /\
    builder st' = Some tb' /\
    tb_source tb' = tb_source tb /\ tb_fee tb' = tb_fee tb /\
    tb_networkPassphrase tb' = tb_networkPassphrase tb /\
    tb_memo tb' = tb_memo tb /\
    tb_operations tb' = tb_operations tb ++ fst group.
Proof.
  intros H Hb. unfold sendPayment_body in H. run H; same_answers.
  all: cbn [truthy_opt or_default] in *; unfold JS.find in *.
  all: try match goal with
       | Hx : negb (truthy_balances (AllBalances _)) && _ && _ = true |- _ =>
           discriminate Hx
       end.
  all: match goal with
       | Ha : srv_loadAccount _ ?h ?dest = Return ?a,
         HA : getAsset _ _ = Return ?A |- _ =>
           eexists (_, _), _; split;
           [ exists A, dest, h, a; split; [exact HA|]; split;
             [ unfold recipient_key;
               repeat match goal with
                      | Hr : ?x = _ |- context [?x] => rewrite Hr
                      end; reflexivity |];
             split; [exact Ha|];
             unfold opens_trustline, line_matches;
             repeat match goal with
                    | Hr : ?x = _ |- context [?x] => rewrite Hr
                    end;
             cbn [fst snd andb negb]; split; [reflexivity|]; eauto |]
       end.
  all: cbn [fst snd app]; rewrite ?app_nil_r, <- ?app_assoc; cbn [app].
  all: split; [reflexivity|]; split; [reflexivity|]; cbn; auto 7.
Qed.

(** The loop, when it gets through: one group for each intent, in order. *)
Lemma sendPayment_loop_groups sdk srv sourcePair payments signers st signers' st' tb :
  for_of (sendPayment_body sdk srv sourcePair) payments signers st
    = (Return signers', st') ->
  builder st = Some tb ->
  exists groups tb',
    Forall2 (intent_group sdk srv) payments groups /\
    signers' = signers ++ List.concat (map snd groups) /\
    builder st' = Some tb' /\
    tb_source tb' = tb_source tb /\ tb_fee tb' = tb_fee tb /\
    tb_networkPassphrase tb' = tb_networkPassphrase tb /\
    tb_memo tb' = tb_memo tb /\
    tb_operations tb' = tb_operations tb ++ List.concat (map fst groups).
Proof.
  revert signers st tb. induction payments as [|p payments IH]; intros signers st tb H Hb.
  - simpl in H. apply ret_inv in H as [H ->]. injection H as ->.
    exists [], tb. cbn. rewrite !app_nil_r. auto 10.
  - simpl in H. apply bind_inv in H.
    destruct H as [(s1 & st1 & H1 & H) | (e & _ & E)]; [|discriminate E].
    destruct (sendPayment_body_group _ _ _ _ _ _ _ _ _ H1 Hb)
      as (g & tb1 & Hg & -> & Hb1 & Es & Ef & Ep & Em & Eo).
    destruct (IH _ _ _ H Hb1)
      as (gs & tb' & HF & -> & Hb' & Es' & Ef' & Ep' & Em' & Eo').
    exists (g :: gs), tb'. cbn [map List.concat].
    split; [constructor; assumption|].
    rewrite <- !app_assoc, Eo', Eo, <- !app_assoc.
    repeat split; congruence.
Qed.


(** A run of [sendPayment] that returns. *)
Lemma sendPayment_returns sdk srv consts options payments secretKey feeBump st sent st' :
  sendPayment sdk srv consts options payments secretKey feeBump st = (Return sent, st') ->
  exists fees sourcePair sourceAccount groups d memo first signed,
    srv_getFees srv (calls st) = Return fees /\
    Keypair_fromSecret sdk (Some secretKey) = Return sourcePair /\
    srv_loadAccount srv (calls st ++ [GetFees]) (Some (kp_publicKey sourcePair))
      = Return sourceAccount /\
    Forall2 (intent_group sdk srv) payments groups /\
    forallb before_signing d = true /\
    JS.index payments 0 = Some first /\
    attached_memo srv (p_memo first) memo /\
    let unsigned :=
      {| tx_source := sourceAccount; tx_fee := or_default (base fees) BASE_FEE;
         tx_networkPassphrase := networkPassphrase options;
         tx_operations := List.concat (map fst groups);
         tx_memo := memo; tx_timeout := 30; tx_signatures := [] |} in
    let signers := sourcePair :: List.concat (map snd groups) in
    let pre := GetFees :: LoadAccount (Some (kp_publicKey sourcePair)) :: d in
    srv_signTransaction srv (calls st ++ pre) unsigned signers = Return signed /\
    if feeBump
    then sent = SignedEnvelope signed /\
         calls st' = calls st ++ pre ++ [SignTransaction unsigned signers]
    else sent = TransactionHash (Transaction_hash sdk unsigned) /\
         calls st' = calls st ++ pre
                     ++ [SignTransaction unsigned signers; SubmitTransaction signed] /\
         exists r, srv_submitTransaction srv
                     (calls st ++ pre ++ [SignTransaction unsigned signers]) signed
                   = Return r.
Proof.
  intros H. unfold sendPayment in H. run H.
  all: match goal with
       | Hl : for_of _ _ _ _ = _ |- _ =>
           pose proof (sendPayment_loop_trace _ _ _ _ _ _ _ _ Hl) as (d & Hc & (Hsafe & _) & _);
           destruct (sendPayment_loop_groups _ _ _ _ _ _ _ _ _ Hl eq_refl)
             as (groups & tb' & HF & -> & Hb' & Es & Ef & Ep & Em & Eo)
       end; project; same_answers.
  all: rewrite ?Es, ?Ef, ?Ep, ?Em, ?Eo in *; cbn [app] in *; traces.
  all: rewrite <- ?app_assoc; cbn [app].
  all: match goal with
       | Hf : srv_getFees _ _ = Return ?f, Hk : Keypair_fromSecret _ _ = Return ?k,
         Ha : srv_loadAccount _ _ _ = Return ?a |- _ =>
           exists f, k, a, groups, d; eexists _, _, _
       end.
  all: repeat (split; [first [eassumption | reflexivity]|]).
  all: match goal with
       | Hs : srv_signTransaction _ _ _ _ = Return _ |- _ /\ _ =>
           split; [| split; [exact Hs|]]
       end.
  all: try (unfold attached_memo;
            repeat match goal with
                   | Hr : ?x = _ |- context [?x] => rewrite Hr
                   end; eauto; fail).
  all: repeat split; eauto.
Qed.


Lemma before_signing_no_submit d :
  forallb before_signing d = true ->
  forallb (fun c => negb (is_submit c)) d = true.
Proof.
  intros H. rewrite forallb_forall in *. intros c Hc. apply H in Hc.
  unfold before_signing in Hc. now destruct (is_sign c), (is_submit c).
Qed.

Lemma before_signing_no_sign d :
  forallb before_signing d = true -> filter is_sign d = [].
Proof.
  induction d as [|c d IH]; [reflexivity|]. cbn [forallb filter]. intros H.
  apply andb_true_iff in H as [Hc H]. unfold before_signing in Hc.
  destruct (is_sign c); [discriminate Hc|]. auto.
Qed.

Lemma before_signing_In_submit d tx :
  forallb before_signing d = true -> In (SubmitTransaction tx) d -> False.
Proof.
  intros H Hin. rewrite forallb_forall in H. apply H in Hin. discriminate Hin.
Qed.

Lemma before_signing_In_sign d tx signers :
  forallb before_signing d = true -> In (SignTransaction tx signers) d -> False.
Proof.
  intros H Hin. rewrite forallb_forall in H. apply H in Hin. discriminate Hin.
Qed.

(** Looks for the submission [Hin] speaks of in a trace whose middle part
    is the trace of a loop that signs and submits nothing. *)
Ltac no_submission Hin :=
  repeat match type of Hin with
  | In _ (_ :: _) => destruct Hin as [Hin|Hin]; [try discriminate Hin|]
  | In _ (_ ++ _) => apply in_app_or in Hin; destruct Hin as [Hin|Hin]
  | In _ [] => destruct Hin
  | In _ ?d => is_var d; exfalso; eapply before_signing_In_submit; eassumption
  end.

(** X2.  [sendPayment] submits at most one transaction, and only as its
    last call: the envelope the signing service has just answered with.
    Called with [feeBump] it submits nothing and never returns a hash.
    Called without, a submission Horizon accepts gives the hash of the
    transaction as it was built, and a submission Horizon rejects is thrown
    on to the caller. *)
Theorem sendPayment_submits_last_or_never
    (sdk : SDK) (srv : Services) (consts : Constants)
    (options : StellarModuleConfig) (payments : list TPayment)
    (secretKey : string) (feeBump : bool)
    (st : State) (out : outcome Sent) (st' : State) :
  sendPayment sdk srv consts options payments secretKey feeBump st = (out, st') ->
  (feeBump = true ->
     forallb (fun c => negb (is_submit c)) (since st st') = true /\
     forall hash, out <> Return (TransactionHash hash)) /\
  (forall tx, In (SubmitTransaction tx) (since st st') ->
     feeBump = false /\
     exists pre unsigned signers,
       since st st' = pre ++ [SignTransaction unsigned signers; SubmitTransaction tx] /\
       forallb before_signing pre = true /\
       srv_signTransaction srv (calls st ++ pre) unsigned signers = Return tx /\
       out = match srv_submitTransaction srv
                     (calls st ++ pre ++ [SignTransaction unsigned signers]) tx with
             | Return _ => Return (TransactionHash (Transaction_hash sdk unsigned))
             | Throw e => Throw e
             end).
Proof.
  intros H. unfold sendPayment in H. run H.
  all: try match goal with
       | Hl : for_of _ _ _ _ = _ |- _ =>
           apply sendPayment_loop_trace in Hl as (d & Hc & (Hsafe & _) & _)
       end; traces.
  all: split; [intros Hfb; first [discriminate Hfb
                                  | split; [|intros hash; discriminate]]
              | intros tx Hin].
  all: try (cbn [forallb is_submit negb andb];
            rewrite ?forallb_app, ?(before_signing_no_submit _ Hsafe); reflexivity).
  all: no_submission Hin.
  all: injection Hin as <-; split; [reflexivity|].
  all: eexists (GetFees :: LoadAccount _ :: d), _, _.
  all: split; [reflexivity|]; split; [exact Hsafe|]; split; [eassumption|].
  all: cbn [app];
    match goal with
    | Hs : srv_submitTransaction _ _ _ = _ |- _ => rewrite Hs; reflexivity
    end.
Qed.

Lemma sendPayment_submits_last_or_never_witness :
  forallb (fun c => negb (is_submit c))
          (since fresh (snd (sendPayment Double.sdk Double.good_day Double.consts
                               Double.options
                               [Fixture.pay_usd_opening; Fixture.pay_xlm_second]
                               Double.alice_secret true fresh))) = true
  /\ forall hash,
       fst (sendPayment Double.sdk Double.good_day Double.consts Double.options
              [Fixture.pay_usd_opening; Fixture.pay_xlm_second]
              Double.alice_secret true fresh)
       <> Return (TransactionHash hash).
Proof.
  refine (proj1 (sendPayment_submits_last_or_never
                   Double.sdk Double.good_day Double.consts Double.options
                   [Fixture.pay_usd_opening; Fixture.pay_xlm_second]
                   Double.alice_secret true fresh _ _ (surjective_pairing _))
                eq_refl).
Defined.


Lemma intent_groups_payments sdk srv payments groups :
  Forall2 (intent_group sdk srv) payments groups ->
  List.length (filter is_payment (List.concat (map fst groups))) = List.length payments.
Proof.
  induction 1 as [|p g payments groups (A & dest & h & r & _ & _ & _ & E & _) _ IH];
    [reflexivity|].
  cbn [map List.concat]. rewrite E, !filter_app, !length_app, IH.
  now destruct (opens_trustline p A r).
Qed.

(** X3.  A call of [sendPayment] that returns has asked for one signature,
    of a transaction whose operations are the groups of the payment
    intents, in the order of the intents: for each intent one payment to
    its recipient, preceded by a change-trust sourced from the recipient
    exactly when the recipient's secret was given, the asset is not 'XLM'
    and the recipient's account holds no line of the asset code.  The
    signers it names are the sender's keypair, then those of the recipients
    a trustline is opened for. *)
Theorem sendPayment_one_group_per_intent
    (sdk : SDK) (srv : Services) (consts : Constants)
    (options : StellarModuleConfig) (payments : list TPayment)
    (secretKey : string) (feeBump : bool)
    (st : State) (sent : Sent) (st' : State) :
  sendPayment sdk srv consts options payments secretKey feeBump st
    = (Return sent, st') ->
  exists sourcePair groups unsigned,
    Keypair_fromSecret sdk (Some secretKey) = Return sourcePair /\
    Forall2 (intent_group sdk srv) payments groups /\
    filter is_sign (since st st')
    = [SignTransaction unsigned (sourcePair :: List.concat (map snd groups))] /\
    tx_operations unsigned = List.concat (map fst groups) /\
    List.length (filter is_payment (tx_operations unsigned)) = List.length payments.
Proof.
  intros H.
  destruct (sendPayment_returns _ _ _ _ _ _ _ _ _ _ H)
    as (fees & sourcePair & sourceAccount & groups & d & memo & first & signed
        & _ & Hk & _ & HF & Hsafe & _ & _ & _ & Hend).
  exists sourcePair, groups,
    {| tx_source := sourceAccount; tx_fee := or_default (base fees) BASE_FEE;
       tx_networkPassphrase := networkPassphrase options;
       tx_operations := List.concat (map fst groups);
       tx_memo := memo; tx_timeout := 30; tx_signatures := [] |}.
  split; [exact Hk|]. split; [exact HF|].
  split; [|split; [reflexivity|apply (intent_groups_payments _ _ _ _ HF)]].
  unfold since.
  destruct feeBump; [destruct Hend as (_ & ->) | destruct Hend as (_ & -> & _)].
  all: rewrite skipn_exact; cbn [app filter is_sign];
    rewrite filter_app, (before_signing_no_sign _ Hsafe); reflexivity.
Qed.

Lemma sendPayment_one_group_per_intent_witness :
  exists sourcePair groups unsigned,
    Keypair_fromSecret Double.sdk (Some Double.alice_secret) = Return sourcePair /\
    Forall2 (intent_group Double.sdk Double.good_day)
            [Fixture.pay_usd_opening; Fixture.pay_xlm_second] groups /\
    filter is_sign
      (since fresh (snd (sendPayment Double.sdk Double.good_day Double.consts
                           Double.options
                           [Fixture.pay_usd_opening; Fixture.pay_xlm_second]
                           Double.alice_secret false fresh)))
    = [SignTransaction unsigned (sourcePair :: List.concat (map snd groups))] /\
    tx_operations unsigned = List.concat (map fst groups) /\
    List.length (filter is_payment (tx_operations unsigned)) = 2%nat.
Proof.
  refine (sendPayment_one_group_per_intent
            Double.sdk Double.good_day Double.consts Double.options
            [Fixture.pay_usd_opening; Fixture.pay_xlm_second]
            Double.alice_secret false fresh (TransactionHash "c0ffee") _ _).
  vm_compute. reflexivity.
Defined.

(** X4.  The transaction a returning [sendPayment] has signed is built on
    the account of the sender's secret as loaded after the fee request,
    with the base fee Horizon reports, or the SDK's [BASE_FEE] when it
    reports none, the passphrase of the configured network and a timeout of
    30.  Its memo is that of the first intent alone, passed through
    [validateMemo] when it is truthy; the memos of the other intents are not
    read. *)
Theorem sendPayment_envelope_from_first_intent
    (sdk : SDK) (srv : Services) (consts : Constants)
    (options : StellarModuleConfig) (payments : list TPayment)
    (secretKey : string) (feeBump : bool)
    (st : State) (sent : Sent) (st' : State)
    (unsigned : Transaction) (signers : list Keypair) :
  sendPayment sdk srv consts options payments secretKey feeBump st
    = (Return sent, st') ->
  In (SignTransaction unsigned signers) (since st st') ->
  exists fees sourcePair first,
    srv_getFees srv (calls st) = Return fees /\
    Keypair_fromSecret sdk (Some secretKey) = Return sourcePair /\
    srv_loadAccount srv (calls st ++ [GetFees]) (Some (kp_publicKey sourcePair))
      = Return (tx_source unsigned) /\
    tx_fee unsigned = or_default (base fees) BASE_FEE /\
    tx_networkPassphrase unsigned = networkPassphrase options /\
    tx_timeout unsigned = 30%Z /\
    tx_signatures unsigned = [] /\
    JS.index payments 0 = Some first /\
    attached_memo srv (p_memo first) (tx_memo unsigned).
Proof.
  intros H Hin.
  destruct (sendPayment_returns _ _ _ _ _ _ _ _ _ _ H)
    as (fees & sourcePair & sourceAccount & groups & d & memo & first & signed
        & Hf & Hk & Ha & _ & Hsafe & Hi & Hm & _ & Hend).
  exists fees, sourcePair, first.
  assert (unsigned
          = {| tx_source := sourceAccount; tx_fee := or_default (base fees) BASE_FEE;
               tx_networkPassphrase := networkPassphrase options;
               tx_operations := List.concat (map fst groups);
               tx_memo := memo; tx_timeout := 30; tx_signatures := [] |}) as ->.
  { destruct feeBump; [destruct Hend as (_ & Hs) | destruct Hend as (_ & Hs & _)].
    all: unfold since in Hin; rewrite Hs, skipn_exact in Hin; clear Hs.
    all: repeat match type of Hin with
         | In _ (_ :: _) => destruct Hin as [Hin|Hin]; [try discriminate Hin|]
         | In _ (_ ++ _) => apply in_app_or in Hin; destruct Hin as [Hin|Hin]
         | In _ [] => destruct Hin
         | In _ ?l => is_var l; exfalso; eapply before_signing_In_sign; eassumption
         end.
    all: now injection Hin as <- _. }
  repeat split; assumption.
Qed.

Lemma sendPayment_envelope_from_first_intent_witness :
  exists fees sourcePair first,
    srv_getFees Double.good_day (calls fresh) = Return fees /\
    Keypair_fromSecret Double.sdk (Some Double.alice_secret) = Return sourcePair /\
    srv_loadAccount Double.good_day (calls fresh ++ [GetFees])
                    (Some (kp_publicKey sourcePair))
    = Return (tx_source Fixture.payment_tx) /\
    tx_fee Fixture.payment_tx = or_default (base fees) BASE_FEE /\
    tx_networkPassphrase Fixture.payment_tx = networkPassphrase Double.options /\
    tx_timeout Fixture.payment_tx = 30%Z /\
    tx_signatures Fixture.payment_tx = [] /\
    JS.index [Fixture.pay_usd_opening; Fixture.pay_xlm_second] 0 = Some first /\
    attached_memo Double.good_day (p_memo first) (tx_memo Fixture.payment_tx).
Proof.
  refine (sendPayment_envelope_from_first_intent
            Double.sdk Double.good_day Double.consts Double.options
            [Fixture.pay_usd_opening; Fixture.pay_xlm_second]
            Double.alice_secret false fresh (TransactionHash "c0ffee") _
            Fixture.payment_tx [Fixture.alice_pair; Fixture.bob_pair] _ _).
  - vm_compute. reflexivity.
  - vm_compute. do 6 right. left. reflexivity.
Defined.

(* ================================================================== *)
(** ** PaymentService: more of swapPayment *)

(** X5.  [swapPayment] checks one balance at most, the sender's: the check
    is made for the sender's asset and amount, and the account it names is
    the string passed as the sender's secret key.  The recipient's balance
    is never checked. *)
Theorem swapPayment_checks_sender_only
    (sdk : SDK) (srv : Services) (consts : Constants)
    (options : StellarModuleConfig) (sender recipient : TSender)
    (memo : option MemoInput) (st : State) (out : outcome plain) (st' : State) :
  swapPayment sdk srv consts options sender recipient memo st = (out, st') ->
  (List.length (filter is_validate (since st st')) <= 1)%nat /\
  forall c, In c (since st st') -> is_validate c = true ->
    exists senderAsset,
      getAsset sdk (s_asset sender) = Return senderAsset /\
      c = ValidateAssetBalance (s_secretKey sender) senderAsset (s_amount sender).
Proof.
  intros H. unfold swapPayment in H.
  run H; traces; same_answers.
  all: split; [cbn; lia | intros c Hin Hv].
  all: simpl in Hin; repeat (destruct Hin as [Hin | Hin]); try contradiction;
    subst c; try discriminate Hv; eauto.
Qed.

Lemma swapPayment_checks_sender_only_witness :
  exists senderAsset,
    getAsset Double.sdk (s_asset Double.swap_sender) = Return senderAsset /\
    ValidateAssetBalance Double.alice_secret Fixture.usd_asset (JS.parseFloat "5")
    = ValidateAssetBalance (s_secretKey Double.swap_sender) senderAsset
                           (s_amount Double.swap_sender).
Proof.
  refine (proj2 (swapPayment_checks_sender_only
                   Double.sdk Double.good_day Double.consts Double.options
                   Double.swap_sender Double.swap_recipient None fresh _ _
                   (surjective_pairing _))
                (ValidateAssetBalance Double.alice_secret Fixture.usd_asset
                                      (JS.parseFloat "5")) _ eq_refl).
  vm_compute. do 2 right. left. reflexivity.
Defined.

(** X6.  The transaction [swapPayment] submits carries the maximum fee
    Horizon reports, or the SDK's [BASE_FEE] when it reports none, a
    timeout of 30 and the memo of the caller when it is truthy.  The
    submission is the last call.  When Horizon accepts it the answer is
    [true]; when Horizon rejects it with an error that carries a response,
    the answer is the body of that response, returned and not thrown; a
    rejection without a response makes the handler itself throw. *)
Theorem swapPayment_answers_after_submission
    (sdk : SDK) (srv : Services) (consts : Constants)
    (options : StellarModuleConfig) (sender recipient : TSender)
    (memo : option MemoInput) (st : State) (out : outcome plain) (st' : State)
    (tx : Transaction) :
  swapPayment sdk srv consts options sender recipient memo st = (out, st') ->
  In (SubmitTransaction tx) (since st st') ->
  exists fees pre,
    since st st' = pre ++ [SubmitTransaction tx] /\
    forallb (fun c => negb (is_submit c)) pre = true /\
    srv_getFees srv (calls st) = Return fees /\
    tx_fee tx = or_default (max fees) BASE_FEE /\
    tx_networkPassphrase tx = networkPassphrase options /\
    tx_timeout tx = 30%Z /\
    attached_memo srv memo (tx_memo tx) /\
    match srv_submitTransaction srv (calls st ++ pre) tx with
    | Return _ => out = Return (PBool true)
    | Throw e =>
        match response e with
        | Some r => out = Return (data r)
        | None =>
            out = Throw (TypeError "Cannot read properties of undefined (reading 'data')")
        end
    end.
Proof.
  intros H Hin. unfold swapPayment in H.
  run H; traces; same_answers.
  all: submitted Hin.
  all: match goal with
       | Hf : srv_getFees _ _ = Return ?f |- _ =>
           exists f; eexists [GetFees; LoadAccount _; ValidateAssetBalance _ _ _]
       end.
  all: repeat match goal with |- _ /\ _ => split end;
    try reflexivity; try assumption.
  all: unfold attached_memo;
    repeat match goal with
           | Hr : ?x = _ |- context [?x] => rewrite Hr
           end; eauto.
Qed.

Lemma swapPayment_answers_after_submission_witness :
  fst (swapPayment Double.sdk Double.bad_day Double.consts Double.options
                   Double.swap_sender Double.swap_recipient None fresh)
  = Return (PObject "{status: 400}").
Proof.
  destruct (swapPayment_answers_after_submission
              Double.sdk Double.bad_day Double.consts Double.options
              Double.swap_sender Double.swap_recipient None fresh _ _
              Double.swap_tx (surjective_pairing _))
    as (fees & pre & _ & _ & _ & _ & _ & _ & _ & Hout).
  - vm_compute. do 3 right. left. reflexivity.
  - exact Hout.
Defined.

(* ================================================================== *)
(** ** PaymentService: sendHighPriorityPayment *)

Lemma bindH_inv {A B} (m : MH A) (k : A -> MH B) st out st' :
  bindH m k st = (out, st') ->
  (exists a st1, m st = (Return a, st1) /\ k a st1 = (out, st')) \/
  (exists e, m st = (Throw e, st') /\ out = Throw e).
Proof.
  unfold bindH. destruct (m st) as [[a|e] st1]; intros H.
  - left. eauto.
  - right. inversion H; subst. eauto.
Qed.

Lemma liftH_inv {A} (m : M A) st out st' :
  liftH m st = (out, st') ->
  exists s, m (base_state st) = (out, s) /\
            st' = {| base_state := s; bumped := bumped st |}.
Proof.
  unfold liftH. destruct (m (base_state st)) as [o s]. intros H.
  inversion H; subst. eauto.
Qed.





(** X8.  When [payCommission] names a role for which no configured account
    yields a secret, and the SDK refuses to make a keypair of [undefined],
    [sendHighPriorityPayment] throws and submits no envelope.  The refusal
    comes late: the payment transaction has been built and signed and the
    fees have been asked for a second time before the secret is looked
    up. *)
Theorem sendHighPriorityPayment_unknown_commission_role
    (sdk : SDK) (srv : Services) (fbs : FeeBumping) (consts : Constants)
    (options : StellarModuleConfig) (payments : list TPayment)
    (secretKey : string) (payCommission : option string) (e : Error)
    (st : HighPriorityState) (out : outcome string) (st' : HighPriorityState) :
  truthy_opt payCommission = true ->
  commission_secret options (or_default payCommission "") = Return None ->
  Keypair_fromSecret sdk None = Throw e ->
  sendHighPriorityPayment sdk srv fbs consts options payments secretKey
                          payCommission st = (out, st') ->
  bumped st' = bumped st /\
  (exists e', out = Throw e') /\
  (forall inner s1 fees,
     sendPayment sdk srv consts options payments secretKey true (base_state st)
       = (Return (SignedEnvelope inner), s1) ->
     srv_getFees srv (calls s1) = Return fees ->
     out = Throw e /\
     exists unsigned signers,
       filter is_sign (since (base_state st) (base_state st'))
       = [SignTransaction unsigned signers] /\
       last (since (base_state st) (base_state st')) GetFees = GetFees).
Proof.
  intros Ht Hrole Hundef H. unfold sendHighPriorityPayment in H.
  rewrite Ht, Hrole in H.
  apply bindH_inv in H. destruct H as [(sent & st1 & Hp & H) | (e1 & Hp & ->)];
    apply liftH_inv in Hp as (s1 & Hp & ->).
  2: { cbn [bumped]. split; [reflexivity|]. split; [eauto|].
       intros inner s1' fees Hp'. rewrite Hp in Hp'. discriminate Hp'. }
  destruct (sendPayment_returns _ _ _ _ _ _ _ _ _ _ Hp)
    as (fees0 & sourcePair & sourceAccount & groups & d & memo & first & inner
        & _ & _ & _ & _ & Hsafe & _ & _ & Hsign & -> & Hs).
  cbn zeta in *.
  apply bindH_inv in H. destruct H as [(fees & st2 & Hf & H) | (e1 & Hf & ->)];
    apply liftH_inv in Hf as (s2 & Hf & ->); unfold getFees in Hf;
    apply call_inv in Hf as [Hf ->]; cbn [base_state bumped calls] in *.
  2: { split; [reflexivity|]. split; [eauto|].
       intros inner' s1' fees Hp' Hf'. rewrite Hp in Hp'.
       injection Hp' as <- <-. rewrite Hf in Hf'. discriminate Hf'. }
  apply bindH_inv in H. destruct H as [(secret & st3 & Hc & H) | (e1 & Hc & _)];
    apply liftH_inv in Hc as (s3 & Hc & ->); apply lift_inv in Hc as [Hc ->];
    [injection Hc as <- | discriminate Hc].
  apply bindH_inv in H. destruct H as [(feeSource & st4 & Hk & H) | (e1 & Hk & ->)];
    apply liftH_inv in Hk as (s4 & Hk & ->); apply lift_inv in Hk as [Hk ->];
    rewrite Hundef in Hk; [discriminate Hk | injection Hk as <-].
  cbn [base_state bumped calls]. split; [reflexivity|]. split; [eauto|].
  intros _ _ _ _ _. split; [reflexivity|].
  unfold since. cbn [calls]. rewrite Hs, <- (app_assoc (calls _)), skipn_exact.
  eexists _, _. split.
  - rewrite !filter_app. cbn [app filter is_sign].
    rewrite (before_signing_no_sign _ Hsafe). reflexivity.
  - apply last_last.
Qed.

Lemma sendHighPriorityPayment_unknown_commission_role_witness :
  bumped (snd (sendHighPriorityPayment Double.sdk Double.good_day
                 (Fixture.fee_bumping true) Double.consts Double.options
                 [Fixture.pay_usd_opening; Fixture.pay_xlm_second]
                 Double.alice_secret (Some "TREASURY") Fixture.fresh_priority))
  = []
  /\ exists e,
       fst (sendHighPriorityPayment Double.sdk Double.good_day
              (Fixture.fee_bumping true) Double.consts Double.options
              [Fixture.pay_usd_opening; Fixture.pay_xlm_second]
              Double.alice_secret (Some "TREASURY") Fixture.fresh_priority)
       = Throw e.
Proof.
  destruct (sendHighPriorityPayment_unknown_commission_role
              Double.sdk Double.good_day (Fixture.fee_bumping true)
              Double.consts Double.options
              [Fixture.pay_usd_opening; Fixture.pay_xlm_second]
              Double.alice_secret (Some "TREASURY")
              (new_Error "invalid encoded string") Fixture.fresh_priority _ _
              eq_refl eq_refl eq_refl (surjective_pairing _))
    as (Hb & He & _).
  split; [exact Hb | exact He].
Defined.

(* ================================================================== *)
(** ** AccountService: more of createAccount *)

Lemma includes_In xs x : JS.includes xs x = true <-> In x xs.
Proof.
  unfold JS.includes. rewrite existsb_exists. split.
  - intros (y & Hy & E). apply String.eqb_eq in E. now subst.
  - intros H. exists x. split; [assumption|apply String.eqb_refl].
Qed.

(** X9.  [createAccount] validates the configured role before anything
    else: when the [create_by] role is not the type of a configured
    account, it throws the invalid-account-type error, which lists the
    configured types, without a call to any collaborator; that a creator's
    secret was passed makes no difference. *)
Theorem createAccount_checks_role_first
    (sdk : SDK) (srv : Services) (consts : Constants)
    (options : StellarModuleConfig) (c : AccountConfig)
    (secret trustline : option string) (st : State) :
  role_not_configured options c ->
  createAccount sdk srv consts options secret trustline st
  = (Throw (new_Error
              (INVALID_ACCOUNT_TYPE consts ++ " valid types are ["
               ++ String.concat ", " (accountsTypes options) ++ "] not "
               ++ undefined_to_string (create_by c))), st).
Proof.
  intros [Hc Hr].
  assert ((match create_by c with
           | Some r => JS.includes (accountsTypes options) r
           | None => false
           end) = false) as E.
  { destruct (create_by c) as [r|]; [|reflexivity].
    destruct (JS.includes (accountsTypes options) r) eqn:Hi; [|reflexivity].
    apply includes_In in Hi. now apply Hr in Hi. }
  unfold createAccount, validateAccountType, accountOptions_get, accountOptions,
    bind, ret, throw.
  rewrite Hc. cbn. rewrite E. reflexivity.
Qed.

Lemma createAccount_checks_role_first_witness :
  createAccount Double.sdk Double.good_day Double.consts Fixture.options_unknown_role
                (Some Double.master_secret) None fresh
  = (Throw (new_Error "Invalid account type valid types are [ACCOUNT] not ISSUER"),
     fresh).
Proof.
  refine (createAccount_checks_role_first
            Double.sdk Double.good_day Double.consts Fixture.options_unknown_role
            Fixture.issuer_config (Some Double.master_secret) None fresh _).
  split; [reflexivity|].
  intros r Hr. injection Hr as <-. simpl. intros [E | []]. discriminate E.
Defined.

(** The pieces of the base trustlines. *)
Lemma map_M_trustline_pieces options ts st pieces st' :
  map_M (trustline_pieces options) ts st = (Return pieces, st') ->
  st' = st /\
  Forall2 (fun t p => exists s, base_trustline_descriptor options t = Some s /\
                                p = JS.split ":" s) ts pieces.
Proof.
  revert pieces. induction ts as [|t ts IH]; intros pieces H.
  - simpl in H. apply ret_inv in H as [H ->]. injection H as H. subst pieces. auto.
  - simpl in H. apply bind_inv in H.
    destruct H as [(p & st1 & Hp & H) | (e & _ & E)]; [|discriminate E].
    apply bind_inv in H.
    destruct H as [(ps & st2 & Hps & H) | (e & _ & E)]; [|discriminate E].
    apply ret_inv in H as [H ->]. injection H as H. subst pieces.
    assert (st1 = st /\ exists s, base_trustline_descriptor options t = Some s /\
                                  p = JS.split ":" s) as [-> Hd].
    { unfold trustline_pieces, base_trustline_descriptor in *.
      destruct t as [s|testnet public].
      - apply ret_inv in Hp as [Hp ->]. injection Hp as Hp. subst p. eauto.
      - destruct (match or_default (mode options) TESTNET with
                  | TESTNET => testnet | PUBLIC => public end) as [s|].
        + apply ret_inv in Hp as [Hp ->]. injection Hp as Hp. subst p. eauto.
        + apply throw_inv in Hp as [Hp _]. discriminate Hp. }
    destruct (IH _ Hps) as [-> HF]. split; [reflexivity|]. constructor; assumption.
Qed.

(** The loop over the pieces appends one change-trust for each. *)
Lemma createAccount_trustlines sdk (source : string) pieces st st' tb :
  forEach (fun t =>
             a <- lift (Asset_new sdk (JS.index t 0) (JS.index t 1)) ;;
             op <- Operation_make sdk (changeTrust (Some source) a None) ;;
             addOperation op)%js
          pieces st = (Return tt, st') ->
  builder st = Some tb ->
  exists ops,
    Forall2 (fun p op => exists a,
               Asset_new sdk (JS.index p 0) (JS.index p 1) = Return a /\
               op = changeTrust (Some source) a None) pieces ops /\
    st' = {| calls := calls st;
             builder := Some {| tb_source := tb_source tb; tb_fee := tb_fee tb;
                                tb_networkPassphrase := tb_networkPassphrase tb;
                                tb_operations := tb_operations tb ++ ops;
                                tb_memo := tb_memo tb;
                                tb_timeout := tb_timeout tb |} |}.
Proof.
  revert st tb. induction pieces as [|p pieces IH]; intros st tb H Hb.
  - simpl in H. apply ret_inv in H as [_ ->]. exists []. split; [constructor|].
    rewrite app_nil_r. destruct st as [cs b]. cbn in *. subst b. now destruct tb.
  - simpl in H. apply bind_inv in H.
    destruct H as [(u & st1 & Hl & H) | (e & _ & E)]; [|discriminate E].
    run Hl; same_answers.
    destruct (IH _ _ H eq_refl) as (ops & HF & ->). project.
    eexists (_ :: ops). split; [constructor; [eexists; split; [eassumption|reflexivity]|exact HF]|].
    rewrite <- app_assoc. reflexivity.
Qed.

Lemma base_trustlines_compose sdk options source ts pieces ops :
  Forall2 (fun t p => exists s, base_trustline_descriptor options t = Some s /\
                                p = JS.split ":" s) ts pieces ->
  Forall2 (fun p op => exists a,
             Asset_new sdk (JS.index p 0) (JS.index p 1) = Return a /\
             op = changeTrust (Some source) a None) pieces ops ->
  Forall2 (opens_base_trustline sdk options source) ts ops.
Proof.
  intros H. revert ops. induction H as [|t p ts pieces (s & Hs & ->) _ IH]; intros ops H2;
    inversion H2 as [|? op ? ops' (a & Ha & ->) H2']; subst; constructor.
  - exists s, a. auto.
  - apply IH. assumption.
Qed.

(** Looks for the signature request [Hin] speaks of in a trace that is
    written out. *)
Ltac signed Hin :=
  simpl in Hin; repeat (destruct Hin as [Hin | Hin]);
  try discriminate Hin; try contradiction;
  try (injection Hin as <- <-); project.

(** X10.  The transaction [createAccount] asks a signature for is built on
    the account of the creator: that of the secret passed in, or else the
    configured account of the [create_by] role.  Its operations are, in
    this order: the creation of the new account with the configured
    starting balance, or '1'; the home domain of the new account, when one
    is configured; one change-trust for each configured base trustline, read
    under the configured mode; and a change-trust for the trustline passed
    in, if any.  All but the first are sourced from the new account.  The
    new keypair signs, and the creator only when its secret was passed. *)
Theorem createAccount_transaction_shape
    (sdk : SDK) (srv : Services) (consts : Constants)
    (options : StellarModuleConfig) (secret trustline : option string)
    (st : State) (out : outcome Keypair) (st' : State)
    (tx : Transaction) (signers : list Keypair) :
  createAccount sdk srv consts options secret trustline st = (out, st') ->
  In (SignTransaction tx signers) (since st st') ->
  let newKey := kp_publicKey (Keypair_random sdk) in
  exists c fees keyPair baseOps lastOps,
    account_config options = Some c /\
    srv_getFees srv (calls st) = Return fees /\
    (if truthy_opt secret then Keypair_fromSecret sdk secret = Return keyPair
     else Keypair_fromPublicKey sdk (destination_role options) = Return keyPair) /\
    srv_loadAccount srv (calls st ++ [GetFees]) (Some (kp_publicKey keyPair))
    = Return (tx_source tx) /\
    tx_fee tx = or_default (base fees) BASE_FEE /\
    tx_networkPassphrase tx = networkPassphrase options /\
    tx_timeout tx = 180%Z /\
    signers = Keypair_random sdk :: (if truthy_opt secret then [keyPair] else []) /\
    Forall2 (opens_base_trustline sdk options newKey)
            (or_default (opt_chain (starting c) starting_baseTrustline) []) baseOps /\
    (if truthy_opt trustline
     then exists ASSET, getAssetCode srv (or_default trustline "") = Return ASSET /\
                        lastOps = [changeTrust (Some newKey) ASSET None]
     else lastOps = []) /\
    tx_operations tx
    = [createAccountOp newKey (or_string (opt_chain (starting c) starting_balance) "1")]
      ++ (if truthy_opt (opt_chain (starting c) starting_homeDomain)
          then [setOptions (Some newKey)
                           (or_default (opt_chain (starting c) starting_homeDomain) "")]
          else [])
      ++ baseOps ++ lastOps.
Proof.
  intros H Hin newKey. unfold createAccount in H.
  run H.
  all: repeat match goal with
       | Hl : map_M _ _ _ = _ |- _ =>
           first [ apply map_M_trustline_pieces in Hl as [? HP]; subst
                 | apply silent_map_M in Hl; [|intro; apply silent_trustline_pieces] ]
       | Hl : forEach _ _ _ = (Return tt, _) |- _ =>
           destruct (createAccount_trustlines _ _ _ _ _ _ Hl eq_refl)
             as (baseOps & HB & ?); clear Hl; subst
       | Hl : forEach _ _ _ = (Throw _, _) |- _ =>
           apply silent_forEach in Hl; [|intro; auto with silent]
       end; project; traces.
  all: signed Hin.
  all: same_answers; subst newKey.
  all: destruct (create_by _) eqn:Hr; [|discriminate].
  all: match goal with
       | Hc : account_config _ = Some ?c, Hf : srv_getFees _ _ = Return ?f,
         Hk : _ = Return ?k, Ha : srv_loadAccount _ _ (Some (kp_publicKey ?k)) = _ |- _ =>
           exists c, f, k
       end.
  all: tidy.
  all: first [ match goal with HB : Forall2 _ _ ?b |- _ => exists b end | exists [] ].
  all: eexists.
  all: repeat match goal with |- _ /\ _ => split end; try reflexivity; try assumption.
  all: try (eexists; split; [eassumption|reflexivity]).
  all: repeat match goal with
       | Hr : ?x = _ |- context [?x] => rewrite Hr
       end; cbn [or_default app]; rewrite ?app_nil_r.
  all: try (constructor; fail).
  all: try (eapply base_trustlines_compose; eassumption).
  all: try match goal with
       | Hk : Keypair_fromPublicKey _ _ = _ |- Keypair_fromPublicKey _ _ = _ =>
           unfold destination_role;
           repeat match goal with
                  | Hr : ?x = _ |- context [?x] => rewrite Hr
                  end;
           cbn [opt_chain] in *; rewrite Hr in *; exact Hk
       end.
Qed.

Lemma createAccount_transaction_shape_witness :
  exists c fees keyPair baseOps lastOps,
    account_config Double.options = Some c /\
    srv_getFees Double.good_day (calls fresh) = Return fees /\
    Keypair_fromPublicKey Double.sdk (destination_role Double.options)
    = Return keyPair /\
    srv_loadAccount Double.good_day (calls fresh ++ [GetFees])
                    (Some (kp_publicKey keyPair))
    = Return (tx_source Double.create_tx) /\
    tx_fee Double.create_tx = or_default (base fees) BASE_FEE /\
    tx_networkPassphrase Double.create_tx = networkPassphrase Double.options /\
    tx_timeout Double.create_tx = 180%Z /\
    [Keypair_random Double.sdk] = [Keypair_random Double.sdk] /\
    Forall2 (opens_base_trustline Double.sdk Double.options
               (kp_publicKey (Keypair_random Double.sdk)))
            (or_default (opt_chain (starting c) starting_baseTrustline) []) baseOps /\
    lastOps = [] /\
    tx_operations Double.create_tx
    = [createAccountOp (kp_publicKey (Keypair_random Double.sdk))
                       (or_string (opt_chain (starting c) starting_balance) "1")]
      ++ (if truthy_opt (opt_chain (starting c) starting_homeDomain)
          then [setOptions (Some (kp_publicKey (Keypair_random Double.sdk)))
                           (or_default (opt_chain (starting c) starting_homeDomain) "")]
          else [])
      ++ baseOps ++ lastOps.
Proof.
  refine (createAccount_transaction_shape
            Double.sdk Double.good_day Double.consts Double.options None None
            fresh _ _ Double.create_tx [Keypair_random Double.sdk]
            (surjective_pairing _) _).
  vm_compute. do 2 right. left. reflexivity.
Defined.

(* ================================================================== *)
(** ** AccountService: more of deleteAccount *)

(** The loop over the balances leaves the network of the builder alone. *)
Lemma deleteAccount_lines_network sdk destination lines st st' tb :
  forEach (deleteAccount_line sdk destination) lines st = (Return tt, st') ->
  builder st = Some tb ->
  exists tb', builder st' = Some tb' /\
              tb_networkPassphrase tb' = tb_networkPassphrase tb.
Proof.
  revert st tb. induction lines as [|line lines IH]; intros st tb H Hb.
  - simpl in H. apply ret_inv in H as [_ ->]. eauto.
  - simpl in H. apply bind_inv in H.
    destruct H as [(u & st1 & Hl & H) | (e & _ & E)]; [|discriminate E].
    unfold deleteAccount_line in Hl. run Hl; same_answers.
    all: first [ destruct (IH _ _ H eq_refl) as (tb' & Hb' & Hp)
               | destruct (IH _ _ H Hb) as (tb' & Hb' & Hp) ]; project; eauto.
Qed.

(** X11.  Once [deleteAccount] has submitted its transaction it resolves
    to [undefined] whatever Horizon answers: a rejection of the submission
    is caught and dropped, so the caller cannot tell a closed account from
    one that is still open.  The transaction is signed by the keypair of
    the account being closed and by no other, offers the base fee Horizon
    reports, or the SDK's [BASE_FEE], and has a timeout of 30. *)
Theorem deleteAccount_rejection_is_dropped
    (sdk : SDK) (srv : Services) (consts : Constants)
    (options : StellarModuleConfig) (secret : string)
    (st : State) (out : outcome unit) (st' : State) (tx : Transaction) :
  deleteAccount sdk srv consts options secret st = (out, st') ->
  In (SubmitTransaction tx) (since st st') ->
  out = Return tt /\
  exists keypair fees,
    Keypair_fromSecret sdk (Some secret) = Return keypair /\
    srv_getFees srv (calls st ++ [LoadAccount (Some (kp_publicKey keypair))])
    = Return fees /\
    tx_signatures tx = [keypair] /\
    tx_fee tx = or_default (base fees) BASE_FEE /\
    tx_networkPassphrase tx = networkPassphrase options /\
    tx_timeout tx = 30%Z.
Proof.
  intros H Hin. unfold deleteAccount in H.
  run H.
  all: try match goal with
       | Hl : forEach _ _ _ = _ |- _ =>
           pose proof (silent_forEach _ _ (silent_deleteAccount_line _ _) _ _ _ Hl) as Hcalls
       end; project; traces.
  all: submitted Hin.
  all: match goal with
       | Hl : forEach _ _ _ = _ |- _ =>
           destruct (deleteAccount_lines _ _ _ _ _ _ Hl eq_refl)
             as (groups & tb' & HF & Hb' & Hs' & Hf' & Ho');
           destruct (deleteAccount_lines_network _ _ _ _ _ _ Hl eq_refl)
             as (tb2 & Hb2 & Hp')
       end; project; same_answers.
  all: split; [reflexivity|].
  all: eexists _, _; repeat match goal with |- _ /\ _ => split end;
    try eassumption; try reflexivity.
Qed.

Lemma deleteAccount_rejection_is_dropped_witness :
  srv_submitTransaction Double.bad_day
    [LoadAccount (Some Double.alice); GetFees] Double.delete_tx
  = Throw (Double.http_error "{status: 400}")
  /\ fst (deleteAccount Double.sdk Double.bad_day Double.consts Double.options
                        Double.alice_secret fresh)
     = Return tt.
Proof.
  split; [reflexivity|].
  refine (proj1 (deleteAccount_rejection_is_dropped
                   Double.sdk Double.bad_day Double.consts Double.options
                   Double.alice_secret fresh _ _ Double.delete_tx
                   (surjective_pairing _) _)).
  vm_compute. do 2 right. left. reflexivity.
Defined.

(** A payment among the operations that drain the lines is the payment of
    a balance that does not parse to zero. *)
Lemma drain_line_payment_nonzero sdk destination lines groups source to a b :
  Forall2 (drain_line sdk destination) lines groups ->
  In (payment source to a b) (List.concat groups) ->
  JS.is_zero (JS.parseFloat b) = false.
Proof.
  induction 1 as [|line ops lines groups (a' & _ & ->) _ IH]; [intros []|].
  simpl List.concat. intros Hin.
  apply in_app_or in Hin as [Hin|Hin]; [|auto].
  apply in_app_or in Hin as [Hin|Hin].
  - destruct (JS.is_zero (JS.parseFloat (balance line))) eqn:Hz; [destruct Hin|].
    destruct Hin as [Hin|[]]. injection Hin as _ _ _ <-. exact Hz.
  - destruct Hin as [Hin|[]]. discriminate Hin.
Qed.

(** Every line that is drained has its trustline removed, and its balance
    paid out when it does not parse to zero. *)
Lemma drain_line_covers sdk destination lines groups line :
  Forall2 (drain_line sdk destination) lines groups ->
  In line lines ->
  exists a,
    Asset_new sdk (asset_code line) (asset_issuer line) = Return a /\
    In (changeTrust None a (Some "0")) (List.concat groups) /\
    (JS.is_zero (JS.parseFloat (balance line)) = false ->
     In (payment None destination a (balance line)) (List.concat groups)).
Proof.
  induction 1 as [|l ops lines groups (a & Ha & ->) _ IH]; [intros []|].
  simpl List.concat. intros [<- | Hin].
  - exists a. split; [assumption|]. split.
    + apply in_or_app. left. apply in_or_app. right. left. reflexivity.
    + intros ->. apply in_or_app. left. left. reflexivity.
  - destruct (IH Hin) as (a' & Ha' & Hc & Hp). exists a'.
    split; [assumption|]. split; [apply in_or_app; auto|].
    intros Hz. apply in_or_app. auto.
Qed.

(** X12.  In the transaction [deleteAccount] submits, a non-native balance
    line of the account whose balance is written as Horizon writes amounts,
    digits, a point and digits (at most 240 after the point), has its
    trustline removed, and its balance is paid out to the account of the
    configured role exactly when one of the digits is not 0: the comparison
    of the parsed number with zero loses no balance to rounding, however
    small. *)
Theorem deleteAccount_pays_out_nonzero_balances
    (sdk : SDK) (srv : Services) (consts : Constants)
    (options : StellarModuleConfig) (secret : string)
    (st : State) (out : outcome unit) (st' : State) (tx : Transaction)
    (line : BalanceLine) (ip fp : string) :
  deleteAccount sdk srv consts options secret st = (out, st') ->
  In (SubmitTransaction tx) (since st st') ->
  In line (balances (tx_source tx)) ->
  not_native line = true ->
  balance line = (ip ++ "." ++ fp)%string ->
  all_digits ip = true -> ip <> "" -> all_digits fp = true ->
  (String.length fp <= 240)%nat ->
  exists a,
    Asset_new sdk (asset_code line) (asset_issuer line) = Return a /\
    In (changeTrust None a (Some "0")) (tx_operations tx) /\
    (In (payment None (destination_role options) a (balance line)) (tx_operations tx)
     <-> (all_zeros ip && all_zeros fp)%bool = false).
Proof.
  intros H Hin Hline Hn Hb Hi Hne Hf Hlen. unfold deleteAccount in H.
  pose proof (parseFloat_ledger_amount_zero ip fp Hi Hne Hf Hlen) as Hz.
  rewrite <- Hb in Hz.
  run H.
  all: try match goal with
       | Hl : forEach _ _ _ = _ |- _ =>
           pose proof (silent_forEach _ _ (silent_deleteAccount_line _ _) _ _ _ Hl) as Hcalls
       end; project; traces.
  all: submitted Hin.
  all: apply negb_false_iff in Heqb; unfold accountOptions in Heqb;
    rewrite (destination_role_found _ Heqb) in *.
  all: match goal with
       | Hl : forEach _ _ _ = _ |- _ =>
           destruct (deleteAccount_lines _ _ _ _ _ _ Hl eq_refl)
             as (groups & tb' & HF & Hb' & Hs' & Hf' & Ho')
       end; project; same_answers.
  all: rewrite ?Hs', ?Ho' in *; cbn [app] in *.
  all: destruct (drain_line_covers _ _ _ _ line HF) as (a & Ha & Hc & Hp);
    [apply filter_In; auto|].
  all: exists a; split; [exact Ha|]; split; [apply in_or_app; auto|].
  all: rewrite <- Hz; split.
  all: try (intros Hpay; apply in_app_or in Hpay as [Hpay|[Hpay|[]]];
            [exact (drain_line_payment_nonzero _ _ _ _ _ _ _ _ HF Hpay)
            |discriminate Hpay]).
  all: intros Hnz; apply in_or_app; auto.
Qed.

Lemma deleteAccount_pays_out_nonzero_balances_witness :
  exists a,
    Asset_new Double.sdk (asset_code (Double.usd_line "12.5000000"))
                         (asset_issuer (Double.usd_line "12.5000000"))
    = Return a /\
    In (changeTrust None a (Some "0")) (tx_operations Double.delete_tx) /\
    (In (payment None (destination_role Double.options) a
                 (balance (Double.usd_line "12.5000000")))
        (tx_operations Double.delete_tx)
     <-> (all_zeros "12" && all_zeros "5000000")%bool = false).
Proof.
  refine (deleteAccount_pays_out_nonzero_balances
            Double.sdk Double.bad_day Double.consts Double.options
            Double.alice_secret fresh _ _ Double.delete_tx
            (Double.usd_line "12.5000000") "12" "5000000"
            (surjective_pairing _) _ _ _ _ _ _ _ _).
  - vm_compute. do 2 right. left. reflexivity.
  - left. reflexivity.
  - reflexivity.
  - reflexivity.
  - reflexivity.
  - discriminate.
  - reflexivity.
  - cbn. lia.
Defined.

(* ================================================================== *)
(** ** AccountService: more of validateTrustLine *)

(** X13.  To add a trustline, [validateTrustLine] asks a signature for a
    transaction of two change-trust operations sourced from the wallet: the
    first, with limit 0, is for the asset of the first non-native balance
    line the wallet holds; the second is for the requested asset.  The
    transaction is built on the account of the configured role, which signs
    with the wallet, at the SDK's [BASE_FEE] without a fee request, with a
    timeout of 180; and it is asked for only when no line of the wallet has
    the code of the requested asset. *)
Theorem validateTrustLine_replaces_first_line
    (sdk : SDK) (srv : Services) (consts : Constants)
    (options : StellarModuleConfig) (asset : string) (wallet : Wallet)
    (st : State) (out : outcome plain) (st' : State)
    (tx : Transaction) (signers : list Keypair) :
  validateTrustLine sdk srv consts options asset wallet st = (out, st') ->
  In (SignTransaction tx signers) (since st st') ->
  exists ASSET master walletAccount old walletPair,
    getAssetCode srv asset = Return ASSET /\
    Keypair_fromSecret sdk (role_secret options) = Return master /\
    srv_loadAccount srv (calls st) (Some (kp_publicKey master)) = Return (tx_source tx) /\
    srv_loadAccount srv (calls st ++ [LoadAccount (Some (kp_publicKey master))])
                    (Some (w_publicKey wallet)) = Return walletAccount /\
    (forall b, In b (balances walletAccount) -> asset_code b <> Some (code ASSET)) /\
    Asset_new sdk
      (opt_chain (List.find not_native (balances walletAccount)) asset_code)
      (opt_chain (List.find not_native (balances walletAccount)) asset_issuer)
    = Return old /\
    tx_operations tx
    = [changeTrust (Some (w_publicKey wallet)) old (Some "0");
       changeTrust (Some (w_publicKey wallet)) ASSET None] /\
    tx_fee tx = BASE_FEE /\
    tx_networkPassphrase tx = networkPassphrase options /\
    tx_timeout tx = 180%Z /\
    Keypair_fromSecret sdk (Some (w_secret wallet)) = Return walletPair /\
    signers = [master; walletPair] /\
    filter is_getFees (since st st') = [].
Proof.
  intros H Hin. unfold validateTrustLine in H.
  run H; traces; same_answers.
  all: signed Hin.
  all: rewrite role_secret_of_role in *; unfold JS.find in *.
  all: match goal with
       | HA : getAssetCode _ _ = Return ?A,
         Hk : Keypair_fromSecret _ (role_secret _) = Return ?m,
         Hw : srv_loadAccount _ (_ ++ _) _ = Return ?w,
         Ho : Asset_new _ _ _ = Return ?o,
         Hp : Keypair_fromSecret _ (Some _) = Return ?p |- _ =>
           exists A, m, w, o, p
       end.
  all: repeat match goal with |- _ /\ _ => split end; try reflexivity; try assumption.
  all: intros line Hline Hcode;
    match goal with
    | Hf : List.find _ _ = None |- _ =>
        apply find_none with (x := line) in Hf; [|assumption];
        rewrite Hcode, String.eqb_refl in Hf; discriminate Hf
    end.
Qed.

Lemma validateTrustLine_replaces_first_line_witness :
  exists ASSET master walletAccount old walletPair,
    getAssetCode Double.good_day Fixture.gbp = Return ASSET /\
    Keypair_fromSecret Double.sdk (role_secret Double.options) = Return master /\
    srv_loadAccount Double.good_day (calls fresh) (Some (kp_publicKey master))
    = Return (tx_source Fixture.trust_tx) /\
    srv_loadAccount Double.good_day
                    (calls fresh ++ [LoadAccount (Some (kp_publicKey master))])
                    (Some (w_publicKey Double.alice_wallet)) = Return walletAccount /\
    (forall b, In b (balances walletAccount) -> asset_code b <> Some (code ASSET)) /\
    Asset_new Double.sdk
      (opt_chain (List.find not_native (balances walletAccount)) asset_code)
      (opt_chain (List.find not_native (balances walletAccount)) asset_issuer)
    = Return old /\
    tx_operations Fixture.trust_tx
    = [changeTrust (Some (w_publicKey Double.alice_wallet)) old (Some "0");
       changeTrust (Some (w_publicKey Double.alice_wallet)) ASSET None] /\
    tx_fee Fixture.trust_tx = BASE_FEE /\
    tx_networkPassphrase Fixture.trust_tx = networkPassphrase Double.options /\
    tx_timeout Fixture.trust_tx = 180%Z /\
    Keypair_fromSecret Double.sdk (Some (w_secret Double.alice_wallet))
    = Return walletPair /\
    [Fixture.master_pair; Fixture.alice_pair] = [master; walletPair] /\
    filter is_getFees
      (since fresh (snd (validateTrustLine Double.sdk Double.good_day Double.consts
                           Double.options Fixture.gbp Double.alice_wallet fresh)))
    = [].
Proof.
  refine (validateTrustLine_replaces_first_line
            Double.sdk Double.good_day Double.consts Double.options
            Fixture.gbp Double.alice_wallet fresh _ _
            Fixture.trust_tx [Fixture.master_pair; Fixture.alice_pair]
            (surjective_pairing _) _).
  vm_compute. do 2 right. left. reflexivity.
Defined.



(** X15.  The submission of [validateTrustLine] is its last call.  When
    Horizon accepts it the method resolves to [true]; when Horizon rejects
    it with an error whose response has a body, the method resolves to that
    body, so that a failure is returned where [true] is expected, not
    thrown.  A rejection without a response, or without a body, makes the
    handler itself throw. *)
Theorem validateTrustLine_returns_rejection_body
    (sdk : SDK) (srv : Services) (consts : Constants)
    (options : StellarModuleConfig) (asset : string) (wallet : Wallet)
    (st : State) (out : outcome plain) (st' : State) (tx : Transaction) :
  validateTrustLine sdk srv consts options asset wallet st = (out, st') ->
  In (SubmitTransaction tx) (since st st') ->
  exists pre,
    since st st' = pre ++ [SubmitTransaction tx] /\
    forallb (fun c => negb (is_submit c)) pre = true /\
    match srv_submitTransaction srv (calls st ++ pre) tx with
    | Return _ => out = Return (PBool true)
    | Throw e =>
        match response e with
        | Some r =>
            match data r with
            | PUndefined | PNull =>
                out = Throw (TypeError
                               "Cannot read properties of undefined (reading 'extras')")
            | body => out = Return body
            end
        | None =>
            out = Throw (TypeError "Cannot read properties of undefined (reading 'data')")
        end
    end.
Proof.
  intros H Hin. unfold validateTrustLine in H.
  run H; traces; same_answers.
  all: submitted Hin.
  all: eexists [LoadAccount _; LoadAccount _; SignTransaction _ _].
  all: split; [reflexivity|]; split; [reflexivity|].
  all: cbn [app];
    repeat match goal with
           | Hr : ?x = _ |- context [?x] => rewrite Hr
           end; reflexivity.
Qed.

Lemma validateTrustLine_returns_rejection_body_witness :
  fst (validateTrustLine Double.sdk Double.bad_day Double.consts Double.options
                         Fixture.gbp Double.alice_wallet fresh)
  = Return (PObject "{status: 400}").
Proof.
  destruct (validateTrustLine_returns_rejection_body
              Double.sdk Double.bad_day Double.consts Double.options
              Fixture.gbp Double.alice_wallet fresh _ _
              (Double.add_signatures Fixture.trust_tx
                                     [Fixture.master_pair; Fixture.alice_pair])
              (surjective_pairing _))
    as (pre & _ & _ & Hout).
  - vm_compute. do 3 right. left. reflexivity.
  - exact Hout.
Defined.

(* ================================================================== *)
(** ** AccountUtilsService: getAccountFromSecret *)

(** X16.  [getAccountFromSecret] makes no call for a secret the SDK does
    not accept: it throws the module's invalid-secret error in place of
    whatever the SDK threw.  For a secret the SDK accepts it loads the
    account of the derived public key, once; the pair it resolves to holds
    the keypair and the account that was loaded, never [null], and a failure
    of the load is thrown on as it is. *)
Theorem getAccountFromSecret_masks_sdk_error
    (sdk : SDK) (srv : Services) (consts : Constants) (secret : option string)
    (st : State) (out : outcome (Keypair * option AccountResponse)) (st' : State) :
  getAccountFromSecret sdk srv consts secret st = (out, st') ->
  match Keypair_fromSecret sdk secret with
  | Throw _ => out = Throw (new_Error (INVALID_SECRET consts)) /\ st' = st
  | Return keypair =>
      since st st' = [LoadAccount (Some (kp_publicKey keypair))] /\
      builder st' = builder st /\
      match srv_loadAccount srv (calls st) (Some (kp_publicKey keypair)) with
      | Return account => out = Return (keypair, Some account)
      | Throw e => out = Throw e
      end
  end.
Proof.
  intros H. apply getAccountFromSecret_inv in H.
  destruct H as [(e & -> & -> & ->) | (kp & -> & -> & H)]; [auto|].
  split; [apply since_extends|]. split; [reflexivity|].
  destruct H as [(a & -> & ->) | (e & -> & ->)]; reflexivity.
Qed.

Lemma getAccountFromSecret_masks_sdk_error_witness :
  fst (getAccountFromSecret Double.sdk Double.good_day Double.consts
                            (Some "not-a-secret") fresh)
  = Throw (new_Error "Invalid secret")
  /\ snd (getAccountFromSecret Double.sdk Double.good_day Double.consts
                               (Some "not-a-secret") fresh)
     = fresh.
Proof.
  exact (getAccountFromSecret_masks_sdk_error
           Double.sdk Double.good_day Double.consts (Some "not-a-secret") fresh _ _
           (surjective_pairing _)).
Defined.

(* ================================================================== *)
(** ** AccountService: createDemoAccount *)

(** X17.  [createDemoAccount] asks friendbot to fund the new account
    exactly when the mode is set to the test network: it funds nothing on
    the public network, and nothing when no mode is configured, although
    the transactions the same service builds are then made for the test
    network.  Whatever friendbot answers, a rejection included, the method
    resolves to the new keypair. *)
Theorem createDemoAccount_funds_on_testnet_only
    (sdk : SDK) (friendBot : list string -> string -> outcome plain)
    (options : StellarModuleConfig) (funded : list string) :
  createDemoAccount sdk friendBot options funded
  = (Keypair_random sdk,
     match mode options with
     | Some TESTNET => funded ++ [kp_publicKey (Keypair_random sdk)]
     | Some PUBLIC => funded
     | None => funded
     end)
  /\ networkPassphrase options
     = Networks (match mode options with
                 | Some PUBLIC => PUBLIC
                 | Some TESTNET => TESTNET
                 | None => TESTNET
                 end).
Proof.
  unfold createDemoAccount, mode_is_TESTNET, networkPassphrase.
  destruct (mode options) as [[|]|]; split; try reflexivity.
  now destruct (friendBot funded (kp_publicKey (Keypair_random sdk))).
Qed.

Example createDemoAccount_by_mode :
  createDemoAccount Double.sdk Fixture.friendBot_down Double.options []
  = (Keypair_random Double.sdk, [kp_publicKey (Keypair_random Double.sdk)])
  /\ createDemoAccount Double.sdk Fixture.friendBot_down Fixture.options_public_mode []
     = (Keypair_random Double.sdk, [])
  /\ createDemoAccount Double.sdk Fixture.friendBot_down Fixture.options_unset_mode []
     = (Keypair_random Double.sdk, []).
Proof. repeat split. Qed.

(* ================================================================== *)
(** ** The theorems at work *)

Example sendPayment_example_trace :
  sendPayment Double.sdk Double.good_day Double.consts Double.options
              [Fixture.pay_usd_opening; Fixture.pay_xlm_second]
              Double.alice_secret false fresh
  = (Return (TransactionHash "c0ffee"),
     {| calls :=
          [ GetFees; LoadAccount (Some Double.alice);
            ValidateAssetBalance Double.alice Fixture.usd_asset (JS.parseFloat "10");
            LoadAccount (Some Double.bob);
            ValidateAssetBalance Double.alice Fixture.xlm_asset (JS.parseFloat "5");
            LoadAccount (Some Double.bob);
            SignTransaction Fixture.payment_tx [Fixture.alice_pair; Fixture.bob_pair];
            SubmitTransaction
              (Double.add_signatures Fixture.payment_tx
                                     [Fixture.alice_pair; Fixture.bob_pair]) ];
        builder := builder (snd (sendPayment Double.sdk Double.good_day Double.consts
                                   Double.options
                                   [Fixture.pay_usd_opening; Fixture.pay_xlm_second]
                                   Double.alice_secret false fresh)) |}).
Proof. vm_compute. reflexivity. Qed.

Example sendHighPriorityPayment_example :
  sendHighPriorityPayment Double.sdk Double.good_day (Fixture.fee_bumping true)
    Double.consts Double.options
    [Fixture.pay_usd_opening; Fixture.pay_xlm_second] Double.alice_secret None
    Fixture.fresh_priority
  = (Return "b0bb1e",
     {| base_state :=
          base_state (snd (sendHighPriorityPayment Double.sdk Double.good_day
                             (Fixture.fee_bumping true) Double.consts Double.options
                             [Fixture.pay_usd_opening; Fixture.pay_xlm_second]
                             Double.alice_secret None Fixture.fresh_priority));
        bumped := [Fixture.bump_envelope] |}).
Proof. vm_compute. reflexivity. Qed.

Example validateTrustLine_example_trace :
  validateTrustLine Double.sdk Double.bad_day Double.consts Double.options
                    Fixture.gbp Double.alice_wallet fresh
  = (Return (PObject "{status: 400}"),
     {| calls :=
          [ LoadAccount (Some Double.master); LoadAccount (Some Double.alice);
            SignTransaction Fixture.trust_tx [Fixture.master_pair; Fixture.alice_pair];
            SubmitTransaction
              (Double.add_signatures Fixture.trust_tx
                                     [Fixture.master_pair; Fixture.alice_pair]) ];
        builder := builder (snd (validateTrustLine Double.sdk Double.bad_day
                                   Double.consts Double.options
                                   Fixture.gbp Double.alice_wallet fresh)) |}).
Proof. vm_compute. reflexivity. Qed.
